(** * Admin module gateway: token verification and division-scoped dispatch

    A shallow embedding of the `admin-modules` edge function
    (src/pages/DivisionDetail.tsx, lines 641-888): the bespoke bearer token
    check [verifyAdminToken] and the request handler [serve] with its three
    actions on `program_modules`; of the module manager that calls it
    (lines 439-640); and of what the division page computes from the rows
    it reads (lines 1-438). *)

From Stdlib Require Import ZArith QArith Ascii String List Lia Sorted.
From Stdlib.Strings Require Import Byte.
From stdpp Require Import base option gmap strings.
Import ListNotations.

Local Open Scope string_scope.
Local Open Scope Z_scope.
Set Warnings "-register-all".

(** ** JavaScript values

    Strings are sequences of 8-bit code units: this is exact for a header
    value and for the output of `atob`, both of which are byte strings.
    Numbers are IEEE doubles, kept as the exact rational they denote. *)

Inductive jsnum :=
| NaN
| Inf (negative : bool)
| Fin (q : Q).

Inductive jsval :=
| JUndefined
| JNull
| JBool (b : bool)
| JNum (n : jsnum)
| JStr (s : string)
| JArr (items : list jsval)
| JObj (fields : list (string * jsval)).

Definition Q_ltb (x y : Q) : bool :=
  (Qnum x * Zpos (Qden y) <? Qnum y * Zpos (Qden x))%Z.

(** `a < b` on Numbers. *)
Definition num_lt (a b : jsnum) : bool :=
  match a, b with
  | NaN, _ | _, NaN => false
  | Inf na, Inf nb => na && negb nb
  | Inf na, Fin _ => na
  | Fin _, Inf nb => negb nb
  | Fin x, Fin y => Q_ltb x y
  end.

(** ToBoolean, as used by `!v` and `v || w`. *)
Definition truthy (v : jsval) : bool :=
  match v with
  | JUndefined | JNull => false
  | JBool b => b
  | JNum NaN => false
  | JNum (Inf _) => true
  | JNum (Fin q) => negb (Qnum q =? 0)
  | JStr s => negb (String.eqb s "")
  | JArr _ | JObj _ => true
  end.

(** `a || b` *)
Definition js_or (a b : jsval) : jsval := if truthy a then a else b.

Fixpoint assoc (k : string) (fields : list (string * jsval)) : option jsval :=
  match fields with
  | [] => None
  | (k', v) :: rest => if String.eqb k k' then Some v else assoc k rest
  end.

(** `obj[k] = v` on the property list: an existing key keeps its place. *)
Fixpoint set_field (k : string) (v : jsval) (fields : list (string * jsval))
  : list (string * jsval) :=
  match fields with
  | [] => [(k, v)]
  | (k', v') :: rest =>
      if String.eqb k k' then (k', v) :: rest else (k', v') :: set_field k v rest
  end.

(** Property read `v.k`, for the handful of names the handler reads
    (exp, admin_id, action, data, id, program_id, module_type,
    is_published), none of which is defined on a built-in prototype.
    [None] is the TypeError raised on null and undefined. *)
Definition prop (v : jsval) (k : string) : option jsval :=
  match v with
  | JUndefined | JNull => None
  | JObj fields => Some (default JUndefined (assoc k fields))
  | _ => Some JUndefined
  end.

(** The shape `interface AdminTokenPayload` declares. *)
Definition is_AdminTokenPayload (v : jsval) : bool :=
  match v with
  | JObj fields =>
      match assoc "admin_id" fields, assoc "user_id" fields,
            assoc "division_id" fields, assoc "exp" fields with
      | Some (JStr _), Some (JStr _), Some (JStr _), Some (JNum _) => true
      | _, _, _, _ => false
      end
  | _ => false
  end.

(** ** The platform the function runs on

    The builtins the code calls. [None] stands for a thrown exception. *)
Class Runtime := {
  atob : string -> option string;
  JSON_parse : string -> option jsval;
  digest_SHA256 : list byte -> list byte;
  StringToNumber : string -> jsnum;
  NumberToString : jsnum -> string;
}.

(** `token.split(".")` *)
Fixpoint split_dot (s : string) : list string :=
  match s with
  | EmptyString => [EmptyString]
  | String c rest =>
      if Ascii.eqb c "." then EmptyString :: split_dot rest
      else match split_dot rest with
           | seg :: segs => String c seg :: segs
           | [] => [String c EmptyString]
           end
  end.

(** `new TextEncoder().encode(s)`: UTF-8 of a string of 8-bit code units. *)
Fixpoint TextEncoder_encode (s : string) : list byte :=
  match s with
  | EmptyString => []
  | String c rest =>
      let n := N_of_ascii c in
      (if (n <? 128)%N then [byte_of_ascii c]
       else [byte_of_ascii (ascii_of_N (192 + N.shiftr n 6));
             byte_of_ascii (ascii_of_N (128 + N.land n 63))])
      ++ TextEncoder_encode rest
  end.

Definition hex_digit (d : N) : ascii :=
  if (d <? 10)%N then ascii_of_N (48 + d) else ascii_of_N (87 + d).

(** `b.toString(16)` for an element of a Uint8Array *)
Definition toString16 (b : byte) : string :=
  let n := Byte.to_N b in
  if (n <? 16)%N then String (hex_digit n) EmptyString
  else String (hex_digit (n / 16)) (String (hex_digit (n mod 16)) EmptyString).

(** `s.padStart(2, "0")` *)
Definition padStart2 (s : string) : string :=
  match s with
  | EmptyString => "00"
  | String c EmptyString => String "0" (String c EmptyString)
  | _ => s
  end.

(** `bytes.map(b => b.toString(16).padStart(2, "0")).join("")` *)
Definition hex_join (bytes : list byte) : string :=
  fold_right (fun b acc => padStart2 (toString16 b) ++ acc) "" bytes.

Definition is_lower_hex (c : ascii) : bool :=
  let n := N_of_ascii c in
  ((48 <=? n) && (n <=? 57) || (97 <=? n) && (n <=? 102))%N.

Definition two_lower_hex (s : string) : bool :=
  match s with
  | String c1 (String c2 EmptyString) => is_lower_hex c1 && is_lower_hex c2
  | _ => false
  end.

(** `texts.join(",")` *)
Fixpoint join_comma (texts : list string) : string :=
  match texts with
  | [] => ""
  | [s] => s
  | s :: rest => s ++ "," ++ join_comma rest
  end.

Section Verifier.
Context `{Runtime}.

(** ToString, [None] being the TypeError. An array is the comma-joined
    text of its items, null and undefined items counting as empty. A plain
    object is "[object Object]", unless it has a `toString` property of its
    own: a JSON value is never callable, so no method is left to call. *)
Fixpoint ToString (v : jsval) : option string :=
  match v with
  | JUndefined => Some "undefined"
  | JNull => Some "null"
  | JBool b => Some (if b then "true" else "false")
  | JNum n => Some (NumberToString n)
  | JStr s => Some s
  | JArr items =>
      join_comma <$>
        (fix texts (l : list jsval) : option (list string) :=
           match l with
           | [] => Some []
           | x :: rest =>
               match (match x with
                      | JUndefined | JNull => Some ""
                      | _ => ToString x
                      end) with
               | Some s =>
                   match texts rest with
                   | Some r => Some (s :: r)
                   | None => None
                   end
               | None => None
               end
           end) items
  | JObj fields =>
      match assoc "toString" fields with
      | Some _ => None
      | None => Some "[object Object]"
      end
  end.

(** ToNumber: arrays and objects go through their text. *)
Definition ToNumber (v : jsval) : option jsnum :=
  match v with
  | JUndefined => Some NaN
  | JNull => Some (Fin 0)
  | JBool b => Some (Fin (if b then 1 else 0))
  | JNum n => Some n
  | JStr s => Some (StringToNumber s)
  | JArr _ | JObj _ => StringToNumber <$> ToString v
  end.

(** `payload.exp < Date.now()` *)
Definition expired (exp : jsval) (now : Z) : option bool :=
  n ← ToNumber exp; Some (num_lt n (Fin (inject_Z now))).

Definition expectedSignature (tokenData serviceKey : string) : string :=
  hex_join (digest_SHA256 (TextEncoder_encode (tokenData ++ serviceKey))).

(** The body of the `try` block. The outer [None] is a thrown exception. *)
Definition verifyAdminToken_try (token serviceKey : string) (now : Z)
  : option jsval :=
  let parts := split_dot token in
  let payloadBase64 := default "" (parts !! 0%nat) in
  let signature := parts !! 1%nat in
  if negb (truthy (JStr payloadBase64))
     || negb (truthy (from_option JStr JUndefined signature))
  then Some JNull
  else
    tokenData ← atob payloadBase64;
    payload ← JSON_parse tokenData;
    exp ← prop payload "exp";
    is_expired ← expired exp now;
    if is_expired : bool then Some JNull
    else if negb (bool_decide (signature = Some (expectedSignature tokenData serviceKey)))
    then Some JNull
    else Some payload.

(** What the first segment of a token decodes to, when it does. *)
Definition decode_payload (token : string) : option jsval :=
  tokenData ← atob (default "" (split_dot token !! 0%nat));
  JSON_parse tokenData.

(** `verifyAdminToken(token, serviceKey)`, with `Date.now()` as [now]. *)
Definition verifyAdminToken (token serviceKey : string) (now : Z) : jsval :=
  match verifyAdminToken_try token serviceKey now with
  | Some result => result
  | None => JNull
  end.
End Verifier.

(** ** A reference platform

    Executable versions of the builtins, used to run the model on concrete
    tokens: the forgiving base64 decoder behind `atob`, SHA-256 (FIPS
    180-4), a JSON reader, and the conversions between strings and Numbers;
    and, for the browser side, a JSON writer, `toUpperCase` and a reader of
    dates. Code units above 255 are outside the string model, so a `\u`
    escape naming one makes the reader give up. *)
Module Platform.

(** *** Rounding a rational to the nearest double *)

(** [2^e <= a/d], for positive [a] and [d] *)
Definition pow2_le (e a d : Z) : bool :=
  if 0 <=? e then d * 2 ^ e <=? a else d <=? a * 2 ^ (- e).

Definition round_double (n : Z) (d : positive) : jsnum :=
  if n =? 0 then Fin 0
  else
    let a := Z.abs n in
    let e0 := Z.log2 a - Z.log2 (Zpos d) in
    let e := if pow2_le (e0 + 1) a (Zpos d) then e0 + 1
             else if pow2_le e0 a (Zpos d) then e0 else e0 - 1 in
    let u := Z.max (e - 52) (-1074) in
    let num := if u <? 0 then a * 2 ^ (- u) else a in
    let den := if u <? 0 then Zpos d else Zpos d * 2 ^ u in
    let q := num / den in
    let r := num mod den in
    let m := if (den <? 2 * r) || ((den =? 2 * r) && Z.odd q) then q + 1 else q in
    if pow2_le 1024 (if u <? 0 then m else m * 2 ^ u) (if u <? 0 then 2 ^ (- u) else 1)
    then Inf (n <? 0)
    else
      let s := if n <? 0 then -1 else 1 in
      Fin (Qred (if u <? 0 then Qmake (s * m) (Z.to_pos (2 ^ (- u)))
                 else Qmake (s * m * 2 ^ u) 1)).

(** [m * 10^e], rounded *)
Definition decimal (m e : Z) : jsnum :=
  if 0 <=? e then round_double (m * 10 ^ e) 1
  else round_double m (Z.to_pos (10 ^ (- e))).

(** *** Scanning digits *)

Definition digit_value (radix : Z) (c : ascii) : option Z :=
  let n := Z.of_N (N_of_ascii c) in
  let v := if (48 <=? n) && (n <=? 57) then n - 48
           else if (97 <=? n) && (n <=? 122) then n - 87
           else if (65 <=? n) && (n <=? 90) then n - 55
           else radix in
  if v <? radix then Some v else None.

(** Reads the longest run of digits: its value, its length, the rest. *)
Fixpoint scan_digits (radix : Z) (acc : Z) (count : Z) (s : string) : Z * Z * string :=
  match s with
  | String c rest =>
      match digit_value radix c with
      | Some v => scan_digits radix (acc * radix + v) (count + 1) rest
      | None => (acc, count, s)
      end
  | EmptyString => (acc, count, s)
  end.

(** The optional exponent part `e[+-]ddd`; [None] when it is malformed. *)
Definition scan_exponent (s : string) : option (Z * string) :=
  match s with
  | String c rest =>
      if Ascii.eqb c "e" || Ascii.eqb c "E" then
        let '(sign, rest') :=
          match rest with
          | String "+" r => (1, r)
          | String "-" r => (-1, r)
          | _ => (1, rest)
          end in
        let '(v, n, rest'') := scan_digits 10 0 0 rest' in
        if n =? 0 then None else Some (sign * v, rest'')
      else Some (0, s)
  | EmptyString => Some (0, s)
  end.

(** *** ToNumber applied to a String *)

Definition is_js_space (c : ascii) : bool :=
  let n := N_of_ascii c in
  ((9 <=? n) && (n <=? 13) || (n =? 32) || (n =? 160))%N.

Fixpoint trim_start (s : string) : string :=
  match s with
  | String c rest => if is_js_space c then trim_start rest else s
  | EmptyString => s
  end.

Definition string_rev (s : string) : string :=
  string_of_list_ascii (rev (list_ascii_of_string s)).

Definition trim (s : string) : string :=
  string_rev (trim_start (string_rev (trim_start s))).

Definition radix_literal (radix : Z) (s : string) : jsnum :=
  let '(v, n, rest) := scan_digits radix 0 0 s in
  if (n =? 0) || negb (String.eqb rest "") then NaN else round_double v 1.

(** `digits [. digits] | . digits`, then an optional exponent *)
Definition unsigned_decimal (s : string) : option jsnum :=
  let '(ip, ni, r1) := scan_digits 10 0 0 s in
  let '(fp, nf, r2) :=
    match r1 with
    | String "." r => let '(v, n, r') := scan_digits 10 0 0 r in (v, n, r')
    | _ => (0, 0, r1)
    end in
  if (ni =? 0) && (nf =? 0) then None
  else
    match scan_exponent r2 with
    | Some (ex, EmptyString) => Some (decimal (ip * 10 ^ nf + fp) (ex - nf))
    | _ => None
    end.

Definition negate (n : jsnum) : jsnum :=
  match n with
  | NaN => NaN
  | Inf s => Inf (negb s)
  | Fin q => Fin (Qopp q)
  end.

Definition StringToNumber (text : string) : jsnum :=
  let s := trim text in
  match s with
  | EmptyString => Fin 0
  | String "0" (String "x" r) | String "0" (String "X" r) => radix_literal 16 r
  | String "0" (String "o" r) | String "0" (String "O" r) => radix_literal 8 r
  | String "0" (String "b" r) | String "0" (String "B" r) => radix_literal 2 r
  | _ =>
      let '(neg, body) :=
        match s with
        | String "+" r => (false, r)
        | String "-" r => (true, r)
        | _ => (false, s)
        end in
      let n := if String.eqb body "Infinity" then Inf false
               else default NaN (unsigned_decimal body) in
      if neg then negate n else n
  end.

(** *** Number::toString *)

Definition char_of_Z (n : Z) : ascii := ascii_of_N (Z.to_N n).

Fixpoint digits_from (fuel : nat) (n : Z) (acc : string) : string :=
  match fuel with
  | O => acc
  | S fuel' =>
      let acc' := String (char_of_Z (48 + n mod 10)) acc in
      if n <? 10 then acc' else digits_from fuel' (n / 10) acc'
  end.

(** The decimal digits of a natural number. *)
Definition digits (n : Z) : string := digits_from (S (Z.to_nat (Z.log2 n))) n "".

Definition zeros (n : Z) : string := string_of_list_ascii (repeat "0"%char (Z.to_nat n)).

(** [10^e <= a/d], for positive [a] and [d] *)
Definition pow10_le (e a d : Z) : bool :=
  if 0 <=? e then d * 10 ^ e <=? a else d <=? a * 10 ^ (- e).

Fixpoint first_above (steps : nat) (n a d : Z) : Z :=
  match steps with
  | O => n
  | S steps' => if pow10_le n a d then first_above steps' (n + 1) a d else n
  end.

(** The [n] with [10^(n-1) <= a/d < 10^n]. *)
Definition decimal_exponent (a d : Z) : Z :=
  first_above 8 ((Z.log2 a - Z.log2 d) * 30103 / 100000 - 2) a d.

Definition rounds_to (s e : Z) (a : Z) (d : positive) : bool :=
  match decimal s e with
  | Fin q => Qeq_bool q (Qmake a d)
  | _ => false
  end.

(** The fewest digits [s] (there are [k] of them) with [s * 10^(n-k)]
    rounding to [a/d]; of two candidates the nearer one, the even one on a
    tie. Seventeen digits always do for a double. *)
Fixpoint shortest (steps : nat) (k : Z) (a : Z) (d : positive) (n : Z) : Z * Z * Z :=
  match steps with
  | O => (0, 1, n)
  | S steps' =>
      let e := k - n in
      let num := if 0 <=? e then a * 10 ^ e else a in
      let den := if 0 <=? e then Zpos d else Zpos d * 10 ^ (- e) in
      let lo := num / den in
      let r := num mod den in
      let ok_lo := rounds_to lo (n - k) a d in
      let ok_hi := rounds_to (lo + 1) (n - k) a d in
      let up := (den <? 2 * r) || ((den =? 2 * r) && Z.odd lo) in
      let pick s := if s =? 10 ^ k then (10 ^ (k - 1), k, n + 1) else (s, k, n) in
      if ok_lo && ok_hi then pick (if up then lo + 1 else lo)
      else if ok_lo then pick lo
      else if ok_hi then pick (lo + 1)
      else shortest steps' (k + 1) a d n
  end.

Definition format_digits (s k n : Z) : string :=
  let ds := digits s in
  let len := String.length ds in
  if (k <=? n) && (n <=? 21) then ds ++ zeros (n - k)
  else if (0 <? n) && (n <=? 21) then
    substring 0 (Z.to_nat n) ds ++ "." ++ substring (Z.to_nat n) len ds
  else if (-6 <? n) && (n <=? 0) then "0." ++ zeros (- n) ++ ds
  else
    let e := n - 1 in
    let exponent := (if e <? 0 then "e-" else "e+") ++ digits (Z.abs e) in
    if k =? 1 then ds ++ exponent
    else substring 0 1 ds ++ "." ++ substring 1 len ds ++ exponent.

Definition NumberToString (x : jsnum) : string :=
  match x with
  | NaN => "NaN"
  | Inf negative => if negative then "-Infinity" else "Infinity"
  | Fin q =>
      if Qnum q =? 0 then "0"
      else
        let a := Z.abs (Qnum q) in
        let '(s, k, n) := shortest 17 1 a (Qden q) (decimal_exponent a (Zpos (Qden q))) in
        (if Qnum q <? 0 then "-" else "") ++ format_digits s k n
  end.

(** *** atob: forgiving base64 *)

Definition is_ascii_space (c : ascii) : bool :=
  let n := N_of_ascii c in
  ((n =? 9) || (n =? 10) || (n =? 12) || (n =? 13) || (n =? 32))%N.

Definition sextet (c : ascii) : option Z :=
  let n := Z.of_N (N_of_ascii c) in
  if (65 <=? n) && (n <=? 90) then Some (n - 65)
  else if (97 <=? n) && (n <=? 122) then Some (n - 71)
  else if (48 <=? n) && (n <=? 57) then Some (n + 4)
  else if n =? 43 then Some 62
  else if n =? 47 then Some 63
  else None.

(** Groups of four sextets give three bytes; a tail of two or three
    sextets gives one or two bytes, the spare bits dropped. *)
Fixpoint decode_sextets (l : list Z) : string :=
  match l with
  | a :: b :: c :: d :: rest =>
      String (char_of_Z (a * 4 + b / 16))
        (String (char_of_Z ((b mod 16) * 16 + c / 4))
           (String (char_of_Z ((c mod 4) * 64 + d)) (decode_sextets rest)))
  | [a; b; c] =>
      String (char_of_Z (a * 4 + b / 16))
        (String (char_of_Z ((b mod 16) * 16 + c / 4)) EmptyString)
  | [a; b] => String (char_of_Z (a * 4 + b / 16)) EmptyString
  | _ => EmptyString
  end.

Definition strip_padding (l : list ascii) : list ascii :=
  if (length l mod 4 =? 0)%nat then
    match rev l with
    | "="%char :: "="%char :: r => rev r
    | "="%char :: r => rev r
    | _ => l
    end
  else l.

Definition atob (data : string) : option string :=
  let l := strip_padding (filter (fun c => negb (is_ascii_space c))
                                 (list_ascii_of_string data)) in
  if (length l mod 4 =? 1)%nat then None
  else decode_sextets <$> mapM sextet l.

(** *** SHA-256 *)

Definition w32 (x : Z) : Z := x mod 2 ^ 32.
Definition rotr (n x : Z) : Z := Z.lor (Z.shiftr x n) (w32 (Z.shiftl x (32 - n))).
Definition Ch (x y z : Z) : Z := Z.lxor (Z.land x y) (Z.land (Z.lnot x) z).
Definition Maj (x y z : Z) : Z :=
  Z.lxor (Z.lxor (Z.land x y) (Z.land x z)) (Z.land y z).
Definition Sigma0 (x : Z) : Z := Z.lxor (Z.lxor (rotr 2 x) (rotr 13 x)) (rotr 22 x).
Definition Sigma1 (x : Z) : Z := Z.lxor (Z.lxor (rotr 6 x) (rotr 11 x)) (rotr 25 x).
Definition sigma0 (x : Z) : Z := Z.lxor (Z.lxor (rotr 7 x) (rotr 18 x)) (Z.shiftr x 3).
Definition sigma1 (x : Z) : Z := Z.lxor (Z.lxor (rotr 17 x) (rotr 19 x)) (Z.shiftr x 10).

(** The round constants are the first 32 bits of the fractional parts of
    the cube roots of the first 64 primes, the initial hash value those of
    the square roots of the first 8. *)
Definition is_prime (n : Z) : bool :=
  forallb (fun d => negb (n mod Z.of_nat d =? 0)) (seq 2 (Z.to_nat n - 2)).

Definition primes (count bound : nat) : list Z :=
  firstn count (List.filter is_prime (map Z.of_nat (seq 2 bound))).

(** The integer cube root of [n], found bit by bit from bit [bits] down. *)
Fixpoint cube_root (bits : nat) (n r : Z) : Z :=
  match bits with
  | O => r
  | S b =>
      let r' := r + 2 ^ Z.of_nat b in
      cube_root b n (if r' ^ 3 <=? n then r' else r)
  end.

Definition K256 : list Z :=
  Eval vm_compute in map (fun p => w32 (cube_root 40 (p * 2 ^ 96) 0)) (primes 64 400).

Definition H256 : list Z :=
  Eval vm_compute in map (fun p => w32 (Z.sqrt (p * 2 ^ 64))) (primes 8 20).

(** The message followed by 0x80, zeros up to 56 modulo 64, and the bit
    length on eight bytes. *)
Definition pad (msg : list Z) : list Z :=
  let len := Z.of_nat (length msg) in
  let zeros := Z.to_nat ((55 - len) mod 64) in
  msg ++ [128] ++ repeat 0 zeros
      ++ map (fun i => (len * 8 / 256 ^ (7 - Z.of_nat i)) mod 256) (seq 0 8).

Fixpoint words (l : list Z) : list Z :=
  match l with
  | a :: b :: c :: d :: rest => (((a * 256 + b) * 256 + c) * 256 + d) :: words rest
  | _ => []
  end.

(** Extends the schedule, kept newest word first, by [n] words. *)
Fixpoint extend (n : nat) (w : list Z) : list Z :=
  match n with
  | O => w
  | S n' =>
      let at_ i := nth i w 0 in
      extend n' (w32 (sigma1 (at_ 1%nat) + at_ 6%nat + sigma0 (at_ 14%nat) + at_ 15%nat) :: w)
  end.

Definition round (st : list Z) (kw : Z * Z) : list Z :=
  match st with
  | [a; b; c; d; e; f; g; h] =>
      let t1 := h + Sigma1 e + Ch e f g + fst kw + snd kw in
      let t2 := Sigma0 a + Maj a b c in
      [w32 (t1 + t2); a; b; c; w32 (d + t1); e; f; g]
  | _ => st
  end.

Definition compress (h : list Z) (block : list Z) : list Z :=
  let w := rev (extend 48 (rev block)) in
  map (fun p => w32 (fst p + snd p)) (combine h (fold_left round (combine K256 w) h)).

Fixpoint blocks (n : nat) (ws : list Z) (h : list Z) : list Z :=
  match n with
  | O => h
  | S n' => blocks n' (skipn 16 ws) (compress h (firstn 16 ws))
  end.

Definition word_bytes (w : Z) : list Z :=
  [w / 2 ^ 24; (w / 2 ^ 16) mod 256; (w / 2 ^ 8) mod 256; w mod 256].

Definition byte_of_Z (n : Z) : byte := byte_of_ascii (char_of_Z n).

Definition digest_SHA256 (msg : list byte) : list byte :=
  let ws := words (pad (map (fun b => Z.of_N (Byte.to_N b)) msg)) in
  map byte_of_Z (concat (map word_bytes (blocks (length ws / 16) ws H256))).

(** *** JSON.parse *)

Definition is_json_space (c : ascii) : bool :=
  let n := N_of_ascii c in
  ((n =? 9) || (n =? 10) || (n =? 13) || (n =? 32))%N.

Fixpoint skip_ws (s : string) : string :=
  match s with
  | String c rest => if is_json_space c then skip_ws rest else s
  | EmptyString => s
  end.

Definition quote : ascii := "034"%char.
Definition backslash : ascii := "092"%char.

Definition simple_escape (c : ascii) : option ascii :=
  if Ascii.eqb c quote then Some quote
  else if Ascii.eqb c backslash then Some backslash
  else if Ascii.eqb c "/" then Some "/"%char
  else if Ascii.eqb c "b" then Some "008"%char
  else if Ascii.eqb c "f" then Some "012"%char
  else if Ascii.eqb c "n" then Some "010"%char
  else if Ascii.eqb c "r" then Some "013"%char
  else if Ascii.eqb c "t" then Some "009"%char
  else None.

(** The characters after an opening quote, up to the closing one. *)
Fixpoint parse_string (s : string) : option (string * string) :=
  match s with
  | EmptyString => None
  | String c rest =>
      if Ascii.eqb c quote then Some (EmptyString, rest)
      else if Ascii.eqb c backslash then
        match rest with
        | String "u" (String h1 (String h2 (String h3 (String h4 rest')))) =>
            match digit_value 16 h1, digit_value 16 h2,
                  digit_value 16 h3, digit_value 16 h4 with
            | Some 0, Some 0, Some x, Some y =>
                '(str, r) ← parse_string rest';
                Some (String (char_of_Z (x * 16 + y)) str, r)
            | _, _, _, _ => None
            end
        | String e rest' =>
            c' ← simple_escape e;
            '(str, r) ← parse_string rest';
            Some (String c' str, r)
        | EmptyString => None
        end
      else if (N_of_ascii c <? 32)%N then None
      else '(str, r) ← parse_string rest; Some (String c str, r)
  end.

Definition parse_number (s : string) : option (jsnum * string) :=
  let '(neg, s1) := match s with String "-" r => (true, r) | _ => (false, s) end in
  let '(ip, ni, r1) := scan_digits 10 0 0 s1 in
  let leading_zero := match s1 with String "0" _ => 1 <? ni | _ => false end in
  if (ni =? 0) || leading_zero then None
  else
    '(fp, nf, r2) ← match r1 with
                    | String "." r =>
                        let '(v, n, r') := scan_digits 10 0 0 r in
                        if n =? 0 then None else Some (v, n, r')
                    | _ => Some (0, 0, r1)
                    end;
    '(ex, r3) ← scan_exponent r2;
    let n := decimal (ip * 10 ^ nf + fp) (ex - nf) in
    Some (if neg then negate n else n, r3).

Fixpoint parse_value (fuel : nat) (s : string) : option (jsval * string) :=
  match fuel with
  | O => None
  | S fuel =>
      match skip_ws s with
      | String "{" r =>
          match skip_ws r with
          | String "}" r' => Some (JObj [], r')
          | _ => parse_members fuel r []
          end
      | String "[" r =>
          match skip_ws r with
          | String "]" r' => Some (JArr [], r')
          | _ => parse_elements fuel r []
          end
      | String "t" (String "r" (String "u" (String "e" r))) => Some (JBool true, r)
      | String "f" (String "a" (String "l" (String "s" (String "e" r)))) =>
          Some (JBool false, r)
      | String "n" (String "u" (String "l" (String "l" r))) => Some (JNull, r)
      | String c r =>
          if Ascii.eqb c quote then '(str, r') ← parse_string r; Some (JStr str, r')
          else '(n, r') ← parse_number (String c r); Some (JNum n, r')
      | EmptyString => None
      end
  end
with parse_elements (fuel : nat) (s : string) (acc : list jsval)
  : option (jsval * string) :=
  match fuel with
  | O => None
  | S fuel =>
      '(v, r) ← parse_value fuel s;
      match skip_ws r with
      | String "," r' => parse_elements fuel r' (v :: acc)
      | String "]" r' => Some (JArr (rev (v :: acc)), r')
      | _ => None
      end
  end
with parse_members (fuel : nat) (s : string) (acc : list (string * jsval))
  : option (jsval * string) :=
  match fuel with
  | O => None
  | S fuel =>
      match skip_ws s with
      | String c r =>
          if Ascii.eqb c quote then
            '(k, r1) ← parse_string r;
            match skip_ws r1 with
            | String ":" r2 =>
                '(v, r3) ← parse_value fuel r2;
                match skip_ws r3 with
                | String "," r4 => parse_members fuel r4 (set_field k v acc)
                | String "}" r4 => Some (JObj (set_field k v acc), r4)
                | _ => None
                end
            | _ => None
            end
          else None
      | EmptyString => None
      end
  end.

(** Every call above consumes a character before it recurses, so twice
    the length of the text is fuel enough. *)
Definition JSON_parse (text : string) : option jsval :=
  '(v, r) ← parse_value (2 * String.length text + 2) text;
  if String.eqb (skip_ws r) "" then Some v else None.
(** *** JSON.stringify and toUpperCase *)

Definition quote_char (c : ascii) : string :=
  let n := N_of_ascii c in
  if Ascii.eqb c quote then String backslash (String quote "")
  else if Ascii.eqb c backslash then String backslash (String backslash "")
  else if (n =? 8)%N then String backslash "b"
  else if (n =? 9)%N then String backslash "t"
  else if (n =? 10)%N then String backslash "n"
  else if (n =? 12)%N then String backslash "f"
  else if (n =? 13)%N then String backslash "r"
  else if (n <? 32)%N
       then String backslash
              (String "u" (String "0" (String "0"
                 (String (hex_digit (n / 16)) (String (hex_digit (n mod 16)) "")))))
  else String c "".

Fixpoint quote_chars (s : string) : string :=
  match s with
  | EmptyString => ""
  | String c rest => quote_char c ++ quote_chars rest
  end.

Definition quote_string (s : string) : string :=
  String quote (quote_chars s ++ String quote "").

(** The text of a value. A property that is undefined is left out, an
    item that is undefined reads null, and so does a number that is not
    finite. Properties come in the order they were written, which is the
    order of `JSON.stringify` for names that are no array indices. *)
Fixpoint JSON_stringify (v : jsval) : string :=
  match v with
  | JUndefined | JNull => "null"
  | JBool b => if b then "true" else "false"
  | JNum (Fin q) => NumberToString (Fin q)
  | JNum _ => "null"
  | JStr s => quote_string s
  | JArr items =>
      "[" ++ join_comma
               ((fix each (l : list jsval) : list string :=
                   match l with
                   | [] => []
                   | x :: rest => JSON_stringify x :: each rest
                   end) items) ++ "]"
  | JObj fields =>
      "{" ++ join_comma
               ((fix each (l : list (string * jsval)) : list string :=
                   match l with
                   | [] => []
                   | (_, JUndefined) :: rest => each rest
                   | (k, x) :: rest =>
                       (quote_string k ++ ":" ++ JSON_stringify x) :: each rest
                   end) fields) ++ "}"
  end.

(** Exact on ASCII text. *)
Fixpoint toUpperCase (s : string) : string :=
  match s with
  | EmptyString => ""
  | String c rest =>
      let n := N_of_ascii c in
      String (if ((97 <=? n) && (n <=? 122))%N then ascii_of_N (n - 32) else c)
             (toUpperCase rest)
  end.

(** *** Date.parse for the date-time string format

    `YYYY-MM-DDTHH:mm:ss.sssZ` and its shorter forms, with four-digit
    years, in a time zone that is UTC. *)

(** Reads exactly [n] decimal digits. *)
Fixpoint fixed_digits (n : nat) (acc : Z) (s : string) : option (Z * string) :=
  match n with
  | O => Some (acc, s)
  | S n' =>
      match s with
      | String c rest =>
          match digit_value 10 c with
          | Some d => fixed_digits n' (acc * 10 + d) rest
          | None => None
          end
      | EmptyString => None
      end
  end.

(** Days from 1970-01-01 to the given day of the civil calendar. *)
Definition days_from_civil (y m d : Z) : Z :=
  let y' := if m <=? 2 then y - 1 else y in
  let era := y' / 400 in
  let yoe := y' - era * 400 in
  let mp := (m + 9) mod 12 in
  let doy := (153 * mp + 2) / 5 + d - 1 in
  era * 146097 + (yoe * 365 + yoe / 4 - yoe / 100 + doy) - 719468.

Definition days_in_month (y m : Z) : Z :=
  if m =? 2 then
    if ((y mod 4 =? 0) && negb (y mod 100 =? 0)) || (y mod 400 =? 0) then 29 else 28
  else if (m =? 4) || (m =? 6) || (m =? 9) || (m =? 11) then 30
  else 31.

(** `-MM` or `-DD`; 1 when the part is left out. *)
Definition dash_part (s : string) : option (Z * string) :=
  match s with
  | String "-" rest => fixed_digits 2 0 rest
  | _ => Some (1, s)
  end.

(** `HH:mm`, `HH:mm:ss` or `HH:mm:ss.sss`, in milliseconds. *)
Definition time_part (s : string) : option (Z * string) :=
  '(h, s1) ← fixed_digits 2 0 s;
  match s1 with
  | String ":" s2 =>
      '(mi, s3) ← fixed_digits 2 0 s2;
      '(sec, s4) ← match s3 with
                   | String ":" r => fixed_digits 2 0 r
                   | _ => Some (0, s3)
                   end;
      '(ms, s5) ← match s3, s4 with
                  | String ":" _, String "." r => fixed_digits 3 0 r
                  | _, _ => Some (0, s4)
                  end;
      if (h <=? 24) && (mi <=? 59) && (sec <=? 59)
         && ((h <? 24) || ((mi =? 0) && (sec =? 0) && (ms =? 0)))
      then Some (((h * 60 + mi) * 60 + sec) * 1000 + ms, s5)
      else None
  | _ => None
  end.

(** `Z` or `+HH:mm` or `-HH:mm`, as the milliseconds to take off. *)
Definition zone_part (s : string) : option Z :=
  match s with
  | EmptyString => Some 0
  | String "Z" EmptyString => Some 0
  | String c rest =>
      if Ascii.eqb c "+" || Ascii.eqb c "-" then
        '(h, s1) ← fixed_digits 2 0 rest;
        match s1 with
        | String ":" s2 =>
            '(mi, s3) ← fixed_digits 2 0 s2;
            match s3 with
            | EmptyString =>
                if (h <=? 23) && (mi <=? 59)
                then Some ((if Ascii.eqb c "+" then 1 else -1) * (h * 60 + mi) * 60000)
                else None
            | _ => None
            end
        | _ => None
        end
      else None
  end.

Definition Date_getTime (s : string) : option Z :=
  '(y, s1) ← fixed_digits 4 0 s;
  '(m, s2) ← dash_part s1;
  '(d, s3) ← match s1 with
             | String "-" _ => dash_part s2
             | _ => Some (1, s2)
             end;
  '(ms, offset) ← match s3 with
                  | EmptyString => Some (0, 0)
                  | String "T" r =>
                      '(ms, r') ← time_part r;
                      offset ← zone_part r';
                      Some (ms, offset)
                  | _ => None
                  end;
  if (1 <=? m) && (m <=? 12) && (1 <=? d) && (d <=? days_in_month y m)
  then
    let t := days_from_civil y m d * 86400000 + ms - offset in
    if Z.abs t <=? 8640000000000000 then Some t else None
  else None.

End Platform.

#[export] Instance reference_runtime : Runtime := {|
  atob := Platform.atob;
  JSON_parse := Platform.JSON_parse;
  digest_SHA256 := Platform.digest_SHA256;
  StringToNumber := Platform.StringToNumber;
  NumberToString := Platform.NumberToString;
|}.

(** ** Storage

    The three tables the handler touches, keyed by row id, and what the
    database answers to a query that reaches it: a lookup fails for want of
    a row, a write because a value or a key is refused. [serve] is the
    handler over a database that every query reaches; a query that fails on
    its way, whatever the tables hold, is the subject of [Unreliable]. *)

Module Admin.
Record t := mk { id : string; is_active : bool; division_id : string }.
End Admin.

Module Program.
Record t := mk { id : string; division_id : string }.
End Program.

Module ProgramModule.
Record t := mk {
  id : string;
  program_id : string;
  module_type : string;
  is_published : bool;
}.
End ProgramModule.

Record Store := {
  admins : gmap string Admin.t;
  programs : gmap string Program.t;
  program_modules : gmap string ProgramModule.t;
}.

Definition with_program_modules (st : Store) (m : gmap string ProgramModule.t) : Store :=
  {| admins := admins st; programs := programs st; program_modules := m |}.

(** What a query resolves to: `{ data, error }`. *)
Record PostgrestError := { message : string }.

Module Reply.
Record t (A : Type) := mk { data : option A; error : option PostgrestError }.
Arguments mk {A} _ _.
Arguments data {A} _.
Arguments error {A} _.
End Reply.

Definition found {A} (row : A) : Reply.t A := Reply.mk (Some row) None.
Definition failed {A} (msg : string) : Reply.t A :=
  Reply.mk None (Some {| message := msg |}).

Definition no_rows : string := "JSON object requested, multiple (or no) rows returned".
Definition invalid_input : string := "invalid input syntax".
Definition duplicate_key : string := "duplicate key value violates unique constraint".

(** How the database reads the JSON values of a row handed to it: the
    value a text or a boolean column takes, [None] when it rejects the
    value, and the id it gives to a new row. A string is a text as it
    stands, a boolean is itself; whatever else the database accepts or
    rejects is left open. Row ids are plain texts, compared as they are. *)
Class Database := {
  column_text : jsval -> option string;
  column_bool : jsval -> option bool;
  generate_id : gmap string ProgramModule.t -> string;
  column_text_text : forall s, column_text (JStr s) = Some s;
  column_bool_bool : forall b, column_bool (JBool b) = Some b;
}.

Section Queries.
Context `{Database}.

(** `.from(table).select(...).eq("id", k).single()`, as the database
    answers it. The `error` of a query that PostgREST or the network failed
    is added by [Unreliable.resolve]. *)
Definition select_single {A} (table : gmap string A) (k : string) : Reply.t A :=
  match table !! k with
  | Some row => found row
  | None => failed no_rows
  end.

(** `.from("program_modules").insert({program_id, module_type, is_published}).select().single()` *)
Definition insert_module (st : Store) (program_id module_type is_published : jsval)
  : Reply.t ProgramModule.t * Store :=
  match column_text program_id, column_text module_type, column_bool is_published with
  | Some p, Some t, Some b =>
      let i := generate_id (program_modules st) in
      match program_modules st !! i with
      | Some _ => (failed duplicate_key, st)
      | None =>
          let row := ProgramModule.mk i p t b in
          (found row, with_program_modules st (<[i := row]> (program_modules st)))
      end
  | _, _, _ => (failed invalid_input, st)
  end.

(** The row after `SET` of the columns named in [fields]. *)
Definition set_columns (fields : list (string * jsval)) (row : ProgramModule.t)
  : option ProgramModule.t :=
  p ← from_option column_text (Some (ProgramModule.program_id row))
        (assoc "program_id" fields);
  t ← from_option column_text (Some (ProgramModule.module_type row))
        (assoc "module_type" fields);
  b ← from_option column_bool (Some (ProgramModule.is_published row))
        (assoc "is_published" fields);
  Some (ProgramModule.mk (ProgramModule.id row) p t b).

(** `.from("program_modules").update(fields).eq("id", k).select().single()`.
    With no column to set nothing is updated and no row comes back. *)
Definition update_module (st : Store) (fields : list (string * jsval)) (k : string)
  : Reply.t ProgramModule.t * Store :=
  match fields with
  | [] => (failed no_rows, st)
  | _ =>
      match program_modules st !! k with
      | None => (failed no_rows, st)
      | Some row =>
          match set_columns fields row with
          | None => (failed invalid_input, st)
          | Some row' =>
              (found row', with_program_modules st (<[k := row']> (program_modules st)))
          end
      end
  end.

(** `.from("program_modules").delete().eq("id", k)` *)
Definition delete_module (st : Store) (k : string) : Reply.t unit * Store :=
  (Reply.mk None None, with_program_modules st (delete k (program_modules st))).
End Queries.

(** ** The handler *)

Inductive Body :=
| NoBody
| ErrorBody (error : string)
| SuccessBody (module : option ProgramModule.t).

Record Response := {
  status : Z;
  headers : list (string * string);
  body : Body;
}.

Record Request := {
  method : string;
  x_admin_token : option string;
  json : string;
}.

Definition corsHeaders : list (string * string) :=
  [("Access-Control-Allow-Origin", "*");
   ("Access-Control-Allow-Headers",
    "authorization, x-client-info, apikey, content-type, x-admin-token")].

Definition json_response (code : Z) (b : Body) : Response :=
  {| status := code;
     headers := corsHeaders ++ [("Content-Type", "application/json")];
     body := b |}.

Definition forbidden : Response :=
  json_response 403 (ErrorBody "You can only manage modules for programs in your division").
Definition module_not_found : Response := json_response 404 (ErrorBody "Module not found").
Definition internal_error : Response := json_response 500 (ErrorBody "Internal server error").

(** How a stretch of the handler ends: it goes on with a value, returns a
    response, or throws. *)
Inductive Control (A : Type) :=
| Next (a : A)
| Return (r : Response)
| Throw.
Arguments Next {A} _.
Arguments Return {A} _.
Arguments Throw {A}.

Section Gateway.
Context `{Runtime} `{Database}.

(** The text an `.eq("id", v)` filter carries is `eq.${v}`: the client
    turns the value into a string, which throws when ToString does. *)
Definition eq_filter (v : jsval) : option string := ToString v.

(** Lines 700-730 of `serve`: header, token, admin row. *)
Definition authenticate (supabaseServiceKey : string) (st : Store) (now : Z)
  (req : Request) : Control Admin.t :=
  match x_admin_token req with
  | None => Return (json_response 401 (ErrorBody "Admin token required"))
  | Some adminToken =>
      if negb (truthy (JStr adminToken))
      then Return (json_response 401 (ErrorBody "Admin token required"))
      else
        let adminPayload := verifyAdminToken adminToken supabaseServiceKey now in
        if negb (truthy adminPayload)
        then Return (json_response 401 (ErrorBody "Invalid or expired token"))
        else
          match prop adminPayload "admin_id" ≫= eq_filter with
          | None => Throw
          | Some admin_id =>
              let r := select_single (admins st) admin_id in
              if bool_decide (is_Some (Reply.error r))
                 || from_option (fun admin => negb (Admin.is_active admin)) true
                      (Reply.data r)
              then Return (json_response 401 (ErrorBody "Admin account not found or inactive"))
              else from_option Next Throw (Reply.data r)
          end
  end.

(** `verifyProgramAccess(programId)`, closed over `divisionId`; [None]
    when building the query throws. *)
Definition verifyProgramAccess (st : Store) (divisionId : string) (programId : jsval)
  : option bool :=
  id ← eq_filter programId;
  let r := select_single (programs st) id in
  Some (if bool_decide (is_Some (Reply.error r)) || bool_decide (Reply.data r = None)
        then false
        else from_option (fun program => String.eqb (Program.division_id program) divisionId)
                         false (Reply.data r)).

(** `if (error) return 400 with its message; return 200 with the payload` *)
Definition respond {A} (r : Reply.t A) (payload : Body) : Response :=
  match Reply.error r with
  | Some e => json_response 400 (ErrorBody (message e))
  | None => json_response 200 payload
  end.

(** `case "create"` *)
Definition create (st : Store) (divisionId : string) (data : jsval)
  : option Response * Store :=
  match prop data "program_id" with
  | None => (None, st)
  | Some program_id =>
      match verifyProgramAccess st divisionId program_id with
      | None => (None, st)
      | Some false => (Some forbidden, st)
      | Some true =>
          let module_type := default JUndefined (prop data "module_type") in
          let is_published := default JUndefined (prop data "is_published") in
          let '(r, st') :=
            insert_module st program_id module_type (js_or is_published (JBool false)) in
          (Some (respond r (SuccessBody (Reply.data r))), st')
      end
  end.

(** The lookup both `update` and `delete` start with: the module row,
    then its program checked against the admin's division. *)
Definition load_module (st : Store) (divisionId : string) (id : string)
  : Control ProgramModule.t :=
  let r := select_single (program_modules st) id in
  if bool_decide (is_Some (Reply.error r)) || bool_decide (Reply.data r = None)
  then Return module_not_found
  else
    match Reply.data r with
    | Some existingModule =>
        match verifyProgramAccess st divisionId
                (JStr (ProgramModule.program_id existingModule)) with
        | None => Throw
        | Some false => Return forbidden
        | Some true => Next existingModule
        end
    | None => Throw
    end.

(** `case "update"` *)
Definition update (st : Store) (divisionId : string) (data : jsval)
  : option Response * Store :=
  match prop data "id" ≫= eq_filter with
  | None => (None, st)
  | Some id =>
      match load_module st divisionId id with
      | Return r => (Some r, st)
      | Throw => (None, st)
      | Next _ =>
          let is_published := default JUndefined (prop data "is_published") in
          let updateData :=
            match is_published with
            | JUndefined => []
            | _ => set_field "is_published" is_published []
            end in
          let '(r, st') := update_module st updateData id in
          (Some (respond r (SuccessBody (Reply.data r))), st')
      end
  end.

(** `case "delete"` *)
Definition delete_ (st : Store) (divisionId : string) (data : jsval)
  : option Response * Store :=
  match prop data "id" ≫= eq_filter with
  | None => (None, st)
  | Some id =>
      match load_module st divisionId id with
      | Return r => (Some r, st)
      | Throw => (None, st)
      | Next _ =>
          let '(r, st') := delete_module st id in
          (Some (respond r (SuccessBody None)), st')
      end
  end.

(** `const { action, data } = body; switch (action) ...`; [None] is a
    thrown exception. *)
Definition dispatch (st : Store) (admin : Admin.t) (body : jsval)
  : option Response * Store :=
  match prop body "action", prop body "data" with
  | Some action, Some data =>
      let divisionId := Admin.division_id admin in
      match action with
      | JStr "create" => create st divisionId data
      | JStr "update" => update st divisionId data
      | JStr "delete" => delete_ st divisionId data
      | _ => (Some (json_response 400 (ErrorBody "Invalid action")), st)
      end
  | _, _ => (None, st)
  end.

(** The outer `catch`: whatever was thrown becomes a 500. *)
Definition or_internal_error (outcome : option Response * Store) : Response * Store :=
  match outcome with
  | (Some r, st') => (r, st')
  | (None, st') => (internal_error, st')
  end.

(** The handler passed to `serve`, with the service key of the
    environment, the storage and the clock as arguments. *)
Definition serve (supabaseServiceKey : string) (st : Store) (now : Z) (req : Request)
  : Response * Store :=
  if String.eqb (method req) "OPTIONS"
  then ({| status := 200; headers := corsHeaders; body := NoBody |}, st)
  else
    match authenticate supabaseServiceKey st now req with
    | Return r => (r, st)
    | Throw => (internal_error, st)
    | Next admin =>
        match JSON_parse (json req) with
        | None => (internal_error, st)
        | Some body => or_internal_error (dispatch st admin body)
        end
    end.

(** The request is a call of [action] with payload [data]: any method
    but the pre-flight one, and a body `{ action, data }`. *)
Definition calls (req : Request) (action : string) (data : jsval) : Prop :=
  method req <> "OPTIONS" /\
  exists body, JSON_parse (json req) = Some body /\
               prop body "action" = Some (JStr action) /\
               prop body "data" = Some data.
End Gateway.

(** A database that takes strings for texts, booleans for flags, and
    nothing else, and numbers its new rows. *)
#[export, refine] Instance reference_database : Database := {|
  column_text v := match v with JStr s => Some s | _ => None end;
  column_bool v := match v with JBool b => Some b | _ => None end;
  generate_id table := "module-" ++ Platform.digits (Z.of_nat (size table));
|}.
Proof. all: reflexivity. Defined.

(** ** Storage that may fail

    What the handler does when a query does not reach the database. Each
    query it sends is named, and an outage says which ones fail, and with
    what error: such a query resolves to `{ data: null, error }` and leaves
    the tables alone; any other is answered as above. [Unreliable] is the
    handler once more, line by line, over such a storage. *)

Inductive Query :=
| SelectAdmin (id : string)
| SelectProgram (id : string)
| SelectModule (id : string)
| InsertModule
| UpdateModule (id : string)
| DeleteModule (id : string).

Definition Outage := Query -> option PostgrestError.

(** A storage that answers every query. *)
Definition healthy : Outage := fun _ => None.

Module Unreliable.
Section Handler.
Context `{Runtime} `{Database}.
Variable outage : Outage.

(** What a read resolves to. *)
Definition resolve {A} (q : Query) (answer : Reply.t A) : Reply.t A :=
  match outage q with
  | Some e => Reply.mk None (Some e)
  | None => answer
  end.

(** What a write resolves to, and the store it leaves. *)
Definition attempt {A} (q : Query) (st : Store) (answer : Reply.t A * Store)
  : Reply.t A * Store :=
  match outage q with
  | Some e => (Reply.mk None (Some e), st)
  | None => answer
  end.

(** Lines 700-730 of `serve`: header, token, admin row. *)
Definition authenticate (supabaseServiceKey : string) (st : Store) (now : Z)
  (req : Request) : Control Admin.t :=
  match x_admin_token req with
  | None => Return (json_response 401 (ErrorBody "Admin token required"))
  | Some adminToken =>
      if negb (truthy (JStr adminToken))
      then Return (json_response 401 (ErrorBody "Admin token required"))
      else
        let adminPayload := verifyAdminToken adminToken supabaseServiceKey now in
        if negb (truthy adminPayload)
        then Return (json_response 401 (ErrorBody "Invalid or expired token"))
        else
          match prop adminPayload "admin_id" ≫= eq_filter with
          | None => Throw
          | Some admin_id =>
              let r := resolve (SelectAdmin admin_id) (select_single (admins st) admin_id) in
              if bool_decide (is_Some (Reply.error r))
                 || from_option (fun admin => negb (Admin.is_active admin)) true
                      (Reply.data r)
              then Return (json_response 401 (ErrorBody "Admin account not found or inactive"))
              else from_option Next Throw (Reply.data r)
          end
  end.

(** `verifyProgramAccess(programId)`: `if (error || !program) return false` *)
Definition verifyProgramAccess (st : Store) (divisionId : string) (programId : jsval)
  : option bool :=
  id ← eq_filter programId;
  let r := resolve (SelectProgram id) (select_single (programs st) id) in
  Some (if bool_decide (is_Some (Reply.error r)) || bool_decide (Reply.data r = None)
        then false
        else from_option (fun program => String.eqb (Program.division_id program) divisionId)
                         false (Reply.data r)).

(** `case "create"` *)
Definition create (st : Store) (divisionId : string) (data : jsval)
  : option Response * Store :=
  match prop data "program_id" with
  | None => (None, st)
  | Some program_id =>
      match verifyProgramAccess st divisionId program_id with
      | None => (None, st)
      | Some false => (Some forbidden, st)
      | Some true =>
          let module_type := default JUndefined (prop data "module_type") in
          let is_published := default JUndefined (prop data "is_published") in
          let '(r, st') :=
            attempt InsertModule st
              (insert_module st program_id module_type (js_or is_published (JBool false))) in
          (Some (respond r (SuccessBody (Reply.data r))), st')
      end
  end.

(** The lookup both `update` and `delete` start with:
    `if (fetchError || !existingModule)` answers 404. *)
Definition load_module (st : Store) (divisionId : string) (id : string)
  : Control ProgramModule.t :=
  let r := resolve (SelectModule id) (select_single (program_modules st) id) in
  if bool_decide (is_Some (Reply.error r)) || bool_decide (Reply.data r = None)
  then Return module_not_found
  else
    match Reply.data r with
    | Some existingModule =>
        match verifyProgramAccess st divisionId
                (JStr (ProgramModule.program_id existingModule)) with
        | None => Throw
        | Some false => Return forbidden
        | Some true => Next existingModule
        end
    | None => Throw
    end.

(** `case "update"` *)
Definition update (st : Store) (divisionId : string) (data : jsval)
  : option Response * Store :=
  match prop data "id" ≫= eq_filter with
  | None => (None, st)
  | Some id =>
      match load_module st divisionId id with
      | Return r => (Some r, st)
      | Throw => (None, st)
      | Next _ =>
          let is_published := default JUndefined (prop data "is_published") in
          let updateData :=
            match is_published with
            | JUndefined => []
            | _ => set_field "is_published" is_published []
            end in
          let '(r, st') := attempt (UpdateModule id) st (update_module st updateData id) in
          (Some (respond r (SuccessBody (Reply.data r))), st')
      end
  end.

(** `case "delete"` *)
Definition delete_ (st : Store) (divisionId : string) (data : jsval)
  : option Response * Store :=
  match prop data "id" ≫= eq_filter with
  | None => (None, st)
  | Some id =>
      match load_module st divisionId id with
      | Return r => (Some r, st)
      | Throw => (None, st)
      | Next _ =>
          let '(r, st') := attempt (DeleteModule id) st (delete_module st id) in
          (Some (respond r (SuccessBody None)), st')
      end
  end.

Definition dispatch (st : Store) (admin : Admin.t) (body : jsval)
  : option Response * Store :=
  match prop body "action", prop body "data" with
  | Some action, Some data =>
      let divisionId := Admin.division_id admin in
      match action with
      | JStr "create" => create st divisionId data
      | JStr "update" => update st divisionId data
      | JStr "delete" => delete_ st divisionId data
      | _ => (Some (json_response 400 (ErrorBody "Invalid action")), st)
      end
  | _, _ => (None, st)
  end.

Definition serve (supabaseServiceKey : string) (st : Store) (now : Z) (req : Request)
  : Response * Store :=
  if String.eqb (method req) "OPTIONS"
  then ({| status := 200; headers := corsHeaders; body := NoBody |}, st)
  else
    match authenticate supabaseServiceKey st now req with
    | Return r => (r, st)
    | Throw => (internal_error, st)
    | Next admin =>
        match JSON_parse (json req) with
        | None => (internal_error, st)
        | Some body => or_internal_error (dispatch st admin body)
        end
    end.

End Handler.
End Unreliable.

(** ** The module manager

    The component of lines 439-640. It reaches the function above through
    `supabase.functions.invoke`, which posts the body as JSON and hands
    back `{ data, error }`. *)

(** The builtins of the browser side. *)
Class Browser := {
  JSON_stringify : jsval -> string;
  toUpperCase : string -> string;
}.

Module FunctionsResponse.
Record t := mk { data : option Body; error : option string }.
End FunctionsResponse.

Module Toast.
Record t := mk { title : string; description : string; variant : option string }.
End Toast.

(** The state a handler leaves behind: `isUpdating`, the toasts shown so
    far, and how often `onModulesChange` was called. *)
Record Manager := {
  isUpdating : option string;
  toasts : list Toast.t;
  reloads : nat;
}.

(** The message of a FunctionsHttpError *)
Definition non_2xx : string := "Edge Function returned a non-2xx status code".

(** `modules.find((m) => m.module_type === type)`, the modules being rows
    of `program_modules` *)
Definition getModule (modules : list ProgramModule.t) (type : string)
  : option ProgramModule.t :=
  List.find (fun m => String.eqb (ProgramModule.module_type m) type) modules.

(** `s.charAt(0)` and `s.slice(1)` *)
Definition charAt0 (s : string) : string :=
  match s with
  | EmptyString => ""
  | String c _ => String c ""
  end.

Definition slice1 (s : string) : string :=
  match s with
  | EmptyString => ""
  | String _ rest => rest
  end.

Section ModuleManager.
Context `{Runtime} `{Database} `{Browser}.

(** What is fixed while the component is mounted: the key the function
    is deployed with, and the props and the token of the component. *)
Variable supabaseServiceKey : string.
Variable adminToken : option string.
Variable programId : string.

(** `{ body: { action, data }, headers: adminToken ? { x-admin-token } : {} }`,
    as the request the function receives. *)
Definition api_request (action : string) (data : jsval) : Request :=
  {| method := "POST";
     x_admin_token :=
       match adminToken with
       | Some token => if truthy (JStr token) then Some token else None
       | None => None
       end;
     json := JSON_stringify (JObj [("action", JStr action); ("data", data)]) |}.

(** `supabase.functions.invoke("admin-modules", ...)`: an answer outside
    200-299 comes back as an error, any other as its body. The call is
    taken to reach the function and the answer to come back. *)
Definition invoke (st : Store) (now : Z) (req : Request) : FunctionsResponse.t * Store :=
  let '(r, st') := serve supabaseServiceKey st now req in
  if (200 <=? status r) && (status r <=? 299)
  then (FunctionsResponse.mk (Some (body r)) None, st')
  else (FunctionsResponse.mk None (Some non_2xx), st').

(** `callAdminModulesApi(action, data)`: [inl] is the message of the
    Error it throws, [inr] the data it returns. *)
Definition callAdminModulesApi (st : Store) (now : Z) (action : string) (data : jsval)
  : (string + option Body) * Store :=
  let '(response, st') := invoke st now (api_request action data) in
  match FunctionsResponse.error response with
  | Some message =>
      (inl (if truthy (JStr message) then message else "API call failed"), st')
  | None =>
      match FunctionsResponse.data response with
      | Some (ErrorBody e) =>
          if truthy (JStr e) then (inl e, st')
          else (inr (FunctionsResponse.data response), st')
      | _ => (inr (FunctionsResponse.data response), st')
      end
  end.

(** `type.charAt(0).toUpperCase() + type.slice(1)` *)
Definition capitalize (type : string) : string :=
  toUpperCase (charAt0 type) ++ slice1 type.

(** The end of a handler: the toast of the `try` block and a reload, or
    the toast of the `catch` block; `finally` clears `isUpdating`. `toast`
    and `onModulesChange` are taken to return. *)
Definition settle (ui : Manager) (outcome : string + option Body) (done : Toast.t)
  : Manager :=
  match outcome with
  | inr _ =>
      {| isUpdating := None; toasts := toasts ui ++ [done]; reloads := S (reloads ui) |}
  | inl message =>
      {| isUpdating := None;
         toasts := toasts ui ++ [Toast.mk "Error" message (Some "destructive")];
         reloads := reloads ui |}
  end.

(** `handleModuleToggle(type)` *)
Definition handleModuleToggle (modules : list ProgramModule.t) (type : string)
  (ui : Manager) (st : Store) (now : Z) : Manager * Store :=
  match getModule modules type with
  | Some existingModule =>
      let '(outcome, st') :=
        callAdminModulesApi st now "delete"
          (JObj [("id", JStr (ProgramModule.id existingModule))]) in
      (settle ui outcome
         (Toast.mk "Module disabled" (capitalize type ++ " module has been removed.") None),
       st')
  | None =>
      let '(outcome, st') :=
        callAdminModulesApi st now "create"
          (JObj [("program_id", JStr programId); ("module_type", JStr type);
                 ("is_published", JBool false)]) in
      (settle ui outcome
         (Toast.mk "Module enabled" (capitalize type ++ " module has been added.") None),
       st')
  end.

(** `handlePublishToggle(moduleId, currentStatus)` *)
Definition handlePublishToggle (moduleId : string) (currentStatus : bool)
  (ui : Manager) (st : Store) (now : Z) : Manager * Store :=
  let '(outcome, st') :=
    callAdminModulesApi st now "update"
      (JObj [("id", JStr moduleId); ("is_published", JBool (negb currentStatus))]) in
  (settle ui outcome
     (if negb currentStatus
      then Toast.mk "Module published" "This module is now visible to the public." None
      else Toast.mk "Module unpublished" "This module is now hidden from the public." None),
   st').

End ModuleManager.

(** A browser for the sample data. *)
#[export] Instance reference_browser : Browser := {|
  JSON_stringify := Platform.JSON_stringify;
  toUpperCase := Platform.toUpperCase;
|}.

(** ** The division page

    The parts of the component of lines 1-438 that compute: the list of
    announcements and the label of a program's button. *)

Module Announcement.
Record t := mk {
  id : string;
  title : string;
  description : option string;
  poster_url : option string;
  is_published : bool;
  created_at : string;
}.
End Announcement.

(** An item of a program's `modules`: `{ module_type, is_published }` *)
Module Flag.
Record t := mk { module_type : string; is_published : bool }.
End Flag.

(** A program as the page selects it; `panchayath` is the name of the
    embedded row, and `modules` and `announcements` are read with a guard
    against null. *)
Module Listing.
Record t := mk {
  id : string;
  name : string;
  description : option string;
  start_date : option string;
  end_date : option string;
  all_panchayaths : bool;
  is_active : bool;
  panchayath : option string;
  modules : option (list Flag.t);
  announcements : option (list Announcement.t);
}.
End Listing.

(** `{ ...a, programName: p.name, programId: p.id }` *)
Module Notice.
Record t := mk { announcement : Announcement.t; programName : string; programId : string }.
End Notice.

(** `new Date(s).getTime()`, [None] being NaN. *)
Class Clock := { Date_getTime : string -> option Z }.

(** `xs.sort(compare)`, with the comparator given by the sign of its
    result. The sort is stable: an element goes in front of the first one
    it does not belong after. This is the order of every engine when the
    comparator is consistent, as the one below is when no date is NaN. *)
Fixpoint insert_sorted {A} (compare : A -> A -> comparison) (x : A) (xs : list A) : list A :=
  match xs with
  | [] => [x]
  | y :: rest =>
      match compare x y with
      | Gt => y :: insert_sorted compare x rest
      | _ => x :: xs
      end
  end.

Definition Array_sort {A} (compare : A -> A -> comparison) (xs : list A) : list A :=
  fold_right (insert_sorted compare) [] xs.

Section Page.
Context `{Clock}.

(** The sign of `new Date(b.created_at).getTime() - new
    Date(a.created_at).getTime()`; a sort takes NaN for 0. *)
Definition newest_first (a b : Notice.t) : comparison :=
  match Date_getTime (Announcement.created_at (Notice.announcement b)),
        Date_getTime (Announcement.created_at (Notice.announcement a)) with
  | Some tb, Some ta => tb ?= ta
  | _, _ => Eq
  end.

(** `(p.announcements || []).filter((a) => a.is_published).map(...)` *)
Definition published_of (p : Listing.t) : list Notice.t :=
  map (fun a => Notice.mk a (Listing.name p) (Listing.id p))
      (List.filter Announcement.is_published (default [] (Listing.announcements p))).

Definition allAnnouncements (programs : list Listing.t) : list Notice.t :=
  Array_sort newest_first (flat_map published_of programs).

End Page.

(** `program.modules?.some((m) => m.module_type === "registration" && m.is_published)`;
    [None] is the undefined of a null `modules`. *)
Definition hasRegistration (program : Listing.t) : option bool :=
  existsb (fun m => String.eqb (Flag.module_type m) "registration" && Flag.is_published m)
    <$> Listing.modules program.

(** `{hasRegistration ? "View & Register" : "View Details"}` *)
Definition button_label (program : Listing.t) : string :=
  if default false (hasRegistration program) then "View & Register" else "View Details".

(** The rows `modules:program_modules(module_type, is_published)` embeds
    in a program: those of `program_modules` that point to it. *)
Definition embedded_modules (st : Store) (programId : string) : list Flag.t :=
  map (fun m => Flag.mk (ProgramModule.module_type m) (ProgramModule.is_published m))
      (List.filter (fun m => String.eqb (ProgramModule.program_id m) programId)
         (map snd (map_to_list (program_modules st)))).

#[export] Instance reference_clock : Clock := {|
  Date_getTime := Platform.Date_getTime;
|}.

(** ** Notions the statements use *)

(** The division a module belongs to, through its program. *)
Definition module_division (st : Store) (m : ProgramModule.t) : option string :=
  Program.division_id <$> programs st !! ProgramModule.program_id m.

(** An action that did not succeed: it threw, or it answered with an
    error of its own. *)
Definition failure (o : option Response) : Prop :=
  o = None \/
  exists code msg, o = Some (json_response code (ErrorBody msg))
                   /\ (code = 400 \/ code = 403 \/ code = 404).

(** The bytes of one code unit: one byte below 128, else a lead byte and
    a continuation byte that give the unit back. *)
Definition utf8_unit (c : ascii) : list byte :=
  let n := N_of_ascii c in
  if (n <? 128)%N then [byte_of_ascii c]
  else [byte_of_ascii (ascii_of_N (192 + N.shiftr n 6));
        byte_of_ascii (ascii_of_N (128 + N.land n 63))].

Definition utf8_unit_decodes (c : ascii) : bool :=
  match utf8_unit c with
  | [b] => (Byte.to_N b <? 128)%N && Ascii.eqb (ascii_of_byte b) c
  | [b1; b2] =>
      (128 <=? Byte.to_N b1)%N
      && Ascii.eqb (ascii_of_N ((Byte.to_N b1 - 192) * 64 + (Byte.to_N b2 - 128))) c
  | _ => false
  end.

(** ** Sample data

    Tokens signed with [key] (each is `btoa(payload) + "." + sha256(payload
    + key)` in hex), a small store and a few requests. *)
Module Sample.

Definition key : string := "service-role-key".

(** `{admin_id: a1, user_id: u1, division_id: farmelife, exp: 1000}` *)
Definition token_a1 : string :=
  "eyJhZG1pbl9pZCI6ImExIiwidXNlcl9pZCI6InUxIiwiZGl2aXNpb25faWQiOiJmYXJtZWxpZmUiLCJleHAiOjEwMDB9"
  ++ ".069c00309a0008b6852def201ef37c98946908e05e2ebc2f4a6896ecfb5268fc".

(** The same with `division_id: organelife`, signed afresh. *)
Definition token_a1_organelife : string :=
  "eyJhZG1pbl9pZCI6ImExIiwidXNlcl9pZCI6InUxIiwiZGl2aXNpb25faWQiOiJvcmdhbmVsaWZlIiwiZXhwIjoxMDAwfQ=="
  ++ ".126d32f95512697780a0a5c61e7581c5f6ef283df9aaa05bd74ca2525f0df2d1".

(** The `organelife` payload under the digest of the `farmelife` one. *)
Definition token_tampered : string :=
  "eyJhZG1pbl9pZCI6ImExIiwidXNlcl9pZCI6InUxIiwiZGl2aXNpb25faWQiOiJvcmdhbmVsaWZlIiwiZXhwIjoxMDAwfQ=="
  ++ ".069c00309a0008b6852def201ef37c98946908e05e2ebc2f4a6896ecfb5268fc".

(** `{admin_id: a2, ...}` and `{admin_id: a3, ...}`, both `exp: 1000` *)
Definition token_a2 : string :=
  "eyJhZG1pbl9pZCI6ImEyIiwidXNlcl9pZCI6InUyIiwiZGl2aXNpb25faWQiOiJmYXJtZWxpZmUiLCJleHAiOjEwMDB9"
  ++ ".9d7c09c1dae0bac7e050c7a15626241d5bebb597b119b6bbfa3c004fe50387a3".

Definition token_a3 : string :=
  "eyJhZG1pbl9pZCI6ImEzIiwidXNlcl9pZCI6InUzIiwiZGl2aXNpb25faWQiOiJmYXJtZWxpZmUiLCJleHAiOjEwMDB9"
  ++ ".a52402655f4c2ada2b5b4d406d6e36dc9d33a3240171eebfff78a724c3971367".

(** The payload text `42`, signed. *)
Definition token_42 : string :=
  "NDI=.152d059c7cfe130a48e89225e90562bcc122469d0faaf6bb43af0491d40c7c5c".

(** `{admin_id: a1}` and nothing else, signed. *)
Definition token_no_exp : string :=
  "eyJhZG1pbl9pZCI6ImExIn0="
  ++ ".3a7a183f1255c09bde663e8a38d66a6c742b68abb15e12bcc2fe9a704bc1ca95".

Definition a1 : Admin.t := Admin.mk "a1" true "farmelife".
Definition a2 : Admin.t := Admin.mk "a2" false "farmelife".
Definition m1 : ProgramModule.t := ProgramModule.mk "m1" "p1" "registration" false.
Definition m2 : ProgramModule.t := ProgramModule.mk "m2" "p2" "announcement" false.

Definition store : Store := {|
  admins := <["a1" := a1]> (<["a2" := a2]> ∅);
  programs := <["p1" := Program.mk "p1" "farmelife"]>
                (<["p2" := Program.mk "p2" "organelife"]> ∅);
  program_modules := <["m1" := m1]> (<["m2" := m2]> ∅);
|}.

(** JSON text written with apostrophes for the quotation marks. *)
Definition json_text (s : string) : string :=
  string_of_list_ascii
    (map (fun c => if Ascii.eqb c "'" then Platform.quote else c) (list_ascii_of_string s)).

Definition post (token body : string) : Request :=
  {| method := "POST"; x_admin_token := Some token; json := json_text body |}.

Definition create_p1 : string :=
  "{'action':'create','data':{'program_id':'p1','module_type':'advertisement'}}".
Definition create_p1_published : string :=
  "{'action':'create','data':{'program_id':'p1','module_type':'advertisement','is_published':true}}".
Definition create_p2 : string :=
  "{'action':'create','data':{'program_id':'p2','module_type':'advertisement'}}".
Definition update_m1 : string := "{'action':'update','data':{'id':'m1','is_published':true}}".
Definition update_m2 : string := "{'action':'update','data':{'id':'m2','is_published':true}}".
Definition update_m9 : string := "{'action':'update','data':{'id':'m9','is_published':true}}".
Definition update_new : string :=
  "{'action':'update','data':{'id':'module-2','is_published':true}}".
Definition delete_m1 : string := "{'action':'delete','data':{'id':'m1'}}".
Definition delete_m2 : string := "{'action':'delete','data':{'id':'m2'}}".

(** More requests, and a request that carries no token. *)
Definition archive : string := "{'action':'archive','data':{}}".
Definition unpublish_m1 : string :=
  "{'action':'update','data':{'id':'m1','is_published':false}}".
Definition delete_new : string := "{'action':'delete','data':{'id':'module-2'}}".

Definition anonymous (body : string) : Request :=
  {| method := "POST"; x_admin_token := None; json := json_text body |}.

(** The first segment of [token_no_exp] with and without its padding, and
    the digest that goes with it. *)
Definition padded : string := "eyJhZG1pbl9pZCI6ImExIn0=".
Definition unpadded : string := "eyJhZG1pbl9pZCI6ImExIn0".
Definition digest_no_exp : string :=
  "3a7a183f1255c09bde663e8a38d66a6c742b68abb15e12bcc2fe9a704bc1ca95".

(** [token_a1] with its digest in uppercase. *)
Definition token_a1_uppercase : string :=
  "eyJhZG1pbl9pZCI6ImExIiwidXNlcl9pZCI6InUxIiwiZGl2aXNpb25faWQiOiJmYXJtZWxpZmUiLCJleHAiOjEwMDB9"
  ++ ".069C00309A0008B6852DEF201EF37C98946908E05E2EBC2F4A6896ECFB5268FC".

(** The module manager before any switch was used. *)
Definition idle : Manager := {| isUpdating := None; toasts := []; reloads := 0 |}.

(** A second registration module under `p1`, and a store that holds both. *)
Definition m3 : ProgramModule.t := ProgramModule.mk "m3" "p1" "registration" true.
Definition doubled : Store :=
  with_program_modules store (<["m3" := m3]> (program_modules store)).

(** A store where `p1` has no module yet. *)
Definition bare : Store := with_program_modules store (<["m2" := m2]> ∅).

(** `p1` as the page reads it from a store. *)
Definition listing (st : Store) : Listing.t :=
  Listing.mk "p1" "Kitchen garden" None None None false true None
    (Some (embedded_modules st "p1")) None.

Definition spring : Announcement.t :=
  Announcement.mk "n1" "Spring fair" None None true "2024-03-01T09:00:00.000Z".
Definition draft : Announcement.t :=
  Announcement.mk "n2" "Not yet" None None false "2024-06-01T09:00:00.000Z".
Definition harvest : Announcement.t :=
  Announcement.mk "n3" "Harvest day" None None true "2024-09-15T09:00:00+05:30".

Definition listings : list Listing.t :=
  [Listing.mk "p1" "Kitchen garden" None None None false true None None
     (Some [spring; draft]);
   Listing.mk "p2" "Seed bank" None None None true true None (Some []) (Some [harvest]);
   Listing.mk "p3" "Compost" None None None true true None None None].

(** The payload texts of [token_a1] and of [token_a1_organelife]. *)
Definition payload_a1 : string :=
  json_text "{'admin_id':'a1','user_id':'u1','division_id':'farmelife','exp':1000}".
Definition payload_a1_organelife : string :=
  json_text "{'admin_id':'a1','user_id':'u1','division_id':'organelife','exp':1000}".

(** An outage that loses the lookups of program `p1`, and one that loses
    the lookups of module `m1`. *)
Definition unavailable : PostgrestError := {| message := "Service Unavailable" |}.

Definition p1_lookup_lost : Outage :=
  fun q => match q with
           | SelectProgram "p1" => Some unavailable
           | _ => None
           end.

Definition m1_lookup_lost : Outage :=
  fun q => match q with
           | SelectModule "m1" => Some unavailable
           | _ => None
           end.

(** [token_a1_organelife] with the last letter of its first segment
    changed from `Q` to `R`: the four bits that differ are the ones `atob`
    drops before the padding. *)
Definition token_a1_organelife_respelt : string :=
  "eyJhZG1pbl9pZCI6ImExIiwidXNlcl9pZCI6InUxIiwiZGl2aXNpb25faWQiOiJvcmdhbmVsaWZlIiwiZXhwIjoxMDAwfR=="
  ++ ".126d32f95512697780a0a5c61e7581c5f6ef283df9aaa05bd74ca2525f0df2d1".

End Sample.

(** * Properties of the token verifier *)

Section VerifierProperties.
Context `{Runtime}.

Lemma jsval_null_dec (v : jsval) : v = JNull \/ v <> JNull.
Proof. destruct v; (by left) || (by right). Qed.

Lemma split_dot_cons s : exists p rest, split_dot s = p :: rest.
Proof.
  induction s as [|c s (p & rest & IH)]; simpl; eauto.
  destruct (Ascii.eqb c "."); eauto. rewrite IH. eauto.
Qed.

Lemma truthy_JStr s : truthy (JStr s) = true <-> s <> "".
Proof.
  simpl. rewrite negb_true_iff. split.
  - intros E ->. by rewrite String.eqb_refl in E.
  - intros N. by apply String.eqb_neq.
Qed.

Lemma truthy_JStr_false s : truthy (JStr s) = false <-> s = "".
Proof. simpl. rewrite negb_false_iff. apply String.eqb_eq. Qed.

(** With first two segments present and non-empty, the `try` block is the
    chain decode, parse, expiry, digest. *)
Lemma verifyAdminToken_try_segments token key now p sig :
  split_dot token !! 0%nat = Some p -> split_dot token !! 1%nat = Some sig ->
  p <> "" -> sig <> "" ->
  verifyAdminToken_try token key now =
    (tokenData ← atob p;
     payload ← JSON_parse tokenData;
     exp ← prop payload "exp";
     is_expired ← expired exp now;
     if is_expired : bool then Some JNull
     else if negb (bool_decide (Some sig = Some (expectedSignature tokenData key)))
     then Some JNull else Some payload).
Proof.
  intros Hp Hs Np Ns. unfold verifyAdminToken_try. rewrite Hp, Hs. cbn [default from_option id].
  apply truthy_JStr in Np, Ns. by rewrite Np, Ns.
Qed.

Lemma verifyAdminToken_missing token key now :
  split_dot token !! 0%nat = Some "" \/ split_dot token !! 1%nat = None
  \/ split_dot token !! 1%nat = Some "" ->
  verifyAdminToken token key now = JNull.
Proof.
  unfold verifyAdminToken, verifyAdminToken_try.
  intros [E | [E | E]]; rewrite E; cbn [default from_option id truthy negb]; try done.
  - by rewrite orb_true_r.
  - by rewrite orb_true_r.
Qed.

(** A result other than null went through every check. *)
Lemma verifyAdminToken_inv token key now :
  verifyAdminToken token key now <> JNull ->
  exists p sig tokenData exp,
    split_dot token !! 0%nat = Some p /\ split_dot token !! 1%nat = Some sig /\
    p <> "" /\ sig <> "" /\
    atob p = Some tokenData /\
    JSON_parse tokenData = Some (verifyAdminToken token key now) /\
    prop (verifyAdminToken token key now) "exp" = Some exp /\
    expired exp now = Some false /\
    sig = expectedSignature tokenData key.
Proof.
  intros Hv.
  destruct (split_dot_cons token) as (p & rest & Hsp).
  destruct (decide (p = "")) as [->|Np].
  { exfalso. apply Hv, verifyAdminToken_missing. left. by rewrite Hsp. }
  destruct rest as [|sig rest].
  { exfalso. apply Hv, verifyAdminToken_missing. right; left. by rewrite Hsp. }
  destruct (decide (sig = "")) as [->|Ns].
  { exfalso. apply Hv, verifyAdminToken_missing. right; right. by rewrite Hsp. }
  assert (Hp : split_dot token !! 0%nat = Some p) by by rewrite Hsp.
  assert (Hs : split_dot token !! 1%nat = Some sig) by by rewrite Hsp.
  revert Hv. unfold verifyAdminToken.
  rewrite (verifyAdminToken_try_segments _ _ _ _ _ Hp Hs Np Ns).
  destruct (atob p) as [tokenData|] eqn:Ha; [|done]. cbn [mbind option_bind].
  destruct (JSON_parse tokenData) as [payload|] eqn:Hj; [|done]. cbn [mbind option_bind].
  destruct (prop payload "exp") as [exp|] eqn:He; [|done]. cbn [mbind option_bind].
  destruct (expired exp now) as [[|]|] eqn:Hx; [done| |done]. cbn [mbind option_bind].
  case_bool_decide as Hsig; cbn [negb]; [|done].
  intros _. exists p, sig, tokenData, exp. by simplify_eq.
Qed.
End VerifierProperties.

(** * Properties of the gateway *)

Section GatewayProperties.
Context `{Runtime} `{Database}.

Lemma Q_ltb_lt x y : Q_ltb x y = true <-> (x < y)%Q.
Proof. unfold Q_ltb, Qlt. apply Z.ltb_lt. Qed.

Lemma Q_ltb_ge x y : Q_ltb x y = false <-> (y <= x)%Q.
Proof. unfold Q_ltb, Qle. apply Z.ltb_ge. Qed.

Lemma not_preflight req : method req <> "OPTIONS" -> String.eqb (method req) "OPTIONS" = false.
Proof. apply String.eqb_neq. Qed.

Lemma serve_unauthenticated key st now req r :
  method req <> "OPTIONS" ->
  authenticate key st now req = Return r ->
  serve key st now req = (r, st).
Proof. intros Hm Ha. unfold serve. by rewrite (not_preflight _ Hm), Ha. Qed.

Lemma verifyAdminToken_empty key now : verifyAdminToken "" key now = JNull.
Proof. apply verifyAdminToken_missing. by left. Qed.

(** A token that does not verify is answered with 401. *)
Lemma authenticate_null key st now req token :
  x_admin_token req = Some token ->
  verifyAdminToken token key now = JNull ->
  exists msg, authenticate key st now req = Return (json_response 401 (ErrorBody msg)).
Proof.
  intros Ht Hv. unfold authenticate. rewrite Ht.
  destruct (truthy (JStr token)); cbn [negb]; [|eauto]. rewrite Hv. cbn. eauto.
Qed.

Lemma serve_rejects_null key st now req token :
  method req <> "OPTIONS" ->
  x_admin_token req = Some token ->
  verifyAdminToken token key now = JNull ->
  status (fst (serve key st now req)) = 401 /\ snd (serve key st now req) = st.
Proof.
  intros Hm Ht Hv. destruct (authenticate_null key st now req token Ht Hv) as [msg Ha].
  by rewrite (serve_unauthenticated _ _ _ _ _ Hm Ha).
Qed.

(** C2, as the code has it. A token whose payload `exp` is strictly below
    the current time is rejected: [verifyAdminToken] returns null before it
    looks at the digest, and the handler answers 401 without touching the
    store. A token whose `exp` is the current time or later passes the
    expiry check: with a matching digest it is returned, so a token is still
    accepted at the very millisecond its `exp` names. *)
Theorem token_expiry key now :
  (forall token payload (e : Q),
      decode_payload token = Some payload ->
      prop payload "exp" = Some (JNum (Fin e)) ->
      (e < inject_Z now)%Q ->
      verifyAdminToken token key now = JNull /\
      forall st req,
        method req <> "OPTIONS" -> x_admin_token req = Some token ->
        status (fst (serve key st now req)) = 401 /\ snd (serve key st now req) = st)
  /\
  (forall token p sig tokenData payload (e : Q),
      split_dot token !! 0%nat = Some p -> split_dot token !! 1%nat = Some sig ->
      p <> "" -> sig <> "" ->
      atob p = Some tokenData -> JSON_parse tokenData = Some payload ->
      prop payload "exp" = Some (JNum (Fin e)) ->
      (inject_Z now <= e)%Q ->
      sig = expectedSignature tokenData key ->
      verifyAdminToken token key now = payload).
Proof.
  split.
  - intros token payload e Hd He Hlt.
    assert (Hv : verifyAdminToken token key now = JNull).
    { destruct (split_dot_cons token) as (p & rest & Hsp).
      destruct (decide (p = "")) as [->|Np].
      { apply verifyAdminToken_missing. left. by rewrite Hsp. }
      destruct rest as [|sig rest].
      { apply verifyAdminToken_missing. right; left. by rewrite Hsp. }
      destruct (decide (sig = "")) as [->|Ns].
      { apply verifyAdminToken_missing. right; right. by rewrite Hsp. }
      unfold verifyAdminToken.
      rewrite (verifyAdminToken_try_segments token key now p sig)
        by (by rewrite ?Hsp).
      revert Hd. unfold decode_payload. rewrite Hsp. cbn [lookup list_lookup default from_option id].
      destruct (atob p) as [tokenData|]; [|done]. cbn [mbind option_bind].
      intros ->. cbn [mbind option_bind]. rewrite He. cbn [mbind option_bind].
      unfold expired. cbn [ToNumber mbind option_bind num_lt].
      by rewrite (proj2 (Q_ltb_lt _ _) Hlt). }
    split; [done|]. intros st req Hm Ht. by apply (serve_rejects_null key st now req token).
  - intros token p sig tokenData payload e Hp Hs Np Ns Ha Hj He Hle ->.
    unfold verifyAdminToken.
    rewrite (verifyAdminToken_try_segments token key now p _ Hp Hs Np Ns).
    rewrite Ha. cbn [mbind option_bind]. rewrite Hj. cbn [mbind option_bind].
    rewrite He. cbn [mbind option_bind].
    unfold expired. cbn [ToNumber mbind option_bind num_lt].
    rewrite (proj2 (Q_ltb_ge _ _) Hle).
    by rewrite bool_decide_eq_true_2.
Qed.

Lemma padStart2_toString16 b : two_lower_hex (padStart2 (toString16 b)) = true.
Proof. destruct b; vm_compute; reflexivity. Qed.

Lemma hex_join_lower bytes :
  forallb is_lower_hex (list_ascii_of_string (hex_join bytes)) = true.
Proof.
  induction bytes as [|b bytes IH]; [done|].
  cbn [hex_join fold_right]. fold (hex_join bytes).
  pose proof (padStart2_toString16 b) as Hb.
  destruct (padStart2 (toString16 b)) as [|c1 [|c2 [|]]]; try done.
  cbn [two_lower_hex] in Hb. apply andb_true_iff in Hb as [H1 H2].
  change (String c1 (String c2 "") +:+ hex_join bytes)
    with (String c1 (String c2 (hex_join bytes))).
  cbn [list_ascii_of_string forallb]. by rewrite H1, H2, IH.
Qed.

(** C9, as the code has it. [verifyAdminToken] never throws: an exception
    in the `try` block becomes null. A token with an empty first segment or
    no or an empty second one, a first segment `atob` rejects, and decoded
    text `JSON.parse` rejects or reads as null all give null. Nothing checks
    the shape of what was parsed: the result is null or the parsed value,
    whatever it is. *)
Theorem verifyAdminToken_never_throws token key now :
  (verifyAdminToken_try token key now = None -> verifyAdminToken token key now = JNull)
  /\ (split_dot token !! 0%nat = Some "" \/ split_dot token !! 1%nat = None
      \/ split_dot token !! 1%nat = Some "" ->
      verifyAdminToken token key now = JNull)
  /\ (forall p, split_dot token !! 0%nat = Some p -> atob p = None ->
                verifyAdminToken token key now = JNull)
  /\ (forall p tokenData,
        split_dot token !! 0%nat = Some p -> atob p = Some tokenData ->
        JSON_parse tokenData = None \/ JSON_parse tokenData = Some JNull ->
        verifyAdminToken token key now = JNull)
  /\ (verifyAdminToken token key now = JNull
      \/ decode_payload token = Some (verifyAdminToken token key now)).
Proof.
  assert (Hchain : forall p, split_dot token !! 0%nat = Some p ->
            verifyAdminToken token key now = JNull \/
            exists sig, p <> "" /\ sig <> "" /\ split_dot token !! 1%nat = Some sig /\
              verifyAdminToken_try token key now =
                (tokenData ← atob p;
                 payload ← JSON_parse tokenData;
                 exp ← prop payload "exp";
                 is_expired ← expired exp now;
                 if is_expired : bool then Some JNull
                 else if negb (bool_decide (Some sig = Some (expectedSignature tokenData key)))
                 then Some JNull else Some payload)).
  { intros p Hp. destruct (decide (p = "")) as [->|Np].
    { left. apply verifyAdminToken_missing. by left. }
    destruct (split_dot token !! 1%nat) as [sig|] eqn:Hs.
    2:{ left. apply verifyAdminToken_missing. by right; left. }
    destruct (decide (sig = "")) as [->|Ns].
    { left. apply verifyAdminToken_missing. by right; right. }
    right. exists sig. repeat split; try done.
    by apply verifyAdminToken_try_segments. }
  repeat split.
  - intros E. unfold verifyAdminToken. by rewrite E.
  - apply verifyAdminToken_missing.
  - intros p Hp Ha. destruct (Hchain p Hp) as [|(sig & _ & _ & _ & E)]; [done|].
    unfold verifyAdminToken. rewrite E, Ha. done.
  - intros p tokenData Hp Ha Hj. destruct (Hchain p Hp) as [|(sig & _ & _ & _ & E)]; [done|].
    unfold verifyAdminToken. rewrite E, Ha. cbn [mbind option_bind].
    by destruct Hj as [-> | ->].
  - destruct (jsval_null_dec (verifyAdminToken token key now)) as [|Hv]; [by left|right].
    destruct (verifyAdminToken_inv token key now Hv)
      as (p & sig & tokenData & exp & Hp & _ & _ & _ & Ha & Hj & _).
    unfold decode_payload. rewrite Hp. cbn [default from_option id].
    rewrite Ha. cbn [mbind option_bind]. done.
Qed.

(** ** What a request with a parsed body runs *)

Lemma serve_dispatch key st now req admin body :
  method req <> "OPTIONS" ->
  authenticate key st now req = Next admin ->
  JSON_parse (json req) = Some body ->
  serve key st now req = or_internal_error (dispatch st admin body).
Proof. intros Hm Ha Hb. unfold serve. by rewrite (not_preflight _ Hm), Ha, Hb. Qed.

Lemma serve_create key st now req admin data :
  authenticate key st now req = Next admin ->
  calls req "create" data ->
  serve key st now req = or_internal_error (create st (Admin.division_id admin) data).
Proof.
  intros Ha (Hm & body & Hb & Hact & Hdata).
  rewrite (serve_dispatch _ _ _ _ _ _ Hm Ha Hb). unfold dispatch. by rewrite Hact, Hdata.
Qed.

Lemma serve_update key st now req admin data :
  authenticate key st now req = Next admin ->
  calls req "update" data ->
  serve key st now req = or_internal_error (update st (Admin.division_id admin) data).
Proof.
  intros Ha (Hm & body & Hb & Hact & Hdata).
  rewrite (serve_dispatch _ _ _ _ _ _ Hm Ha Hb). unfold dispatch. by rewrite Hact, Hdata.
Qed.

Lemma serve_delete key st now req admin data :
  authenticate key st now req = Next admin ->
  calls req "delete" data ->
  serve key st now req = or_internal_error (delete_ st (Admin.division_id admin) data).
Proof.
  intros Ha (Hm & body & Hb & Hact & Hdata).
  rewrite (serve_dispatch _ _ _ _ _ _ Hm Ha Hb). unfold dispatch. by rewrite Hact, Hdata.
Qed.

(** ** Lookups by a string id *)

Lemma eq_filter_text s : eq_filter (JStr s) = Some s.
Proof. done. Qed.

Lemma verifyProgramAccess_text st divisionId pid :
  verifyProgramAccess st divisionId (JStr pid)
  = Some match programs st !! pid with
         | Some program => String.eqb (Program.division_id program) divisionId
         | None => false
         end.
Proof.
  unfold verifyProgramAccess, select_single. cbn [eq_filter ToString mbind option_bind].
  by destruct (programs st !! pid).
Qed.

Lemma load_module_text st divisionId mid :
  load_module st divisionId mid
  = match program_modules st !! mid with
    | Some m =>
        match programs st !! ProgramModule.program_id m with
        | Some program =>
            if String.eqb (Program.division_id program) divisionId
            then Next m else Return forbidden
        | None => Return forbidden
        end
    | None => Return module_not_found
    end.
Proof.
  unfold load_module, select_single.
  destruct (program_modules st !! mid) as [m|]; [|done]. cbn -[verifyProgramAccess].
  rewrite verifyProgramAccess_text.
  destruct (programs st !! ProgramModule.program_id m) as [program|]; [|done].
  by destruct (String.eqb _ _).
Qed.

Lemma update_text st divisionId data mid :
  prop data "id" = Some (JStr mid) ->
  update st divisionId data
  = match load_module st divisionId mid with
    | Return r => (Some r, st)
    | Throw => (None, st)
    | Next _ =>
        let is_published := default JUndefined (prop data "is_published") in
        let updateData :=
          match is_published with
          | JUndefined => []
          | _ => set_field "is_published" is_published []
          end in
        let '(r, st') := update_module st updateData mid in
        (Some (respond r (SuccessBody (Reply.data r))), st')
    end.
Proof. intros Hid. unfold update. by rewrite Hid. Qed.

Lemma delete_text st divisionId data mid :
  prop data "id" = Some (JStr mid) ->
  delete_ st divisionId data
  = match load_module st divisionId mid with
    | Return r => (Some r, st)
    | Throw => (None, st)
    | Next _ =>
        (Some (respond (Reply.mk (A := unit) None None) (SuccessBody None)),
         with_program_modules st (delete mid (program_modules st)))
    end.
Proof. intros Hid. unfold delete_. by rewrite Hid. Qed.

(** [authenticate] reads the `admins` table and nothing else. *)
Lemma authenticate_admins key st st' now req :
  admins st = admins st' -> authenticate key st now req = authenticate key st' now req.
Proof. intros E. unfold authenticate. by rewrite E. Qed.

Lemma verifyProgramAccess_programs st st' divisionId programId :
  programs st = programs st' ->
  verifyProgramAccess st divisionId programId = verifyProgramAccess st' divisionId programId.
Proof. intros E. unfold verifyProgramAccess. by rewrite E. Qed.

Lemma respond_status {A} (r : Reply.t A) payload :
  status (respond r payload) = 400 \/ status (respond r payload) = 200.
Proof. unfold respond. destruct (Reply.error r); [by left|by right]. Qed.


Lemma truthy_token key now token :
  truthy (verifyAdminToken token key now) = true -> truthy (JStr token) = true.
Proof.
  intros Hv. apply truthy_JStr. intros ->. by rewrite verifyAdminToken_empty in Hv.
Qed.

(** C5. With a token that verifies, an admin row that is missing or has
    `is_active` false gets 401 whatever the request asks for, and the store
    is handed back as it was. *)
Theorem inactive_or_unknown_admin key st now req token a :
  method req <> "OPTIONS" ->
  x_admin_token req = Some token ->
  truthy (verifyAdminToken token key now) = true ->
  prop (verifyAdminToken token key now) "admin_id" = Some (JStr a) ->
  admins st !! a = None
  \/ (exists admin, admins st !! a = Some admin /\ Admin.is_active admin = false) ->
  serve key st now req
  = (json_response 401 (ErrorBody "Admin account not found or inactive"), st).
Proof.
  intros Hm Ht Hv Hid Hrow.
  apply serve_unauthenticated; [done|].
  unfold authenticate. rewrite Ht, (truthy_token _ _ _ Hv), Hv, Hid.
  cbn [negb mbind option_bind eq_filter ToString]. unfold select_single.
  destruct Hrow as [-> | (admin & -> & Hact)]; [done|].
  cbn. by rewrite Hact.
Qed.





(** ** The two writes *)

Lemma set_columns_is_published v row :
  set_columns (set_field "is_published" v []) row
  = (ProgramModule.mk (ProgramModule.id row) (ProgramModule.program_id row)
       (ProgramModule.module_type row)) <$> column_bool v.
Proof. unfold set_columns. cbn. by destruct (column_bool v). Qed.

(** `update` either leaves the store alone or replaces one module row by
    itself with another `is_published`. *)
Lemma update_effect st divisionId data r st' :
  update st divisionId data = (r, st') ->
  st' = st \/
  exists idv k row b,
    prop data "id" = Some idv /\ eq_filter idv = Some k /\
    program_modules st !! k = Some row /\
    prop data "is_published" <> Some JUndefined /\
    column_bool (default JUndefined (prop data "is_published")) = Some b /\
    let row' := ProgramModule.mk (ProgramModule.id row) (ProgramModule.program_id row)
                  (ProgramModule.module_type row) b in
    r = Some (json_response 200 (SuccessBody (Some row'))) /\
    st' = with_program_modules st (<[k := row']> (program_modules st)).
Proof.
  unfold update. destruct (prop data "id") as [idv|] eqn:Hid; cbn [mbind option_bind];
    [|intros [= _ <-]; by left].
  destruct (eq_filter idv) as [k|] eqn:Hk; [|intros [= _ <-]; by left].
  destruct (load_module st divisionId k); try (intros [= _ <-]; by left).
  destruct (prop data "is_published") as [flag|] eqn:Hflag; cbn [default from_option id].
  2:{ cbn. intros [= _ <-]. by left. }
  assert (Hgo : flag <> JUndefined ->
            (let '(r0, st0) := update_module st (set_field "is_published" flag []) k in
             (Some (respond r0 (SuccessBody (Reply.data r0))), st0)) = (r, st') ->
            st' = st \/
            exists id0 k0 row b,
              Some idv = Some id0 /\ eq_filter id0 = Some k0 /\
              program_modules st !! k0 = Some row /\
              Some flag <> Some JUndefined /\
              column_bool flag = Some b /\
              let row' := ProgramModule.mk (ProgramModule.id row)
                            (ProgramModule.program_id row)
                            (ProgramModule.module_type row) b in
              r = Some (json_response 200 (SuccessBody (Some row'))) /\
              st' = with_program_modules st (<[k0 := row']> (program_modules st))).
  { intros Hne. unfold update_module. cbn [set_field].
    destruct (program_modules st !! k) as [row|] eqn:Hrow; [|intros [= _ <-]; by left].
    change [("is_published", flag)] with (set_field "is_published" flag []).
    rewrite set_columns_is_published.
    destruct (column_bool flag) as [b|] eqn:Hb; cbn; [|intros [= _ <-]; by left].
    intros [= <- <-]. right. exists idv, k, row, b. repeat split; try done. congruence. }
  destruct flag; try (apply Hgo; discriminate).
  cbn. intros [= _ <-]. by left.
Qed.

(** A `create` answered with 200 inserted the row it reports under a fresh id. *)
Lemma create_success st divisionId data m st' :
  create st divisionId data = (Some (json_response 200 (SuccessBody (Some m))), st') ->
  exists program_id,
    prop data "program_id" = Some program_id /\
    verifyProgramAccess st divisionId program_id = Some true /\
    column_text program_id = Some (ProgramModule.program_id m) /\
    program_modules st !! ProgramModule.id m = None /\
    st' = with_program_modules st (<[ProgramModule.id m := m]> (program_modules st)).
Proof.
  unfold create. destruct (prop data "program_id") as [program_id|] eqn:Hp; [|done].
  destruct (verifyProgramAccess st divisionId program_id) as [[|]|] eqn:Hacc;
    [|by intros [=]..].
  unfold insert_module.
  destruct (column_text program_id) as [p|] eqn:Hcp; [|by intros [=]].
  destruct (column_text (default JUndefined (prop data "module_type"))) as [ty|];
    [|by intros [=]].
  destruct (column_bool (js_or _ _)) as [b|]; [|by intros [=]].
  destruct (program_modules st !! generate_id (program_modules st)) eqn:Hfresh;
    [by intros [=]|].
  cbn. intros [= <- <-]. by exists program_id.
Qed.

Lemma or_internal_error_inv outcome r st :
  or_internal_error outcome = (r, st) -> status r <> 500 -> outcome = (Some r, st).
Proof.
  destruct outcome as [[r'|] st']; cbn; intros [= <- <-]; [done|].
  intros Hne. by destruct Hne.
Qed.

(** C8. An `update` changes nothing but `is_published`, and only of the
    row it names: the other tables stay as they are, no module row
    disappears, every row keeps its `id`, `program_id` and `module_type`,
    and a payload without `is_published` changes nothing at all. After a
    `create`, an `update` of the new id with `is_published: true` answers
    with, and leaves in the store, the created row with the flag set. *)
Theorem update_touches_only_is_published key st now req admin data :
  authenticate key st now req = Next admin ->
  calls req "update" data ->
  let st' := snd (serve key st now req) in
  admins st' = admins st /\ programs st' = programs st
  /\ (forall k m',
        program_modules st' !! k = Some m' ->
        exists m,
          program_modules st !! k = Some m /\
          ProgramModule.id m' = ProgramModule.id m /\
          ProgramModule.program_id m' = ProgramModule.program_id m /\
          ProgramModule.module_type m' = ProgramModule.module_type m /\
          (forall mid, prop data "id" = Some (JStr mid) -> k <> mid -> m' = m))
  /\ (forall k, is_Some (program_modules st !! k) -> is_Some (program_modules st' !! k))
  /\ (prop data "is_published" = Some JUndefined -> st' = st)
  /\ (forall st0 now0 creq admin0 cdata pid m,
        authenticate key st0 now0 creq = Next admin0 ->
        Admin.division_id admin0 = Admin.division_id admin ->
        calls creq "create" cdata ->
        prop cdata "program_id" = Some (JStr pid) ->
        serve key st0 now0 creq = (json_response 200 (SuccessBody (Some m)), st) ->
        prop data "id" = Some (JStr (ProgramModule.id m)) ->
        prop data "is_published" = Some (JBool true) ->
        let m' := ProgramModule.mk (ProgramModule.id m) (ProgramModule.program_id m)
                    (ProgramModule.module_type m) true in
        fst (serve key st now req) = json_response 200 (SuccessBody (Some m')) /\
        program_modules st' !! ProgramModule.id m = Some m').
Proof.
  intros Ha Hc st'. subst st'. rewrite (serve_update _ _ _ _ _ _ Ha Hc).
  assert (Hround : forall st0 now0 creq admin0 cdata pid m,
            authenticate key st0 now0 creq = Next admin0 ->
            Admin.division_id admin0 = Admin.division_id admin ->
            calls creq "create" cdata ->
            prop cdata "program_id" = Some (JStr pid) ->
            serve key st0 now0 creq = (json_response 200 (SuccessBody (Some m)), st) ->
            prop data "id" = Some (JStr (ProgramModule.id m)) ->
            prop data "is_published" = Some (JBool true) ->
            let m' := ProgramModule.mk (ProgramModule.id m) (ProgramModule.program_id m)
                        (ProgramModule.module_type m) true in
            update st (Admin.division_id admin) data
            = (Some (json_response 200 (SuccessBody (Some m'))),
               with_program_modules st (<[ProgramModule.id m := m']> (program_modules st)))).
  { intros st0 now0 creq admin0 cdata pid m Ha0 Hd Hc0 Hp Hs0 Hid Hflag m'.
    rewrite (serve_create _ _ _ _ _ _ Ha0 Hc0) in Hs0.
    apply or_internal_error_inv in Hs0; [|done].
    destruct (create_success _ _ _ _ _ Hs0) as (pv & Hpv & Hacc & Hcol & Hfresh & Est).
    rewrite Hp in Hpv. injection Hpv as <-. rewrite column_text_text in Hcol.
    injection Hcol as Hpid.
    assert (Hm : program_modules st !! ProgramModule.id m = Some m).
    { rewrite Est. cbn [program_modules with_program_modules]. by rewrite lookup_insert_eq. }
    assert (Hload : load_module st (Admin.division_id admin) (ProgramModule.id m) = Next m).
    { rewrite verifyProgramAccess_text in Hacc. injection Hacc as Hacc.
      rewrite load_module_text, Hm, <- Hpid, <- Hd, Est. cbn [programs with_program_modules].
      destruct (programs st0 !! pid) as [program|]; [|done]. by rewrite Hacc. }
    rewrite (update_text st _ _ _ Hid), Hload, Hflag.
    cbn [default from_option Datatypes.id].
    unfold update_module. cbn [set_field]. rewrite Hm.
    change [("is_published", JBool true)] with (set_field "is_published" (JBool true) []).
    by rewrite set_columns_is_published, column_bool_bool. }
  destruct (update st (Admin.division_id admin) data) as [r st1] eqn:Hu.
  assert (Hsnd : snd (or_internal_error (r, st1)) = st1) by by destruct r.
  rewrite Hsnd.
  assert (Hlast : forall st0 now0 creq admin0 cdata pid m,
            authenticate key st0 now0 creq = Next admin0 ->
            Admin.division_id admin0 = Admin.division_id admin ->
            calls creq "create" cdata ->
            prop cdata "program_id" = Some (JStr pid) ->
            serve key st0 now0 creq = (json_response 200 (SuccessBody (Some m)), st) ->
            prop data "id" = Some (JStr (ProgramModule.id m)) ->
            prop data "is_published" = Some (JBool true) ->
            let m' := ProgramModule.mk (ProgramModule.id m) (ProgramModule.program_id m)
                        (ProgramModule.module_type m) true in
            fst (or_internal_error (r, st1)) = json_response 200 (SuccessBody (Some m')) /\
            program_modules st1 !! ProgramModule.id m = Some m').
  { intros st0 now0 creq admin0 cdata pid m Ha0 Hd Hc0 Hp Hs0 Hid Hflag m'.
    pose proof (Hround _ _ _ _ _ _ _ Ha0 Hd Hc0 Hp Hs0 Hid Hflag) as E.
    cbn zeta in E. injection E as -> ->. split; [done|].
    cbn [program_modules with_program_modules]. by rewrite lookup_insert_eq. }
  clear Hround.
  destruct (update_effect _ _ _ _ _ Hu)
    as [-> | (idv & k0 & row & b & Hid & Hk & Hrow & Hflag & Hb & Hr & ->)].
  - refine (conj _ (conj _ (conj _ (conj _ (conj _ Hlast))))); try done.
    intros k m' Hm'. exists m'. by repeat split.
  - cbn [admins programs program_modules with_program_modules] in *.
    refine (conj _ (conj _ (conj _ (conj _ (conj _ Hlast))))); try done.
    + intros k m'. rewrite lookup_insert. case_decide as Hk0.
      * subst k. intros [= <-]. exists row. repeat split; try done.
        intros mid Hmid Hne. rewrite Hid in Hmid. injection Hmid as ->.
        by injection Hk.
      * intros Hm'. exists m'. by repeat split.
    + intros k Hsome. rewrite lookup_insert. by case_decide.
Qed.

(** C10. An authorized `create` stores `data.is_published || false`: the
    row is inserted, and reported, with the flag the database reads from
    that value, and it is the one row the table gains. A payload without
    `is_published`, or with a falsy one, gives false; `is_published: true`
    gives a module that is published from the start. *)
Theorem create_is_published key st now req admin data pid program module_type flag b :
  authenticate key st now req = Next admin ->
  calls req "create" data ->
  prop data "program_id" = Some (JStr pid) ->
  programs st !! pid = Some program ->
  Program.division_id program = Admin.division_id admin ->
  prop data "module_type" = Some (JStr module_type) ->
  prop data "is_published" = Some flag ->
  column_bool (js_or flag (JBool false)) = Some b ->
  program_modules st !! generate_id (program_modules st) = None ->
  let row := ProgramModule.mk (generate_id (program_modules st)) pid module_type b in
  serve key st now req
  = (json_response 200 (SuccessBody (Some row)),
     with_program_modules st (<[ProgramModule.id row := row]> (program_modules st)))
  /\ (flag = JUndefined -> b = false)
  /\ (truthy flag = false -> b = false)
  /\ (flag = JBool true -> b = true)
  /\ program_modules (snd (serve key st now req)) !! ProgramModule.id row = Some row
  /\ ProgramModule.is_published row = b
  /\ (forall k, k <> ProgramModule.id row ->
                program_modules (snd (serve key st now req)) !! k = program_modules st !! k).
Proof.
  intros Ha Hc Hp Hprog Hd Hty Hflag Hb Hfresh row.
  assert (Hserve : serve key st now req
            = (json_response 200 (SuccessBody (Some row)),
               with_program_modules st
                 (<[ProgramModule.id row := row]> (program_modules st)))).
  { rewrite (serve_create _ _ _ _ _ _ Ha Hc). unfold create.
    rewrite Hp, verifyProgramAccess_text, Hprog, (proj2 (String.eqb_eq _ _) Hd).
    rewrite Hty, Hflag. cbn [default from_option id].
    unfold insert_module. by rewrite !column_text_text, Hb, Hfresh. }
  assert (Hfalsy : truthy flag = false -> b = false).
  { intros Hf. unfold js_or in Hb. rewrite Hf, column_bool_bool in Hb. by injection Hb. }
  split; [exact Hserve|]. split; [intros ->; by apply Hfalsy|]. split; [done|].
  split; [intros ->; cbn in Hb; rewrite column_bool_bool in Hb; by injection Hb|].
  rewrite Hserve. cbn [snd program_modules with_program_modules].
  split; [by rewrite lookup_insert_eq|]. split; [done|].
  intros k Hne. by rewrite lookup_insert_ne.
Qed.

End GatewayProperties.

(** * What else the gateway guarantees *)

Section GatewayCoverage.
Context `{Runtime} `{Database}.

Lemma authenticate_Return key st now req r :
  authenticate key st now req = Return r -> exists msg, r = json_response 401 (ErrorBody msg).
Proof.
  unfold authenticate. destruct (x_admin_token req) as [t|]; [|intros [= <-]; eauto].
  destruct (negb (truthy (JStr t))); [intros [= <-]; eauto|].
  destruct (negb (truthy _)); [intros [= <-]; eauto|].
  destruct (_ ≫= _) as [k|]; [|done].
  unfold select_single. destruct (admins st !! k) as [a|]; cbn.
  - destruct (Admin.is_active a); cbn; [done|intros [= <-]; eauto].
  - intros [= <-]; eauto.
Qed.

Lemma verifyProgramAccess_true st d v :
  verifyProgramAccess st d v = Some true ->
  exists k p, eq_filter v = Some k /\ programs st !! k = Some p /\ Program.division_id p = d.
Proof.
  unfold verifyProgramAccess, select_single.
  destruct (eq_filter v) as [k|]; cbn [mbind option_bind]; [|intros [=]].
  destruct (programs st !! k) as [p|] eqn:Hp; cbn; [|intros [=]].
  intros [= E]. exists k, p. split; [done|]. split; [done|]. by apply String.eqb_eq.
Qed.

Lemma load_module_Next st d k m :
  load_module st d k = Next m ->
  program_modules st !! k = Some m /\ module_division st m = Some d.
Proof.
  rewrite load_module_text. unfold module_division.
  destruct (program_modules st !! k) as [m'|]; [|done].
  destruct (programs st !! _) as [p|] eqn:Hp; [|done].
  destruct (String.eqb _ _) eqn:E; [|done].
  intros [= <-]. split; [done|]. rewrite Hp. cbn. f_equal. by apply String.eqb_eq.
Qed.

Lemma load_module_Return st d k r :
  load_module st d k = Return r -> r = module_not_found \/ r = forbidden.
Proof.
  rewrite load_module_text.
  destruct (program_modules st !! k) as [m'|]; [|intros [= <-]; by left].
  destruct (programs st !! _) as [p|]; [|intros [= <-]; by right].
  destruct (String.eqb _ _); [done|intros [= <-]; by right].
Qed.

Lemma create_cases st d data o st' :
  create st d data = (o, st') ->
  (st' = st /\ failure o)
  \/ exists m,
       program_modules st !! ProgramModule.id m = None /\
       o = Some (json_response 200 (SuccessBody (Some m))) /\
       st' = with_program_modules st (<[ProgramModule.id m := m]> (program_modules st)).
Proof.
  unfold create, failure. destruct (prop data "program_id") as [v|]; [|intros [= <- <-]; eauto].
  destruct (verifyProgramAccess st d v) as [[|]|]; [|intros [= <- <-]; left; eauto 10..].
  unfold insert_module.
  destruct (column_text v) as [p|]; [|intros [= <- <-]; left; eauto 10].
  destruct (column_text _) as [t|]; [|intros [= <- <-]; left; eauto 10].
  destruct (column_bool _) as [b|]; [|intros [= <- <-]; left; eauto 10].
  destruct (program_modules st !! generate_id (program_modules st)) eqn:Hfresh;
    [intros [= <- <-]; left; eauto 10|].
  intros [= <- <-]. right. by eexists (ProgramModule.mk _ _ _ _).
Qed.

Lemma update_cases st d data o st' :
  update st d data = (o, st') ->
  (st' = st /\ failure o)
  \/ exists k row b,
       program_modules st !! k = Some row /\ module_division st row = Some d /\
       let row' := ProgramModule.mk (ProgramModule.id row) (ProgramModule.program_id row)
                     (ProgramModule.module_type row) b in
       o = Some (json_response 200 (SuccessBody (Some row'))) /\
       st' = with_program_modules st (<[k := row']> (program_modules st)).
Proof.
  unfold update, failure. destruct (_ ≫= _) as [k|]; [|intros [= <- <-]; eauto].
  destruct (load_module st d k) as [m|r|] eqn:Hl; [| |intros [= <- <-]; eauto].
  2:{ intros [= <- <-]. left. split; [done|]. right.
      destruct (load_module_Return _ _ _ _ Hl) as [-> | ->]; eauto 10. }
  apply load_module_Next in Hl as [Hm Hd].
  set (updateData := match default JUndefined (prop data "is_published") with
                     | JUndefined => [] | _ => _ end).
  cbv zeta. unfold update_module.
  destruct updateData as [|f fs] eqn:Hu; [intros [= <- <-]; left; eauto 10|].
  rewrite Hm. destruct (set_columns (f :: fs) m) as [row'|] eqn:Hs;
    [|intros [= <- <-]; left; eauto 10].
  intros [= <- <-]. right. exists k, m.
  assert (Hf : exists v, f :: fs = set_field "is_published" v []).
  { subst updateData. destruct (default JUndefined (prop data "is_published")); try done;
      rewrite <- Hu; eauto. }
  destruct Hf as [v Hf]. rewrite Hf, set_columns_is_published in Hs.
  destruct (column_bool v) as [b|]; [|done]. injection Hs as <-.
  by exists b.
Qed.

Lemma delete_cases st d data o st' :
  delete_ st d data = (o, st') ->
  (st' = st /\ failure o)
  \/ exists k row,
       program_modules st !! k = Some row /\ module_division st row = Some d /\
       o = Some (json_response 200 (SuccessBody None)) /\
       st' = with_program_modules st (delete k (program_modules st)).
Proof.
  unfold delete_, failure. destruct (_ ≫= _) as [k|]; [|intros [= <- <-]; eauto].
  destruct (load_module st d k) as [m|r|] eqn:Hl; [| |intros [= <- <-]; eauto].
  2:{ intros [= <- <-]. left. split; [done|]. right.
      destruct (load_module_Return _ _ _ _ Hl) as [-> | ->]; eauto 10. }
  apply load_module_Next in Hl as [Hm Hd].
  intros [= <- <-]. right. by exists k, m.
Qed.

(** The `default` branch of the `switch`. *)
Lemma dispatch_default st admin body action data :
  prop body "action" = Some action -> prop body "data" = Some data ->
  action <> JStr "create" -> action <> JStr "update" -> action <> JStr "delete" ->
  dispatch st admin body = (Some (json_response 400 (ErrorBody "Invalid action")), st).
Proof.
  intros Ha Hd N1 N2 N3. unfold dispatch. rewrite Ha, Hd. cbv zeta.
  repeat match goal with
         | |- context [match ?x with _ => _ end] => is_var x; destruct x; try done
         end.
Qed.

Lemma dispatch_cases st admin body action data :
  prop body "action" = Some action -> prop body "data" = Some data ->
  (action = JStr "create"
   /\ dispatch st admin body = create st (Admin.division_id admin) data)
  \/ (action = JStr "update"
      /\ dispatch st admin body = update st (Admin.division_id admin) data)
  \/ (action = JStr "delete"
      /\ dispatch st admin body = delete_ st (Admin.division_id admin) data)
  \/ (action <> JStr "create" /\ action <> JStr "update" /\ action <> JStr "delete"
      /\ dispatch st admin body
         = (Some (json_response 400 (ErrorBody "Invalid action")), st)).
Proof.
  intros Ha Hd.
  assert (Hs : (exists s, action = JStr s) \/ forall s, action <> JStr s).
  { destruct action; eauto; by right. }
  destruct Hs as [[s ->]|Hn].
  - destruct (decide (s = "create")) as [->|N1].
    { left. split; [done|]. unfold dispatch. by rewrite Ha, Hd. }
    destruct (decide (s = "update")) as [->|N2].
    { right; left. split; [done|]. unfold dispatch. by rewrite Ha, Hd. }
    destruct (decide (s = "delete")) as [->|N3].
    { right; right; left. split; [done|]. unfold dispatch. by rewrite Ha, Hd. }
    right; right; right.
    assert (JStr s <> JStr "create" /\ JStr s <> JStr "update" /\ JStr s <> JStr "delete")
      as (M1 & M2 & M3) by (repeat split; congruence).
    repeat split; try done. by apply (dispatch_default _ _ _ _ _ Ha Hd).
  - right; right; right. repeat split; try apply Hn.
    apply (dispatch_default _ _ _ _ _ Ha Hd); apply Hn.
Qed.

Lemma or_internal_error_failure o st r st' :
  failure o -> or_internal_error (o, st) = (r, st') ->
  st' = st /\
  exists code msg, r = json_response code (ErrorBody msg)
                   /\ (code = 400 \/ code = 401 \/ code = 403 \/ code = 404 \/ code = 500).
Proof.
  intros [-> | (code & msg & -> & Hc)]; cbn; intros [= <- <-]; (split; [done|]).
  - exists 500, "Internal server error". eauto 10.
  - exists code, msg. split; [done|]. destruct Hc as [|[|]]; eauto 10.
Qed.

Lemma prop_defined v k a k' : prop v k = Some a -> exists b, prop v k' = Some b.
Proof. destruct v; cbn; eauto; done. Qed.

(** Every way [serve] ends: the store as it was and the pre-flight answer
    or an error, or one write for an authenticated admin and a 200. *)
Lemma serve_cases key st now req r st' :
  serve key st now req = (r, st') ->
  (st' = st /\
   ((method req = "OPTIONS"
     /\ r = {| status := 200; headers := corsHeaders; body := NoBody |}) \/
    (method req <> "OPTIONS" /\
     exists code msg,
       r = json_response code (ErrorBody msg)
       /\ (code = 400 \/ code = 401 \/ code = 403 \/ code = 404 \/ code = 500))))
  \/ (method req <> "OPTIONS" /\
      exists admin,
        authenticate key st now req = Next admin /\
        ((exists m,
             program_modules st !! ProgramModule.id m = None /\
             r = json_response 200 (SuccessBody (Some m)) /\
             st' = with_program_modules st
                     (<[ProgramModule.id m := m]> (program_modules st)))
         \/ (exists k row b,
               program_modules st !! k = Some row /\
               module_division st row = Some (Admin.division_id admin) /\
               let row' := ProgramModule.mk (ProgramModule.id row)
                             (ProgramModule.program_id row)
                             (ProgramModule.module_type row) b in
               r = json_response 200 (SuccessBody (Some row')) /\
               st' = with_program_modules st (<[k := row']> (program_modules st)))
         \/ (exists k row,
               program_modules st !! k = Some row /\
               module_division st row = Some (Admin.division_id admin) /\
               r = json_response 200 (SuccessBody None) /\
               st' = with_program_modules st (delete k (program_modules st))))).
Proof.
  unfold serve. destruct (String.eqb (method req) "OPTIONS") eqn:Hm.
  { apply String.eqb_eq in Hm. intros [= <- <-]. left. split; [done|]. by left. }
  apply String.eqb_neq in Hm.
  destruct (authenticate key st now req) as [admin|r0|] eqn:Ha.
  2:{ intros [= <- <-]. left. split; [done|]. right. split; [done|].
      destruct (authenticate_Return _ _ _ _ _ Ha) as [msg ->]. eauto 10. }
  2:{ intros [= <- <-]. left. split; [done|]. right. split; [done|].
      exists 500, "Internal server error". eauto 10. }
  destruct (JSON_parse (json req)) as [body|].
  2:{ intros [= <- <-]. left. split; [done|]. right. split; [done|].
      exists 500, "Internal server error". eauto 10. }
  assert (Hfail : forall o, failure o -> or_internal_error (o, st) = (r, st') ->
            st' = st /\
            (method req = "OPTIONS"
             /\ r = {| status := 200; headers := corsHeaders; body := NoBody |}
             \/ method req <> "OPTIONS" /\
                exists code msg,
                  r = json_response code (ErrorBody msg)
                  /\ (code = 400 \/ code = 401 \/ code = 403 \/ code = 404 \/ code = 500))).
  { intros o Ho E. destruct (or_internal_error_failure _ _ _ _ Ho E) as [-> Hr]. eauto. }
  destruct (prop body "action") as [action|] eqn:Hact.
  2:{ unfold dispatch. rewrite Hact. intros E. left. apply (Hfail None); [by left|done]. }
  destruct (prop_defined _ _ _ "data" Hact) as [data Hdata].
  destruct (dispatch_cases st admin body action data Hact Hdata)
    as [[_ ->]|[[_ ->]|[[_ ->]|(_ & _ & _ & ->)]]].
  - destruct (create st (Admin.division_id admin) data) as [o st1] eqn:E.
    destruct (create_cases _ _ _ _ _ E) as [[-> Ho]|(m & Hfresh & -> & ->)].
    + intros E'. left. by apply (Hfail o).
    + intros [= <- <-]. right. split; [done|]. exists admin. split; [done|]. left. by exists m.
  - destruct (update st (Admin.division_id admin) data) as [o st1] eqn:E.
    destruct (update_cases _ _ _ _ _ E) as [[-> Ho]|(k & row & b & Hrow & Hd & -> & ->)].
    + intros E'. left. by apply (Hfail o).
    + intros [= <- <-]. right. split; [done|]. exists admin. split; [done|].
      right; left. by exists k, row, b.
  - destruct (delete_ st (Admin.division_id admin) data) as [o st1] eqn:E.
    destruct (delete_cases _ _ _ _ _ E) as [[-> Ho]|(k & row & Hrow & Hd & -> & ->)].
    + intros E'. left. by apply (Hfail o).
    + intros [= <- <-]. right. split; [done|]. exists admin. split; [done|].
      right; right. by exists k, row.
  - intros E. left. apply (Hfail (Some (json_response 400 (ErrorBody "Invalid action")))); [|done].
    right. exists 400, "Invalid action". eauto.
Qed.

(** X1. An admin changes the modules of their own division only: a module row
    whose program belongs to another division, or to none, is the same row
    after any request; and so is every row when the request is not
    authenticated. *)
Theorem division_isolation key st now req k m :
  program_modules st !! k = Some m ->
  (forall admin, authenticate key st now req = Next admin ->
                 module_division st m <> Some (Admin.division_id admin)) ->
  program_modules (snd (serve key st now req)) !! k = Some m.
Proof.
  intros Hm Hother. destruct (serve key st now req) as [r st'] eqn:E. cbn [snd].
  destruct (serve_cases _ _ _ _ _ _ E)
    as [[-> _]
       |(_ & admin & Ha & [(m' & Hfresh & _ & ->)|[(k' & row & b & Hrow & Hd & _ & ->)
                                                 |(k' & row & Hrow & Hd & _ & ->)]])];
    cbn [program_modules with_program_modules]; [done| | |].
  - rewrite lookup_insert_ne; [done|]. intros E'. by rewrite E', Hm in Hfresh.
  - rewrite lookup_insert_ne; [done|]. intros ->. rewrite Hm in Hrow.
    injection Hrow as <-. by apply (Hother admin).
  - rewrite lookup_delete_ne; [done|]. intros ->. rewrite Hm in Hrow.
    injection Hrow as <-. by apply (Hother admin).
Qed.

(** X2. Whatever the request, a row that is still in the table afterwards
    has the id, the program and the type it had: the gateway never moves a
    module to another program nor renames its type. *)
Theorem rows_keep_identity key st now req k m m' :
  program_modules st !! k = Some m ->
  program_modules (snd (serve key st now req)) !! k = Some m' ->
  ProgramModule.id m' = ProgramModule.id m
  /\ ProgramModule.program_id m' = ProgramModule.program_id m
  /\ ProgramModule.module_type m' = ProgramModule.module_type m.
Proof.
  intros Hm. destruct (serve key st now req) as [r st'] eqn:E. cbn [snd].
  destruct (serve_cases _ _ _ _ _ _ E)
    as [[-> _]
       |(_ & admin & Ha & [(m0 & Hfresh & _ & ->)|[(k0 & row & b & Hrow & Hd & _ & ->)
                                                 |(k0 & row & Hrow & Hd & _ & ->)]])];
    cbn [program_modules with_program_modules].
  - rewrite Hm. by intros [= <-].
  - rewrite lookup_insert_ne; [|intros E'; by rewrite E', Hm in Hfresh].
    rewrite Hm. by intros [= <-].
  - rewrite lookup_insert. case_decide as Hk.
    + subst k0. rewrite Hm in Hrow. injection Hrow as <-. by intros [= <-].
    + rewrite Hm. by intros [= <-].
  - rewrite lookup_delete. case_decide as Hk; [done|]. rewrite Hm. by intros [= <-].
Qed.

(** X3. A request that is not answered with 200 leaves the store as it was. *)
Theorem serve_failure_keeps_store key st now req :
  status (fst (serve key st now req)) <> 200 -> snd (serve key st now req) = st.
Proof.
  destruct (serve key st now req) as [r st'] eqn:E. cbn [fst snd].
  destruct (serve_cases _ _ _ _ _ _ E)
    as [[-> _]
       |(_ & admin & _ & [(m & _ & -> & _)|[(k & row & b & _ & _ & -> & _)
                                           |(k & row & _ & _ & -> & _)]])];
    cbn; done.
Qed.

(** X4. No request touches the `admins` or the `programs` table, and none
    changes more than one row of `program_modules`. *)
Theorem serve_frame key st now req :
  let st' := snd (serve key st now req) in
  admins st' = admins st /\ programs st' = programs st
  /\ exists k, forall k', k' <> k -> program_modules st' !! k' = program_modules st !! k'.
Proof.
  cbv zeta. destruct (serve key st now req) as [r st'] eqn:E. cbn [snd].
  destruct (serve_cases _ _ _ _ _ _ E)
    as [[-> _]
       |(_ & admin & _ & [(m & _ & _ & ->)|[(k & row & b & _ & _ & _ & ->)
                                          |(k & row & _ & _ & _ & ->)]])];
    cbn [admins programs program_modules with_program_modules];
    (split; [done|]); (split; [done|]).
  - by exists "".
  - exists (ProgramModule.id m). intros k' Hne. by rewrite lookup_insert_ne.
  - exists k. intros k' Hne. by rewrite lookup_insert_ne.
  - exists k. intros k' Hne. by rewrite lookup_delete_ne.
Qed.

(** X5. The status of an answer is one of six. *)
Theorem serve_status_codes key st now req :
  let code := status (fst (serve key st now req)) in
  code = 200 \/ code = 400 \/ code = 401 \/ code = 403 \/ code = 404 \/ code = 500.
Proof.
  cbv zeta. destruct (serve key st now req) as [r st'] eqn:E. cbn [fst].
  destruct (serve_cases _ _ _ _ _ _ E)
    as [[_ [[_ ->]|(_ & code & msg & -> & Hc)]]
       |(_ & admin & _ & [(m & _ & -> & _)|[(k & row & b & _ & _ & -> & _)
                                           |(k & row & _ & _ & -> & _)]])];
    cbn; tauto.
Qed.

(** X6. Every answer carries the CORS headers, the errors included; every
    answer but the pre-flight one is typed as JSON; and the pre-flight
    answer is given to whoever asks, before any check. *)
Theorem responses_carry_cors_headers key st now req :
  let r := fst (serve key st now req) in
  (forall h, In h corsHeaders -> In h (headers r))
  /\ (method req <> "OPTIONS" -> In ("Content-Type", "application/json") (headers r))
  /\ (method req = "OPTIONS" ->
      serve key st now req = ({| status := 200; headers := corsHeaders; body := NoBody |}, st)).
Proof.
  cbv zeta. destruct (serve key st now req) as [r st'] eqn:E. cbn [fst].
  assert (Hjson : forall code b, In ("Content-Type", "application/json")
                                   (headers (json_response code b))
                                 /\ forall h, In h corsHeaders ->
                                              In h (headers (json_response code b))).
  { intros code b. cbn [headers json_response]. split.
    - apply in_or_app. right. by left.
    - intros h Hh. apply in_or_app. by left. }
  destruct (serve_cases _ _ _ _ _ _ E)
    as [[-> [[Hm ->]|(Hm & code & msg & -> & _)]]
       |(Hm & admin & _ & [(m & _ & -> & _)|[(k & row & b & _ & _ & -> & _)
                                            |(k & row & _ & _ & -> & _)]])];
    cbv zeta.
  1: by repeat split.
  all: split; [apply (proj2 (Hjson _ _))|split; [intros _; apply (proj1 (Hjson _ _))|by intros ?]].
Qed.

(** ** Requests that are turned away *)

Lemma authenticate_without_token key st now req :
  x_admin_token req = None \/ x_admin_token req = Some "" ->
  authenticate key st now req = Return (json_response 401 (ErrorBody "Admin token required")).
Proof. intros Ht. unfold authenticate. by destruct Ht as [-> | ->]. Qed.

(** X7. An action other than the three gets 400 "Invalid action" and changes
    nothing; so does a body that names no action at all. *)
Theorem unknown_action_rejected key st now req admin body action :
  method req <> "OPTIONS" ->
  authenticate key st now req = Next admin ->
  JSON_parse (json req) = Some body ->
  prop body "action" = Some action ->
  action <> JStr "create" -> action <> JStr "update" -> action <> JStr "delete" ->
  serve key st now req = (json_response 400 (ErrorBody "Invalid action"), st).
Proof.
  intros Hm Ha Hb Hact N1 N2 N3.
  destruct (prop_defined _ _ _ "data" Hact) as [data Hdata].
  rewrite (serve_dispatch _ _ _ _ _ _ Hm Ha Hb).
  by rewrite (dispatch_default _ _ _ _ _ Hact Hdata N1 N2 N3).
Qed.

(** X8. Without the `x-admin-token` header, or with an empty one, the answer
    is 401 "Admin token required", whatever the body holds. *)
Theorem missing_token_rejected key st now req :
  method req <> "OPTIONS" ->
  x_admin_token req = None \/ x_admin_token req = Some "" ->
  serve key st now req = (json_response 401 (ErrorBody "Admin token required"), st).
Proof. intros Hm Ht. apply serve_unauthenticated; [done|]. by apply authenticate_without_token. Qed.

(** X9. What the handler does not guard against ends in the outer `catch`:
    for an authenticated admin, a body that is no JSON, the body `null`,
    and a call of one of the three actions whose `data` is missing or null
    all get 500, with the store as it was. *)
Theorem unreadable_request_internal_error key st now req admin :
  method req <> "OPTIONS" ->
  authenticate key st now req = Next admin ->
  JSON_parse (json req) = None \/ JSON_parse (json req) = Some JNull
  \/ (exists action data,
        (action = "create" \/ action = "update" \/ action = "delete")
        /\ (data = JUndefined \/ data = JNull)
        /\ calls req action data) ->
  serve key st now req = (internal_error, st) /\ status internal_error = 500.
Proof.
  intros Hm Ha Hbad. split; [|done].
  destruct Hbad as [Hb|[Hb|(action & data & Hact & Hdata & Hc)]].
  - unfold serve. by rewrite (not_preflight _ Hm), Ha, Hb.
  - by rewrite (serve_dispatch _ _ _ _ _ _ Hm Ha Hb).
  - destruct Hact as [->|[->| ->]].
    + rewrite (serve_create _ _ _ _ _ _ Ha Hc). by destruct Hdata as [-> | ->].
    + rewrite (serve_update _ _ _ _ _ _ Ha Hc). by destruct Hdata as [-> | ->].
    + rewrite (serve_delete _ _ _ _ _ _ Ha Hc). by destruct Hdata as [-> | ->].
Qed.

(** X10. The token is checked before the body is read: a request that does not
    authenticate gets the same answer whatever its method and body are, so
    a body that cannot be parsed gets 401 then, not 500. *)
Theorem authentication_precedes_body key st now req1 req2 :
  method req1 <> "OPTIONS" -> method req2 <> "OPTIONS" ->
  x_admin_token req1 = x_admin_token req2 ->
  (forall admin, authenticate key st now req1 <> Next admin) ->
  serve key st now req1 = serve key st now req2
  /\ (status (fst (serve key st now req1)) = 401
      \/ status (fst (serve key st now req1)) = 500).
Proof.
  intros H1 H2 Ht Hno.
  assert (Ha : authenticate key st now req2 = authenticate key st now req1).
  { unfold authenticate. by rewrite Ht. }
  unfold serve. rewrite (not_preflight _ H1), (not_preflight _ H2), Ha.
  destruct (authenticate key st now req1) as [admin|r|] eqn:E.
  - by destruct (Hno admin).
  - split; [done|]. left. by destruct (authenticate_Return _ _ _ _ _ E) as [msg ->].
  - split; [done|]. by right.
Qed.

(** ** The writes, one after another *)

Lemma with_program_modules_id st : with_program_modules st (program_modules st) = st.
Proof. by destruct st. Qed.

Lemma create_inv st d data m st' :
  create st d data = (Some (json_response 200 (SuccessBody (Some m))), st') ->
  exists v p t b,
    prop data "program_id" = Some v /\
    verifyProgramAccess st d v = Some true /\
    column_text v = Some p /\
    column_text (default JUndefined (prop data "module_type")) = Some t /\
    column_bool (js_or (default JUndefined (prop data "is_published")) (JBool false))
    = Some b /\
    program_modules st !! generate_id (program_modules st) = None /\
    m = ProgramModule.mk (generate_id (program_modules st)) p t b /\
    st' = with_program_modules st
            (<[generate_id (program_modules st) := m]> (program_modules st)).
Proof.
  unfold create. destruct (prop data "program_id") as [v|] eqn:Hv; [|done].
  destruct (verifyProgramAccess st d v) as [[|]|] eqn:Hacc; [|by intros [=]..].
  unfold insert_module.
  destruct (column_text v) as [p|] eqn:Hp; [|by intros [=]].
  destruct (column_text (default JUndefined (prop data "module_type"))) as [t|] eqn:Ht;
    [|by intros [=]].
  destruct (column_bool (js_or _ _)) as [b|] eqn:Hb; [|by intros [=]].
  destruct (program_modules st !! generate_id (program_modules st)) eqn:Hfresh;
    [by intros [=]|].
  cbn. intros [= <- <-]. by exists v, p, t, b.
Qed.

Lemma create_ok st d data v p t b :
  prop data "program_id" = Some v ->
  verifyProgramAccess st d v = Some true ->
  column_text v = Some p ->
  column_text (default JUndefined (prop data "module_type")) = Some t ->
  column_bool (js_or (default JUndefined (prop data "is_published")) (JBool false))
  = Some b ->
  program_modules st !! generate_id (program_modules st) = None ->
  let m := ProgramModule.mk (generate_id (program_modules st)) p t b in
  create st d data
  = (Some (json_response 200 (SuccessBody (Some m))),
     with_program_modules st (<[generate_id (program_modules st) := m]> (program_modules st))).
Proof.
  intros Hv Hacc Hp Ht Hb Hfresh m. unfold create. rewrite Hv, Hacc.
  unfold insert_module. by rewrite Hp, Ht, Hb, Hfresh.
Qed.

Lemma update_ok st d data idv k row v b :
  prop data "id" = Some idv -> eq_filter idv = Some k ->
  load_module st d k = Next row ->
  prop data "is_published" = Some v -> v <> JUndefined ->
  column_bool v = Some b ->
  let row' := ProgramModule.mk (ProgramModule.id row) (ProgramModule.program_id row)
                (ProgramModule.module_type row) b in
  update st d data
  = (Some (json_response 200 (SuccessBody (Some row'))),
     with_program_modules st (<[k := row']> (program_modules st))).
Proof.
  intros Hid Hk Hl Hv Hne Hb row'. unfold update. rewrite Hid. cbn [mbind option_bind].
  rewrite Hk, Hl, Hv. cbn [default from_option Datatypes.id].
  apply load_module_Next in Hl as [Hm _].
  assert (Hu : match v with JUndefined => [] | _ => set_field "is_published" v [] end
               = set_field "is_published" v []) by by destruct v.
  rewrite Hu. unfold update_module. cbn [set_field]. rewrite Hm.
  change [("is_published", v)] with (set_field "is_published" v []).
  by rewrite set_columns_is_published, Hb.
Qed.

Lemma update_inv st d data o st' :
  update st d data = (o, st') ->
  (st' = st /\ failure o)
  \/ exists idv k row v b,
       prop data "id" = Some idv /\ eq_filter idv = Some k /\
       load_module st d k = Next row /\
       prop data "is_published" = Some v /\ v <> JUndefined /\
       column_bool v = Some b.
Proof.
  intros E. destruct (update_cases _ _ _ _ _ E) as [?|(k0 & row0 & b0 & _ & _ & Ho & Hst)];
    [by left|right].
  revert E. unfold update. destruct (prop data "id") as [idv|] eqn:Hid;
    cbn [mbind option_bind]; [|by rewrite Ho; intros [=]].
  destruct (eq_filter idv) as [k|] eqn:Hk; [|by rewrite Ho; intros [=]].
  destruct (load_module st d k) as [row|r|] eqn:Hl; [| |by rewrite Ho; intros [=]].
  2:{ rewrite Ho. intros [= -> _].
      by destruct (load_module_Return _ _ _ _ Hl). }
  destruct (prop_defined _ _ _ "is_published" Hid) as [v Hv]. rewrite Hv.
  cbn [default from_option Datatypes.id].
  pose proof (load_module_Next _ _ _ _ Hl) as [Hm _].
  destruct (decide (truthy (JBool true) = true)) as [_|]; [|done].
  assert (Hcase : v = JUndefined \/ v <> JUndefined) by (destruct v; (by left) || by right).
  destruct Hcase as [->|Hne].
  { cbn. rewrite Ho. by intros [=]. }
  assert (Hu : match v with JUndefined => [] | _ => set_field "is_published" v [] end
               = set_field "is_published" v []) by by destruct v.
  rewrite Hu. unfold update_module. cbn [set_field]. rewrite Hm.
  change [("is_published", v)] with (set_field "is_published" v []).
  rewrite set_columns_is_published.
  destruct (column_bool v) as [b|] eqn:Hb; cbn; [|rewrite Ho; by intros [=]].
  intros _. by exists idv, k, row, v, b.
Qed.

Lemma load_module_insert st d k row b :
  load_module st d k = Next row ->
  let row' := ProgramModule.mk (ProgramModule.id row) (ProgramModule.program_id row)
                (ProgramModule.module_type row) b in
  load_module (with_program_modules st (<[k := row']> (program_modules st))) d k = Next row'.
Proof.
  intros Hl row'. pose proof (load_module_Next _ _ _ _ Hl) as [Hm _].
  revert Hl. rewrite !load_module_text, Hm.
  cbn [program_modules programs with_program_modules]. rewrite lookup_insert_eq.
  cbn [ProgramModule.program_id row'].
  destruct (programs st !! ProgramModule.program_id row) as [p|]; [|done].
  by destruct (String.eqb _ _).
Qed.

(** An `update` asked twice does what it did once. *)
Lemma update_twice st d data o st1 :
  update st d data = (o, st1) -> update st1 d data = (o, st1).
Proof.
  intros E. destruct (update_inv _ _ _ _ _ E)
    as [[-> _]|(idv & k & row & v & b & Hid & Hk & Hl & Hv & Hne & Hb)]; [done|].
  rewrite (update_ok _ _ _ _ _ _ _ _ Hid Hk Hl Hv Hne Hb) in E. injection E as <- <-.
  rewrite (update_ok _ _ _ _ _ _ _ b Hid Hk (load_module_insert _ _ _ _ b Hl) Hv Hne Hb).
  cbn [ProgramModule.id ProgramModule.program_id ProgramModule.module_type
       program_modules with_program_modules].
  unfold with_program_modules. cbn [admins programs]. by rewrite insert_insert_eq.
Qed.

(** X11. A module can only be created under a program of the admin's own
    division: when a `create` that names its program by a string is
    answered with 200, the row it reports is in the table, points to that
    program, and the program belongs to the division of the admin. *)
Theorem create_lands_in_own_division key st now req admin data pid :
  authenticate key st now req = Next admin ->
  calls req "create" data ->
  prop data "program_id" = Some (JStr pid) ->
  status (fst (serve key st now req)) = 200 ->
  exists m program,
    fst (serve key st now req) = json_response 200 (SuccessBody (Some m))
    /\ program_modules (snd (serve key st now req)) !! ProgramModule.id m = Some m
    /\ program_modules st !! ProgramModule.id m = None
    /\ ProgramModule.program_id m = pid
    /\ programs st !! pid = Some program
    /\ Program.division_id program = Admin.division_id admin.
Proof.
  intros Ha Hc Hpid. rewrite (serve_create _ _ _ _ _ _ Ha Hc).
  destruct (create st (Admin.division_id admin) data) as [o st'] eqn:E.
  destruct (create_cases _ _ _ _ _ E) as [[-> Ho]|(m & Hfresh & -> & ->)].
  { destruct Ho as [->|(code & msg & -> & [->|[->| ->]])]; by cbn. }
  intros _. apply create_inv in E
    as (v & p & t & b & Hv & Hacc & Hp & _ & _ & _ & Hrow & _).
  rewrite Hpid in Hv. injection Hv as <-. rewrite column_text_text in Hp. injection Hp as <-.
  rewrite verifyProgramAccess_text in Hacc. injection Hacc as Hacc.
  destruct (programs st !! pid) as [program|] eqn:Hprog; [|done].
  exists m, program. cbn [fst snd or_internal_error program_modules with_program_modules].
  split; [done|]. split; [by rewrite lookup_insert_eq|]. split; [done|].
  split; [by rewrite Hrow|]. split; [done|]. by apply String.eqb_eq.
Qed.

(** X12. The handler looks for no module of the same type before it inserts:
    over a table that asks no more than ids of their own, a `create` that
    has succeeded succeeds again, as soon as the database hands out a new
    id, and both rows are then in the table. *)
Theorem create_allows_duplicates key st now req admin data m1 st1 :
  authenticate key st now req = Next admin ->
  calls req "create" data ->
  serve key st now req = (json_response 200 (SuccessBody (Some m1)), st1) ->
  program_modules st1 !! generate_id (program_modules st1) = None ->
  exists m2 st2,
    serve key st1 now req = (json_response 200 (SuccessBody (Some m2)), st2)
    /\ ProgramModule.id m2 <> ProgramModule.id m1
    /\ ProgramModule.program_id m2 = ProgramModule.program_id m1
    /\ ProgramModule.module_type m2 = ProgramModule.module_type m1
    /\ program_modules st2 !! ProgramModule.id m1 = Some m1
    /\ program_modules st2 !! ProgramModule.id m2 = Some m2.
Proof.
  intros Ha Hc Hs Hfresh1.
  rewrite (serve_create _ _ _ _ _ _ Ha Hc) in Hs.
  apply or_internal_error_inv in Hs; [|done].
  destruct (create_inv _ _ _ _ _ Hs)
    as (v & p & t & b & Hv & Hacc & Hp & Ht & Hb & Hfresh & -> & ->).
  assert (Ha1 : authenticate key
                  (with_program_modules st
                     (<[generate_id (program_modules st) :=
                          ProgramModule.mk (generate_id (program_modules st)) p t b]>
                        (program_modules st))) now req = Next admin).
  { by rewrite <- (authenticate_admins key st). }
  rewrite (serve_create _ _ _ _ _ _ Ha1 Hc).
  erewrite create_ok; [|done| |done..].
  2:{ by rewrite <- (verifyProgramAccess_programs st). }
  cbn [program_modules with_program_modules] in *.
  eexists _, _. split; [done|].
  cbn [ProgramModule.id ProgramModule.program_id ProgramModule.module_type
       program_modules with_program_modules].
  assert (Hne : generate_id
                  (<[generate_id (program_modules st) :=
                       ProgramModule.mk (generate_id (program_modules st)) p t b]>
                     (program_modules st))
                <> generate_id (program_modules st)).
  { intros E. rewrite E, lookup_insert_eq in Hfresh1. done. }
  split; [done|]. split; [done|]. split; [done|]. split.
  - rewrite lookup_insert_ne; [|done]. by rewrite lookup_insert_eq.
  - by rewrite lookup_insert_eq.
Qed.

(** X13. A `delete` answered with 200 found the row in the admin's division and
    removed it, and only it; the answer carries no module. *)
Theorem delete_removes_named_row key st now req admin data mid :
  authenticate key st now req = Next admin ->
  calls req "delete" data ->
  prop data "id" = Some (JStr mid) ->
  status (fst (serve key st now req)) = 200 ->
  let st' := snd (serve key st now req) in
  fst (serve key st now req) = json_response 200 (SuccessBody None)
  /\ (exists m, program_modules st !! mid = Some m
                /\ module_division st m = Some (Admin.division_id admin))
  /\ program_modules st' = delete mid (program_modules st)
  /\ program_modules st' !! mid = None
  /\ (forall k, k <> mid -> program_modules st' !! k = program_modules st !! k)
  /\ admins st' = admins st /\ programs st' = programs st.
Proof.
  intros Ha Hc Hid. cbv zeta.
  rewrite (serve_delete _ _ _ _ _ _ Ha Hc), (delete_text st _ _ _ Hid).
  destruct (load_module st (Admin.division_id admin) mid) as [m|r|] eqn:Hl.
  - intros _. apply load_module_Next in Hl as [Hm Hd].
    cbn [fst snd or_internal_error program_modules admins programs with_program_modules].
    split; [done|]. split; [by exists m|]. split; [done|].
    split; [by rewrite lookup_delete_eq|]. split; [|done].
    intros k Hne. by rewrite lookup_delete_ne.
  - cbn. by destruct (load_module_Return _ _ _ _ Hl) as [-> | ->].
  - done.
Qed.

(** X14. Deleting the module a `create` has just made puts the store back as
    it was before the `create`. *)
Theorem create_then_delete_restores key st now creq admin cdata pid m st1
    now' dreq admin' ddata :
  authenticate key st now creq = Next admin ->
  calls creq "create" cdata ->
  prop cdata "program_id" = Some (JStr pid) ->
  serve key st now creq = (json_response 200 (SuccessBody (Some m)), st1) ->
  authenticate key st1 now' dreq = Next admin' ->
  Admin.division_id admin' = Admin.division_id admin ->
  calls dreq "delete" ddata ->
  prop ddata "id" = Some (JStr (ProgramModule.id m)) ->
  serve key st1 now' dreq = (json_response 200 (SuccessBody None), st).
Proof.
  intros Ha Hc Hpid Hs Ha' Hd Hc' Hid.
  rewrite (serve_create _ _ _ _ _ _ Ha Hc) in Hs.
  apply or_internal_error_inv in Hs; [|done].
  destruct (create_inv _ _ _ _ _ Hs)
    as (v & p & t & b & Hv & Hacc & Hp & Ht & Hb & Hfresh & -> & ->).
  rewrite Hpid in Hv. injection Hv as <-. rewrite column_text_text in Hp. injection Hp as <-.
  rewrite verifyProgramAccess_text in Hacc. injection Hacc as Hacc.
  rewrite (serve_delete _ _ _ _ _ _ Ha' Hc'), (delete_text _ _ _ _ Hid), load_module_text.
  cbn [ProgramModule.id ProgramModule.program_id program_modules programs
       with_program_modules].
  rewrite lookup_insert_eq. cbn [ProgramModule.program_id]. rewrite Hd.
  destruct (programs st !! pid) as [program|]; [|done]. rewrite Hacc.
  cbn [or_internal_error respond Reply.error]. f_equal.
  unfold with_program_modules. cbn [admins programs program_modules].
  rewrite delete_insert_id; [|done]. by destruct st.
Qed.

(** X15. An `update` is idempotent: the same request sent again gets the same
    answer and leaves the store as the first one left it. *)
Theorem update_idempotent key st now req admin data :
  authenticate key st now req = Next admin ->
  calls req "update" data ->
  serve key (snd (serve key st now req)) now req = serve key st now req.
Proof.
  intros Ha Hc. rewrite (serve_update _ _ _ _ _ _ Ha Hc).
  destruct (update st (Admin.division_id admin) data) as [o st1] eqn:E.
  assert (Hsnd : snd (or_internal_error (o, st1)) = st1) by by destruct o.
  rewrite Hsnd.
  assert (Ha1 : authenticate key st1 now req = Next admin).
  { rewrite <- Ha. symmetry. apply authenticate_admins.
    destruct (update_cases _ _ _ _ _ E) as [[-> _]|(k & row & b & _ & _ & _ & ->)]; done. }
  by rewrite (serve_update _ _ _ _ _ _ Ha1 Hc), (update_twice _ _ _ _ _ E).
Qed.

(** X16. Publishing and unpublishing undo each other: an `update` that flips
    `is_published`, followed by one that sets it back, returns the row as
    it was and leaves the store as it was. *)
Theorem publish_unpublish_restores key st now req1 req2 admin data1 data2 mid m :
  authenticate key st now req1 = Next admin ->
  authenticate key st now req2 = Next admin ->
  calls req1 "update" data1 -> calls req2 "update" data2 ->
  prop data1 "id" = Some (JStr mid) -> prop data2 "id" = Some (JStr mid) ->
  prop data1 "is_published" = Some (JBool (negb (ProgramModule.is_published m))) ->
  prop data2 "is_published" = Some (JBool (ProgramModule.is_published m)) ->
  program_modules st !! mid = Some m ->
  module_division st m = Some (Admin.division_id admin) ->
  let flipped := ProgramModule.mk (ProgramModule.id m) (ProgramModule.program_id m)
                   (ProgramModule.module_type m) (negb (ProgramModule.is_published m)) in
  serve key st now req1
  = (json_response 200 (SuccessBody (Some flipped)),
     with_program_modules st (<[mid := flipped]> (program_modules st)))
  /\ serve key (snd (serve key st now req1)) now req2
     = (json_response 200 (SuccessBody (Some m)), st).
Proof.
  intros Ha1 Ha2 Hc1 Hc2 Hid1 Hid2 Hf1 Hf2 Hm Hd flipped. subst flipped.
  set (flipped := ProgramModule.mk (ProgramModule.id m) (ProgramModule.program_id m)
                    (ProgramModule.module_type m) (negb (ProgramModule.is_published m))).
  assert (Hl : load_module st (Admin.division_id admin) mid = Next m).
  { rewrite load_module_text, Hm. unfold module_division in Hd.
    destruct (programs st !! ProgramModule.program_id m) as [p|]; [|done].
    injection Hd as ->. by rewrite String.eqb_refl. }
  assert (E1 : serve key st now req1
               = (json_response 200 (SuccessBody (Some flipped)),
                  with_program_modules st (<[mid := flipped]> (program_modules st)))).
  { rewrite (serve_update _ _ _ _ _ _ Ha1 Hc1).
    by rewrite (update_ok _ _ _ _ mid m _ _ Hid1 eq_refl Hl Hf1 ltac:(done)
                  (column_bool_bool _)). }
  split; [done|]. rewrite E1. cbn [snd].
  assert (Ha2' : authenticate key
                   (with_program_modules st (<[mid := flipped]> (program_modules st)))
                   now req2 = Next admin).
  { by rewrite <- (authenticate_admins key st). }
  rewrite (serve_update _ _ _ _ _ _ Ha2' Hc2).
  unfold flipped.
  rewrite (update_ok _ _ _ _ mid _ _ _ Hid2 eq_refl
             (load_module_insert _ _ _ _ (negb (ProgramModule.is_published m)) Hl)
             Hf2 ltac:(done) (column_bool_bool _)).
  cbn [or_internal_error ProgramModule.id ProgramModule.program_id
       ProgramModule.module_type program_modules with_program_modules].
  assert (Hrow : ProgramModule.mk (ProgramModule.id m) (ProgramModule.program_id m)
                   (ProgramModule.module_type m) (ProgramModule.is_published m) = m)
    by by destruct m.
  rewrite Hrow. f_equal. unfold with_program_modules. cbn [admins programs].
  rewrite insert_insert_eq, insert_id; [|done]. by destruct st.
Qed.

End GatewayCoverage.

Section VerifierCoverage.
Context `{Runtime}.

Lemma split_dot_app a b :
  split_dot (a ++ String "." b) = (split_dot a ++ split_dot b)%list.
Proof.
  induction a as [|c a IH]; [done|].
  change (String c a ++ String "." b) with (String c (a ++ String "." b)).
  cbn [split_dot]. rewrite IH.
  destruct (Ascii.eqb c "."); [done|].
  by destruct (split_dot_cons a) as (p & rest & ->).
Qed.

(** The verifier depends on the token through its first two segments. *)
Lemma verifyAdminToken_segments token token' key now :
  split_dot token !! 0%nat = split_dot token' !! 0%nat ->
  split_dot token !! 1%nat = split_dot token' !! 1%nat ->
  verifyAdminToken token key now = verifyAdminToken token' key now.
Proof. intros E0 E1. unfold verifyAdminToken, verifyAdminToken_try. by rewrite E0, E1. Qed.

(** X17. Only the first two segments of a token count: whatever follows a
    second dot is ignored, so a token that verifies still verifies with
    anything appended after a dot. *)
Theorem extra_segments_ignored token junk key now sig :
  split_dot token !! 1%nat = Some sig ->
  verifyAdminToken (token ++ String "." junk) key now = verifyAdminToken token key now.
Proof.
  intros Hs. apply verifyAdminToken_segments; rewrite split_dot_app.
  - destruct (split_dot_cons token) as (p & rest & ->). done.
  - rewrite Hs. by apply lookup_app_l_Some.
Qed.

(** X18. The digest covers the decoded payload, not its base64 text: two first
    segments that `atob` decodes alike are interchangeable under the same
    digest. *)
Theorem payload_encoding_interchangeable p p' sig key now :
  split_dot p = [p] -> split_dot p' = [p'] -> p <> "" -> p' <> "" ->
  atob p = atob p' ->
  verifyAdminToken (p ++ String "." sig) key now
  = verifyAdminToken (p' ++ String "." sig) key now.
Proof.
  intros Hp Hp' Np Np' Ha. unfold verifyAdminToken, verifyAdminToken_try.
  rewrite !split_dot_app, Hp, Hp'. cbn [app lookup list_lookup default from_option Datatypes.id].
  apply truthy_JStr in Np, Np'. by rewrite Np, Np', Ha.
Qed.

(** X19. A payload whose `exp` is missing, or is no number at all, never
    expires: `undefined < now` is false at every time, so under its digest
    the token verifies for ever. *)
Theorem token_without_exp_never_expires token key p sig tokenData payload exp :
  split_dot token !! 0%nat = Some p -> split_dot token !! 1%nat = Some sig ->
  p <> "" -> sig <> "" ->
  atob p = Some tokenData -> JSON_parse tokenData = Some payload ->
  prop payload "exp" = Some exp ->
  exp = JUndefined \/ ToNumber exp = Some NaN ->
  sig = expectedSignature tokenData key ->
  forall now, verifyAdminToken token key now = payload.
Proof.
  intros Hp Hs Np Ns Ha Hj He Hnan -> now.
  assert (Hn : ToNumber exp = Some NaN) by by destruct Hnan as [-> | ?].
  unfold verifyAdminToken.
  rewrite (verifyAdminToken_try_segments token key now p _ Hp Hs Np Ns).
  rewrite Ha. cbn [mbind option_bind]. rewrite Hj. cbn [mbind option_bind].
  rewrite He. cbn [mbind option_bind]. unfold expired. rewrite Hn.
  cbn [mbind option_bind num_lt]. by rewrite bool_decide_eq_true_2.
Qed.

Lemma hex_digit_inj d d' :
  (d < 16)%N -> (d' < 16)%N -> hex_digit d = hex_digit d' -> d = d'.
Proof.
  intros Hd Hd' E. apply (f_equal N_of_ascii) in E. revert E. unfold hex_digit.
  destruct (N.ltb_spec d 10), (N.ltb_spec d' 10);
    rewrite !N_ascii_embedding by lia; lia.
Qed.

Lemma padStart2_digits b :
  padStart2 (toString16 b)
  = String (hex_digit (Byte.to_N b / 16)) (String (hex_digit (Byte.to_N b mod 16)) "").
Proof. destruct b; vm_compute; reflexivity. Qed.

Lemma padStart2_toString16_inj b b' :
  padStart2 (toString16 b) = padStart2 (toString16 b') -> b = b'.
Proof.
  rewrite !padStart2_digits. intros [= E1 E2].
  pose proof (Byte.to_N_bounded b) as Hb. pose proof (Byte.to_N_bounded b') as Hb'.
  apply hex_digit_inj in E1; [|apply N.Div0.div_lt_upper_bound; lia..].
  apply hex_digit_inj in E2; [|apply N.mod_lt; lia..].
  assert (E : Byte.to_N b = Byte.to_N b').
  { rewrite (N.div_mod (Byte.to_N b) 16), (N.div_mod (Byte.to_N b') 16) by lia.
    by rewrite E1, E2. }
  apply (f_equal Byte.of_N) in E. rewrite !Byte.of_to_N in E. by injection E.
Qed.

(** X20. The hex text of a digest has two lowercase digits for each byte and
    names its bytes one to one: two digests with the same text are the
    same, so comparing the texts compares the digests. *)
Theorem hex_join_injective bytes :
  String.length (hex_join bytes) = (2 * List.length bytes)%nat
  /\ forall bytes', hex_join bytes = hex_join bytes' -> bytes = bytes'.
Proof.
  assert (Hcons : forall b bs,
            hex_join (b :: bs)
            = String (hex_digit (Byte.to_N b / 16))
                (String (hex_digit (Byte.to_N b mod 16)) (hex_join bs))).
  { intros b bs. cbn [hex_join fold_right]. fold (hex_join bs).
    by rewrite padStart2_digits. }
  split.
  - induction bytes as [|b bs IH]; [done|]. rewrite Hcons. cbn [String.length List.length].
    rewrite IH. lia.
  - induction bytes as [|b bs IH]; intros [|b' bs'].
    + done.
    + rewrite Hcons. by intros [=].
    + rewrite Hcons. by intros [=].
    + rewrite !Hcons. intros [= E1 E2 E3]. f_equal; [|by apply IH].
      apply padStart2_toString16_inj. rewrite !padStart2_digits. by rewrite E1, E2.
Qed.

(** X21. The digest is compared as text against lowercase hex: a second
    segment with any character outside `0-9a-f`, an uppercase digit for
    one, never verifies. *)
Theorem signature_is_case_sensitive token key now sig :
  split_dot token !! 1%nat = Some sig ->
  forallb is_lower_hex (list_ascii_of_string sig) = false ->
  verifyAdminToken token key now = JNull.
Proof.
  intros Hs Hbad. destruct (jsval_null_dec (verifyAdminToken token key now)) as [|Hv]; [done|].
  destruct (verifyAdminToken_inv token key now Hv)
    as (p & sig' & tokenData & exp & _ & Hs' & _ & _ & _ & _ & _ & _ & Hsig).
  rewrite Hs in Hs'. injection Hs' as <-. rewrite Hsig in Hbad.
  unfold expectedSignature in Hbad. by rewrite hex_join_lower in Hbad.
Qed.

End VerifierCoverage.

(** * Properties of the module manager *)

Section ManagerProperties.
Context `{Runtime} `{Database} `{Browser}.

(** The body reaches the function as it was sent. *)
Lemma api_request_calls token action data :
  JSON_parse (JSON_stringify (JObj [("action", JStr action); ("data", data)]))
  = Some (JObj [("action", JStr action); ("data", data)]) ->
  calls (api_request token action data) action data.
Proof. intros E. split; [done|]. eexists. split; [exact E|]. done. Qed.

Lemma authenticate_header key st now req1 req2 :
  x_admin_token req1 = x_admin_token req2 ->
  authenticate key st now req1 = authenticate key st now req2.
Proof. intros E. unfold authenticate. by rewrite E. Qed.

(** A call either went through with a 200, or threw the message of the
    client library and left the store alone. *)
Lemma callAdminModulesApi_cases key token st now action data out st' :
  callAdminModulesApi key token st now action data = (out, st') ->
  (exists m, out = inr (Some (SuccessBody m))
             /\ serve key st now (api_request token action data)
                = (json_response 200 (SuccessBody m), st'))
  \/ (out = inl non_2xx /\ st' = st
      /\ status (fst (serve key st now (api_request token action data))) <> 200).
Proof.
  unfold callAdminModulesApi, invoke.
  destruct (serve key st now _) as [r st1] eqn:E.
  destruct (serve_cases _ _ _ _ _ _ E)
    as [[-> [[Hm _]|(_ & code & msg & -> & Hc)]]
       |(_ & admin & _ & [(m & _ & -> & _)|[(k & row & b & _ & _ & -> & _)
                                           |(k & row & _ & _ & -> & _)]])];
    [done| |cbn; intros [= <- <-]; left; eauto..].
  assert (Hno : (200 <=? code) && (code <=? 299) = false).
  { destruct Hc as [->|[->|[->|[->| ->]]]]; done. }
  cbn [status json_response fst]. rewrite Hno. intros [= <- <-]. right.
  split; [done|]. split; [done|]. destruct Hc as [->|[->|[->|[->| ->]]]]; done.
Qed.

Lemma callAdminModulesApi_ok key token st now action data m st' :
  serve key st now (api_request token action data)
  = (json_response 200 (SuccessBody m), st') ->
  callAdminModulesApi key token st now action data = (inr (Some (SuccessBody m)), st').
Proof. intros E. unfold callAdminModulesApi, invoke. by rewrite E. Qed.

Lemma callAdminModulesApi_failed key token st now action data :
  status (fst (serve key st now (api_request token action data))) <> 200 ->
  callAdminModulesApi key token st now action data = (inl non_2xx, st).
Proof.
  intros Hs. destruct (callAdminModulesApi key token st now action data) as [out st'] eqn:E.
  destruct (callAdminModulesApi_cases _ _ _ _ _ _ _ _ E) as [(m & _ & E')|(-> & -> & _)];
    [|done].
  by rewrite E' in Hs.
Qed.

Lemma settle_cases key token st now action data ui done :
  let result := callAdminModulesApi key token st now action data in
  let ui' := settle ui (fst result) done in
  isUpdating ui' = None
  /\ ((toasts ui' = (toasts ui ++ [done])%list /\ reloads ui' = S (reloads ui)
       /\ status (fst (serve key st now (api_request token action data))) = 200)
      \/ (toasts ui' = (toasts ui ++ [Toast.mk "Error" non_2xx (Some "destructive")])%list
          /\ reloads ui' = reloads ui /\ snd result = st
          /\ status (fst (serve key st now (api_request token action data))) <> 200)).
Proof.
  cbv zeta. destruct (callAdminModulesApi key token st now action data) as [out st'] eqn:E.
  destruct (callAdminModulesApi_cases _ _ _ _ _ _ _ _ E) as [(m & -> & E')|(-> & -> & Hs)];
    cbn [fst snd settle isUpdating toasts reloads]; (split; [done|]).
  - left. by rewrite E'.
  - by right.
Qed.

Lemma callAdminModulesApi_store key token st now action data :
  snd (callAdminModulesApi key token st now action data)
  = snd (serve key st now (api_request token action data)).
Proof.
  unfold callAdminModulesApi, invoke. destruct (serve key st now _) as [r st'].
  destruct ((200 <=? status r) && (status r <=? 299)); cbn [FunctionsResponse.error]; [|done].
  cbn [FunctionsResponse.data]. destruct (body r) as [|e|m]; try done.
  by destruct (truthy (JStr e)).
Qed.

(** X22. Every use of a switch sends one request, leaves the store as the
    function left it, and ends with `isUpdating` cleared and one more
    toast. When the function answered 200, the toast is the one of the
    action and the module list is reloaded. When it answered anything
    else, the store is as it was, nothing is reloaded, and the toast is the
    error of the client library: the message the function sent with its
    400, 401, 403, 404 or 500 is never the one shown. *)
Theorem toggle_reports_outcome key token programId modules type moduleId currentStatus
    ui st now :
  let toggle_sent :=
    match getModule modules type with
    | Some existingModule =>
        api_request token "delete" (JObj [("id", JStr (ProgramModule.id existingModule))])
    | None =>
        api_request token "create"
          (JObj [("program_id", JStr programId); ("module_type", JStr type);
                 ("is_published", JBool false)])
    end in
  let toggle_toast :=
    match getModule modules type with
    | Some _ =>
        Toast.mk "Module disabled" (capitalize type ++ " module has been removed.") None
    | None => Toast.mk "Module enabled" (capitalize type ++ " module has been added.") None
    end in
  let publish_sent :=
    api_request token "update"
      (JObj [("id", JStr moduleId); ("is_published", JBool (negb currentStatus))]) in
  let publish_toast :=
    if negb currentStatus
    then Toast.mk "Module published" "This module is now visible to the public." None
    else Toast.mk "Module unpublished" "This module is now hidden from the public." None in
  let failed := Toast.mk "Error" non_2xx (Some "destructive") in
  let outcome (after : Manager * Store) (sent : Request) (shown : Toast.t) :=
    isUpdating (fst after) = None
    /\ snd after = snd (serve key st now sent)
    /\ ((status (fst (serve key st now sent)) = 200
         /\ toasts (fst after) = (toasts ui ++ [shown])%list
         /\ reloads (fst after) = S (reloads ui))
        \/ (status (fst (serve key st now sent)) <> 200
            /\ toasts (fst after) = (toasts ui ++ [failed])%list
            /\ reloads (fst after) = reloads ui
            /\ snd after = st)) in
  outcome (handleModuleToggle key token programId modules type ui st now)
    toggle_sent toggle_toast
  /\ outcome (handlePublishToggle key token moduleId currentStatus ui st now)
       publish_sent publish_toast.
Proof.
  cbv zeta.
  assert (Hcall : forall action data shown,
            let result := callAdminModulesApi key token st now action data in
            let after := (settle ui (fst result) shown, snd result) in
            isUpdating (fst after) = None
            /\ snd after = snd (serve key st now (api_request token action data))
            /\ ((status (fst (serve key st now (api_request token action data))) = 200
                 /\ toasts (fst after) = (toasts ui ++ [shown])%list
                 /\ reloads (fst after) = S (reloads ui))
                \/ (status (fst (serve key st now (api_request token action data))) <> 200
                    /\ toasts (fst after)
                       = (toasts ui ++ [Toast.mk "Error" non_2xx (Some "destructive")])%list
                    /\ reloads (fst after) = reloads ui
                    /\ snd after = st))).
  { intros action data shown. cbv zeta. cbn [fst snd].
    pose proof (settle_cases key token st now action data ui shown) as Hc. cbv zeta in Hc.
    destruct Hc as [Hu Hc]. split; [done|]. split; [apply callAdminModulesApi_store|].
    destruct Hc as [(? & ? & ?)|(? & ? & ? & ?)]; [by left|by right]. }
  split.
  - unfold handleModuleToggle. destruct (getModule modules type) as [m|].
    + pose proof (Hcall "delete" (JObj [("id", JStr (ProgramModule.id m))])
                    (Toast.mk "Module disabled"
                       (capitalize type ++ " module has been removed.") None)) as Hc.
      cbv zeta in Hc. by destruct (callAdminModulesApi _ _ _ _ _ _) as [out st'].
    + pose proof (Hcall "create"
                    (JObj [("program_id", JStr programId); ("module_type", JStr type);
                           ("is_published", JBool false)])
                    (Toast.mk "Module enabled"
                       (capitalize type ++ " module has been added.") None)) as Hc.
      cbv zeta in Hc. by destruct (callAdminModulesApi _ _ _ _ _ _) as [out st'].
  - unfold handlePublishToggle.
    pose proof (Hcall "update"
                  (JObj [("id", JStr moduleId);
                         ("is_published", JBool (negb currentStatus))])
                  (if negb currentStatus
                   then Toast.mk "Module published"
                          "This module is now visible to the public." None
                   else Toast.mk "Module unpublished"
                          "This module is now hidden from the public." None)) as Hc.
    cbv zeta in Hc. by destruct (callAdminModulesApi _ _ _ _ _ _) as [out st'].
Qed.

(** X23. Without a token, or with an empty one, no header is sent: every use
    of a switch fails with the error toast and changes nothing. *)
Theorem toggle_without_token key token programId modules type moduleId currentStatus
    ui st now :
  token = None \/ token = Some "" ->
  let failed := {| isUpdating := None;
                   toasts := (toasts ui ++ [Toast.mk "Error" non_2xx (Some "destructive")])%list;
                   reloads := reloads ui |} in
  handleModuleToggle key token programId modules type ui st now = (failed, st)
  /\ handlePublishToggle key token moduleId currentStatus ui st now = (failed, st).
Proof.
  intros Ht failed.
  assert (Hcall : forall action data,
            callAdminModulesApi key token st now action data = (inl non_2xx, st)).
  { intros action data. apply callAdminModulesApi_failed.
    rewrite (serve_unauthenticated key st now (api_request token action data)
               (json_response 401 (ErrorBody "Admin token required")));
      [done|done|].
    apply authenticate_without_token.
    unfold api_request. cbn [x_admin_token]. destruct Ht as [-> | ->]; by left. }
  split.
  - unfold handleModuleToggle. destruct (getModule modules type); by rewrite Hcall.
  - unfold handlePublishToggle. by rewrite Hcall.
Qed.

Lemma handleModuleToggle_create key token programId modules type ui st now admin program :
  let data := JObj [("program_id", JStr programId); ("module_type", JStr type);
                    ("is_published", JBool false)] in
  let row := ProgramModule.mk (generate_id (program_modules st)) programId type false in
  getModule modules type = None ->
  JSON_parse (JSON_stringify (JObj [("action", JStr "create"); ("data", data)]))
  = Some (JObj [("action", JStr "create"); ("data", data)]) ->
  authenticate key st now (api_request token "create" data) = Next admin ->
  programs st !! programId = Some program ->
  Program.division_id program = Admin.division_id admin ->
  program_modules st !! generate_id (program_modules st) = None ->
  handleModuleToggle key token programId modules type ui st now
  = ({| isUpdating := None;
        toasts := (toasts ui ++ [Toast.mk "Module enabled"
                                   (capitalize type ++ " module has been added.") None])%list;
        reloads := S (reloads ui) |},
     with_program_modules st (<[ProgramModule.id row := row]> (program_modules st))).
Proof.
  intros data row Hnone Hjson Ha Hp Hd Hfresh.
  unfold handleModuleToggle. rewrite Hnone. fold data.
  rewrite (callAdminModulesApi_ok _ _ _ _ _ _ (Some row)
             (with_program_modules st (<[ProgramModule.id row := row]> (program_modules st))));
    [done|].
  rewrite (serve_create _ _ _ _ _ _ Ha (api_request_calls _ _ _ Hjson)).
  rewrite (create_ok st _ data (JStr programId) programId type false);
    [done|done| |apply column_text_text..|apply column_bool_bool|done].
  by rewrite verifyProgramAccess_text, Hp, (proj2 (String.eqb_eq _ _) Hd).
Qed.

Lemma handleModuleToggle_delete key token programId modules type ui st now admin m :
  let data := JObj [("id", JStr (ProgramModule.id m))] in
  getModule modules type = Some m ->
  JSON_parse (JSON_stringify (JObj [("action", JStr "delete"); ("data", data)]))
  = Some (JObj [("action", JStr "delete"); ("data", data)]) ->
  authenticate key st now (api_request token "delete" data) = Next admin ->
  load_module st (Admin.division_id admin) (ProgramModule.id m) = Next m ->
  handleModuleToggle key token programId modules type ui st now
  = ({| isUpdating := None;
        toasts := (toasts ui ++ [Toast.mk "Module disabled"
                                   (capitalize type ++ " module has been removed.") None])%list;
        reloads := S (reloads ui) |},
     with_program_modules st (delete (ProgramModule.id m) (program_modules st))).
Proof.
  intros data Hsome Hjson Ha Hl.
  unfold handleModuleToggle. rewrite Hsome. fold data.
  rewrite (callAdminModulesApi_ok _ _ _ _ _ _ None
             (with_program_modules st (delete (ProgramModule.id m) (program_modules st))));
    [done|].
  rewrite (serve_delete _ _ _ _ _ _ Ha (api_request_calls _ _ _ Hjson)).
  by rewrite (delete_text st _ data (ProgramModule.id m) eq_refl), Hl.
Qed.

Lemma handlePublishToggle_update key token moduleId currentStatus ui st now admin m :
  let data := JObj [("id", JStr moduleId); ("is_published", JBool (negb currentStatus))] in
  let row := ProgramModule.mk (ProgramModule.id m) (ProgramModule.program_id m)
               (ProgramModule.module_type m) (negb currentStatus) in
  JSON_parse (JSON_stringify (JObj [("action", JStr "update"); ("data", data)]))
  = Some (JObj [("action", JStr "update"); ("data", data)]) ->
  authenticate key st now (api_request token "update" data) = Next admin ->
  load_module st (Admin.division_id admin) moduleId = Next m ->
  handlePublishToggle key token moduleId currentStatus ui st now
  = ({| isUpdating := None;
        toasts :=
          (toasts ui ++
           [if negb currentStatus
            then Toast.mk "Module published" "This module is now visible to the public." None
            else Toast.mk "Module unpublished" "This module is now hidden from the public."
                   None])%list;
        reloads := S (reloads ui) |},
     with_program_modules st (<[moduleId := row]> (program_modules st))).
Proof.
  intros data row Hjson Ha Hl. unfold handlePublishToggle. fold data.
  rewrite (callAdminModulesApi_ok _ _ _ _ _ _ (Some row)
             (with_program_modules st (<[moduleId := row]> (program_modules st))));
    [done|].
  rewrite (serve_update _ _ _ _ _ _ Ha (api_request_calls _ _ _ Hjson)).
  by rewrite (update_ok st _ data (JStr moduleId) moduleId m (JBool (negb currentStatus))
                (negb currentStatus) eq_refl eq_refl Hl eq_refl ltac:(done)
                (column_bool_bool _)).
Qed.

Lemma load_module_division st d k m :
  program_modules st !! k = Some m -> module_division st m = Some d ->
  load_module st d k = Next m.
Proof.
  intros Hm Hd. rewrite load_module_text, Hm. unfold module_division in Hd.
  destruct (programs st !! ProgramModule.program_id m) as [p|]; [|done].
  injection Hd as ->. by rewrite String.eqb_refl.
Qed.

(** X24. Switching a module type on, for a program of the admin's division
    and a type the list does not hold yet, inserts the module as a draft:
    the new row has the program and the type of the switch and is not
    published, and every other row is as it was. *)
Theorem toggle_enables_as_draft key token programId modules type ui st now admin program :
  let data := JObj [("program_id", JStr programId); ("module_type", JStr type);
                    ("is_published", JBool false)] in
  let row := ProgramModule.mk (generate_id (program_modules st)) programId type false in
  let result := handleModuleToggle key token programId modules type ui st now in
  getModule modules type = None ->
  JSON_parse (JSON_stringify (JObj [("action", JStr "create"); ("data", data)]))
  = Some (JObj [("action", JStr "create"); ("data", data)]) ->
  authenticate key st now (api_request token "create" data) = Next admin ->
  programs st !! programId = Some program ->
  Program.division_id program = Admin.division_id admin ->
  program_modules st !! generate_id (program_modules st) = None ->
  program_modules (snd result) !! ProgramModule.id row = Some row
  /\ (forall k, k <> ProgramModule.id row ->
                program_modules (snd result) !! k = program_modules st !! k)
  /\ toasts (fst result)
     = (toasts ui ++ [Toast.mk "Module enabled"
                        (capitalize type ++ " module has been added.") None])%list
  /\ reloads (fst result) = S (reloads ui).
Proof.
  intros data row result Hnone Hjson Ha Hp Hd Hfresh. subst result.
  rewrite (handleModuleToggle_create _ _ _ _ _ _ _ _ _ _ Hnone Hjson Ha Hp Hd Hfresh).
  cbn [fst snd program_modules with_program_modules toasts reloads].
  split; [by rewrite lookup_insert_eq|]. split; [|done].
  intros k Hne. by rewrite lookup_insert_ne.
Qed.

(** X25. Switching a module type on and off again leaves the store as it was:
    the second use of the switch, with the list reloaded, deletes the row
    the first one made. *)
Theorem toggle_off_undoes_toggle_on key token programId modules modules' type ui st
    now now' admin program :
  let cdata := JObj [("program_id", JStr programId); ("module_type", JStr type);
                     ("is_published", JBool false)] in
  let row := ProgramModule.mk (generate_id (program_modules st)) programId type false in
  let ddata := JObj [("id", JStr (ProgramModule.id row))] in
  let on := handleModuleToggle key token programId modules type ui st now in
  let off := handleModuleToggle key token programId modules' type (fst on) (snd on) now' in
  getModule modules type = None ->
  getModule modules' type = Some row ->
  JSON_parse (JSON_stringify (JObj [("action", JStr "create"); ("data", cdata)]))
  = Some (JObj [("action", JStr "create"); ("data", cdata)]) ->
  JSON_parse (JSON_stringify (JObj [("action", JStr "delete"); ("data", ddata)]))
  = Some (JObj [("action", JStr "delete"); ("data", ddata)]) ->
  authenticate key st now (api_request token "create" cdata) = Next admin ->
  authenticate key st now' (api_request token "delete" ddata) = Next admin ->
  programs st !! programId = Some program ->
  Program.division_id program = Admin.division_id admin ->
  program_modules st !! generate_id (program_modules st) = None ->
  snd off = st /\ reloads (fst off) = S (S (reloads ui))
  /\ map Toast.title (toasts (fst off))
     = (map Toast.title (toasts ui) ++ ["Module enabled"; "Module disabled"])%list.
Proof.
  intros cdata row ddata on off Hnone Hsome Hcj Hdj Hca Hda Hp Hd Hfresh. subst on off.
  rewrite (handleModuleToggle_create _ _ _ _ _ _ _ _ _ _ Hnone Hcj Hca Hp Hd Hfresh).
  cbn [fst snd]. fold row.
  set (st1 := with_program_modules st (<[ProgramModule.id row := row]> (program_modules st))).
  assert (Hda1 : authenticate key st1 now' (api_request token "delete" ddata) = Next admin).
  { by rewrite <- (authenticate_admins key st st1). }
  assert (Hl : load_module st1 (Admin.division_id admin) (ProgramModule.id row) = Next row).
  { apply load_module_division.
    - cbn [st1 program_modules with_program_modules]. by rewrite lookup_insert_eq.
    - unfold module_division. cbn [st1 programs with_program_modules row
                                   ProgramModule.program_id].
      rewrite Hp. cbn. by rewrite Hd. }
  rewrite (handleModuleToggle_delete _ _ _ _ _ _ _ _ _ _ Hsome Hdj Hda1 Hl).
  cbn [fst snd toasts reloads]. split; [|split; [done|]].
  - unfold with_program_modules.
    cbn [st1 admins programs program_modules with_program_modules].
    rewrite delete_insert_id; [|done]. by destruct st.
  - rewrite !map_app. cbn. by rewrite <- app_assoc.
Qed.

(** X26. The publish switch sets the flag, it does not flip it: whatever the
    row holds, it is left with the opposite of the status the switch was
    drawn with, and with nothing else changed; when the switch showed what
    the row held, a second use undoes the first. *)
Theorem publish_toggle_sets_flag key token moduleId currentStatus ui st now now' admin m :
  let data b := JObj [("id", JStr moduleId); ("is_published", JBool b)] in
  let row := ProgramModule.mk (ProgramModule.id m) (ProgramModule.program_id m)
               (ProgramModule.module_type m) (negb currentStatus) in
  let first := handlePublishToggle key token moduleId currentStatus ui st now in
  let second :=
    handlePublishToggle key token moduleId (negb currentStatus) (fst first) (snd first) now' in
  (forall b, JSON_parse (JSON_stringify (JObj [("action", JStr "update"); ("data", data b)]))
             = Some (JObj [("action", JStr "update"); ("data", data b)])) ->
  authenticate key st now (api_request token "update" (data (negb currentStatus)))
  = Next admin ->
  authenticate key st now' (api_request token "update" (data currentStatus)) = Next admin ->
  program_modules st !! moduleId = Some m ->
  module_division st m = Some (Admin.division_id admin) ->
  snd first = with_program_modules st (<[moduleId := row]> (program_modules st))
  /\ reloads (fst first) = S (reloads ui)
  /\ (ProgramModule.is_published m = currentStatus -> snd second = st).
Proof.
  intros data row first second Hjson Ha Ha' Hm Hd. subst first second.
  pose proof (load_module_division _ _ _ _ Hm Hd) as Hl.
  rewrite (handlePublishToggle_update _ _ _ _ _ _ _ _ _ (Hjson _) Ha Hl).
  cbn [fst snd reloads]. split; [done|]. split; [done|]. intros Hflag.
  fold row.
  set (st1 := with_program_modules st (<[moduleId := row]> (program_modules st))).
  assert (Ha1 : authenticate key st1 now'
                  (api_request token "update" (data (negb (negb currentStatus))))
                = Next admin).
  { rewrite negb_involutive. by rewrite <- (authenticate_admins key st st1). }
  rewrite (handlePublishToggle_update _ _ _ _ _ _ _ _ _ (Hjson _) Ha1
             (load_module_insert _ _ _ _ (negb currentStatus) Hl)).
  cbn [snd]. unfold with_program_modules.
  cbn [st1 admins programs program_modules with_program_modules row ProgramModule.id
       ProgramModule.program_id ProgramModule.module_type].
  rewrite insert_insert_eq, negb_involutive, <- Hflag.
  assert (Hrow : ProgramModule.mk (ProgramModule.id m) (ProgramModule.program_id m)
                   (ProgramModule.module_type m) (ProgramModule.is_published m) = m)
    by by destruct m.
  rewrite Hrow, insert_id; [|done]. by destruct st.
Qed.

(** X27. With two modules of one type under a program, the enable switch of
    the type removes the first one the list holds and no other: the second
    row stays in the table, so the reloaded list still has a module of the
    type and the switch stays on. *)
Theorem toggle_off_removes_first_only key token programId modules type ui st now admin
    m m' :
  let data := JObj [("id", JStr (ProgramModule.id m))] in
  let off := handleModuleToggle key token programId modules type ui st now in
  getModule modules type = Some m ->
  JSON_parse (JSON_stringify (JObj [("action", JStr "delete"); ("data", data)]))
  = Some (JObj [("action", JStr "delete"); ("data", data)]) ->
  authenticate key st now (api_request token "delete" data) = Next admin ->
  program_modules st !! ProgramModule.id m = Some m ->
  module_division st m = Some (Admin.division_id admin) ->
  program_modules st !! ProgramModule.id m' = Some m' ->
  ProgramModule.id m' <> ProgramModule.id m ->
  ProgramModule.module_type m' = type ->
  program_modules (snd off) !! ProgramModule.id m = None
  /\ program_modules (snd off) !! ProgramModule.id m' = Some m'
  /\ forall modules', In m' modules' -> is_Some (getModule modules' type).
Proof.
  intros data off Hsome Hjson Ha Hm Hd Hm' Hne Ht. subst off.
  rewrite (handleModuleToggle_delete _ _ _ _ _ _ _ _ _ _ Hsome Hjson Ha
             (load_module_division _ _ _ _ Hm Hd)).
  cbn [snd program_modules with_program_modules].
  split; [by rewrite lookup_delete_eq|]. split; [by rewrite lookup_delete_ne|].
  intros modules' Hin. unfold getModule.
  destruct (List.find _ modules') as [x|] eqn:E; [by eexists|].
  apply (find_none _ _ E) in Hin. by rewrite Ht, String.eqb_refl in Hin.
Qed.

End ManagerProperties.

(** * Properties of the division page *)

Section PageProperties.
Context `{Clock}.

Lemma insert_sorted_perm {A} (cmp : A -> A -> comparison) x xs :
  insert_sorted cmp x xs ≡ₚ x :: xs.
Proof.
  induction xs as [|y xs IH]; [done|]. cbn. destruct (cmp x y); try done.
  rewrite IH. apply Permutation_swap.
Qed.

Lemma Array_sort_perm {A} (cmp : A -> A -> comparison) xs : Array_sort cmp xs ≡ₚ xs.
Proof.
  induction xs as [|x xs IH]; [done|]. cbn. fold (Array_sort cmp xs).
  by rewrite insert_sorted_perm, IH.
Qed.

Lemma In_published_of p n :
  In n (published_of p) <->
  exists a items, Listing.announcements p = Some items /\ In a items
                  /\ Announcement.is_published a = true
                  /\ n = Notice.mk a (Listing.name p) (Listing.id p).
Proof.
  unfold published_of. rewrite in_map_iff. split.
  - intros (a & <- & Ha). apply filter_In in Ha as [Ha Hp].
    destruct (Listing.announcements p) as [items|]; [|done].
    by exists a, items.
  - intros (a & items & Hi & Ha & Hp & ->). exists a. split; [done|].
    rewrite Hi. by apply filter_In.
Qed.

(** X28. The announcements shown are the published ones of the programs, each
    with the name and the id of its own program, no more and no fewer; the
    number on the badge is the number of published announcements. *)
Theorem announcements_published_only programs :
  (forall n, In n (allAnnouncements programs) <->
     exists p a items,
       In p programs /\ Listing.announcements p = Some items /\ In a items
       /\ Announcement.is_published a = true
       /\ n = Notice.mk a (Listing.name p) (Listing.id p))
  /\ List.length (allAnnouncements programs)
     = List.length (flat_map (fun p => List.filter Announcement.is_published
                                         (default [] (Listing.announcements p))) programs).
Proof.
  split.
  - intros n. unfold allAnnouncements.
    assert (Hperm : In n (Array_sort newest_first (flat_map published_of programs))
                    <-> In n (flat_map published_of programs)).
    { split; apply Permutation_in; [|symmetry]; apply Array_sort_perm. }
    rewrite Hperm, in_flat_map. split.
    + intros (p & Hp & Hn). apply In_published_of in Hn as (a & items & ? & ? & ? & ?).
      by exists p, a, items.
    + intros (p & a & items & Hp & ? & ? & ? & ?). exists p. split; [done|].
      apply In_published_of. by exists a, items.
  - unfold allAnnouncements. rewrite Array_sort_perm.
    induction programs as [|p ps IH]; [done|]. cbn [flat_map]. rewrite !length_app, IH.
    unfold published_of. by rewrite length_map.
Qed.

(** X29. Where every published announcement carries a date that parses, the
    list runs from the newest to the oldest: no announcement comes before
    a newer one. *)
Theorem announcements_newest_first programs :
  (forall p a items,
      In p programs -> Listing.announcements p = Some items -> In a items ->
      Announcement.is_published a = true ->
      is_Some (Date_getTime (Announcement.created_at a))) ->
  forall i j x y,
    (i < j)%nat ->
    allAnnouncements programs !! i = Some x -> allAnnouncements programs !! j = Some y ->
    exists tx ty,
      Date_getTime (Announcement.created_at (Notice.announcement x)) = Some tx
      /\ Date_getTime (Announcement.created_at (Notice.announcement y)) = Some ty
      /\ ty <= tx.
Proof.
  intros Hvalid.
  set (time n := Date_getTime (Announcement.created_at (Notice.announcement n))).
  set (R x y := exists tx ty, time x = Some tx /\ time y = Some ty /\ ty <= tx).
  assert (Hin : forall n, In n (flat_map published_of programs) -> is_Some (time n)).
  { intros n Hn. apply in_flat_map in Hn as (p & Hp & Hn).
    apply In_published_of in Hn as (a & items & Hi & Ha & Hpub & ->).
    by apply (Hvalid p a items). }
  assert (Hins : forall x xs,
            is_Some (time x) -> Forall (fun y => is_Some (time y)) xs ->
            StronglySorted R xs -> StronglySorted R (insert_sorted newest_first x xs)).
  { intros x xs [tx Hx] Hall Hs. induction Hs as [|y xs Hs IH Hy]; cbn.
    { repeat constructor. }
    apply Forall_cons in Hall as [[ty Hty] Hall].
    assert (Hcmp : newest_first x y = (ty ?= tx)).
    { unfold newest_first. fold (time x) (time y). by rewrite Hx, Hty. }
    rewrite Hcmp. destruct (Z.compare_spec ty tx) as [E|E|E].
    - constructor; [by constructor|]. constructor.
      + exists tx, ty. repeat split; try done. lia.
      + eapply Forall_impl; [exact Hy|]. intros z (ty' & tz & Hty' & Hz & Hle).
        exists tx, tz. rewrite Hty in Hty'. injection Hty' as <-. repeat split; try done. lia.
    - constructor; [by constructor|]. constructor.
      + exists tx, ty. repeat split; try done. lia.
      + eapply Forall_impl; [exact Hy|]. intros z (ty' & tz & Hty' & Hz & Hle).
        exists tx, tz. rewrite Hty in Hty'. injection Hty' as <-. repeat split; try done. lia.
    - constructor; [by apply IH|].
      assert (Hperm : insert_sorted newest_first x xs ≡ₚ x :: xs)
        by apply insert_sorted_perm.
      rewrite Hperm. constructor; [|done].
      exists ty, tx. repeat split; try done. lia. }
  assert (Hsorted : forall xs, Forall (fun y => is_Some (time y)) xs ->
                      StronglySorted R (Array_sort newest_first xs)).
  { induction xs as [|x xs IH]; intros Hall; [constructor|].
    apply Forall_cons in Hall as [Hx Hall]. cbn. fold (Array_sort newest_first xs).
    apply Hins; [done| |by apply IH].
    by rewrite Array_sort_perm. }
  assert (Hs : StronglySorted R (allAnnouncements programs)).
  { apply Hsorted. apply Forall_forall. intros n Hn. by apply Hin, list_elem_of_In. }
  intros i j x y Hlt Hi Hj. revert i j Hlt Hi Hj.
  induction Hs as [|z zs Hs IH Hz]; intros i j Hlt Hi Hj; [done|].
  destruct j as [|j]; [lia|]. cbn in Hj. destruct i as [|i].
  - cbn in Hi. injection Hi as ->. rewrite Forall_forall in Hz.
    apply Hz. by apply (list_elem_of_lookup_2 zs j).
  - cbn in Hi. apply (IH i j); [lia|done..].
Qed.

(** The button of a program reads "View & Register" exactly when one of
    the module rows that point to the program is a registration module
    and is published. *)
Lemma button_label_spec st programId program :
  Listing.modules program = Some (embedded_modules st programId) ->
  button_label program = "View & Register" <->
  exists k m, program_modules st !! k = Some m
              /\ ProgramModule.program_id m = programId
              /\ ProgramModule.module_type m = "registration"
              /\ ProgramModule.is_published m = true.
Proof.
  intros Hm. unfold button_label, hasRegistration. rewrite Hm.
  cbn [fmap option_fmap option_map default from_option Datatypes.id].
  destruct (existsb _ _) eqn:E.
  - split; [intros _|done]. apply existsb_exists in E as (f & Hf & Hc).
    unfold embedded_modules in Hf. apply in_map_iff in Hf as (m & <- & Hf).
    apply filter_In in Hf as [Hf Hp]. apply in_map_iff in Hf as ([k m'] & <- & Hf).
    apply list_elem_of_In, elem_of_map_to_list in Hf. cbn in *.
    apply andb_true_iff in Hc as [Ht Hpub]. exists k, m'.
    split; [done|]. split; [by apply String.eqb_eq|]. split; [by apply String.eqb_eq|done].
  - split; [done|]. intros (k & m & Hk & Hp & Ht & Hpub). exfalso.
    assert (Hex : existsb (fun m0 => String.eqb (Flag.module_type m0) "registration"
                                     && Flag.is_published m0)
                    (embedded_modules st programId) = true); [|congruence].
    apply existsb_exists.
    exists (Flag.mk (ProgramModule.module_type m) (ProgramModule.is_published m)).
    split; [|cbn; by rewrite Ht, Hpub].
    unfold embedded_modules. apply in_map_iff. exists m. split; [done|].
    apply filter_In. split; [|by apply String.eqb_eq].
    apply in_map_iff. exists (k, m). split; [done|].
    by apply list_elem_of_In, elem_of_map_to_list.
Qed.

(** X30. Enabling the registration module of a program does not open
    registration on the public page, publishing it does: after the enable
    switch the button of the program still reads "View Details", after
    the publish switch it reads "View & Register". *)
Theorem registration_opens_on_publish `{Runtime} `{Database} `{Browser}
    key token programId modules ui st now now' admin program (listing : Store -> Listing.t) :
  let cdata := JObj [("program_id", JStr programId); ("module_type", JStr "registration");
                     ("is_published", JBool false)] in
  let row := ProgramModule.mk (generate_id (program_modules st)) programId "registration"
               false in
  let udata := JObj [("id", JStr (ProgramModule.id row)); ("is_published", JBool true)] in
  let enabled := handleModuleToggle key token programId modules "registration" ui st now in
  let published :=
    handlePublishToggle key token (ProgramModule.id row) false (fst enabled) (snd enabled)
      now' in
  getModule modules "registration" = None ->
  JSON_parse (JSON_stringify (JObj [("action", JStr "create"); ("data", cdata)]))
  = Some (JObj [("action", JStr "create"); ("data", cdata)]) ->
  JSON_parse (JSON_stringify (JObj [("action", JStr "update"); ("data", udata)]))
  = Some (JObj [("action", JStr "update"); ("data", udata)]) ->
  authenticate key st now (api_request token "create" cdata) = Next admin ->
  authenticate key st now' (api_request token "update" udata) = Next admin ->
  programs st !! programId = Some program ->
  Program.division_id program = Admin.division_id admin ->
  program_modules st !! generate_id (program_modules st) = None ->
  (forall k m, program_modules st !! k = Some m ->
               ProgramModule.program_id m = programId ->
               ProgramModule.module_type m = "registration" ->
               ProgramModule.is_published m = false) ->
  (forall s, Listing.modules (listing s) = Some (embedded_modules s programId)) ->
  button_label (listing st) = "View Details"
  /\ button_label (listing (snd enabled)) = "View Details"
  /\ button_label (listing (snd published)) = "View & Register".
Proof.
  intros cdata row udata enabled published Hnone Hcj Huj Hca Hua Hp Hd Hfresh Hdraft Hl.
  assert (Hlabel : forall s,
            (forall k m, program_modules s !! k = Some m ->
                         ProgramModule.program_id m = programId ->
                         ProgramModule.module_type m = "registration" ->
                         ProgramModule.is_published m = false) ->
            button_label (listing s) = "View Details").
  { intros s Hs. destruct (button_label (listing s)) eqn:E; revert E;
      unfold button_label; destruct (default false _) eqn:Hb; try done.
    intros _. exfalso.
    assert (Hopen : button_label (listing s) = "View & Register")
      by (unfold button_label; by rewrite Hb).
    apply (button_label_spec s programId _ (Hl s)) in Hopen as (k & m & Hk & Hpid & Ht & Hpub).
    by rewrite (Hs k m Hk Hpid Ht) in Hpub. }
  subst enabled published.
  rewrite (handleModuleToggle_create _ _ _ _ _ _ _ _ _ _ Hnone Hcj Hca Hp Hd Hfresh).
  cbn [fst snd]. fold row.
  set (st1 := with_program_modules st (<[ProgramModule.id row := row]> (program_modules st))).
  assert (Hua1 : authenticate key st1 now' (api_request token "update" udata) = Next admin).
  { by rewrite <- (authenticate_admins key st st1). }
  assert (Hload : load_module st1 (Admin.division_id admin) (ProgramModule.id row) = Next row).
  { apply load_module_division.
    - cbn [st1 program_modules with_program_modules]. by rewrite lookup_insert_eq.
    - unfold module_division. cbn [st1 programs with_program_modules row
                                   ProgramModule.program_id].
      rewrite Hp. cbn. by rewrite Hd. }
  rewrite (handlePublishToggle_update key token (ProgramModule.id row) false _ _ _ _ _
             Huj Hua1 Hload).
  cbn [snd]. split; [by apply Hlabel|]. split.
  - apply Hlabel. intros k m. cbn [st1 program_modules with_program_modules].
    rewrite lookup_insert. case_decide as Hk.
    + by intros [= <-].
    + apply Hdraft.
  - apply (button_label_spec _ programId _ (Hl _)).
    exists (ProgramModule.id row). eexists.
    cbn [program_modules with_program_modules]. rewrite lookup_insert_eq. done.
Qed.

End PageProperties.

(** * The digest and the payload *)

Section DigestProperties.
Context `{Runtime} `{Database}.

Lemma utf8_unit_ok c : utf8_unit_decodes c = true.
Proof. destruct c as [[|] [|] [|] [|] [|] [|] [|] [|]]; vm_compute; reflexivity. Qed.

Lemma utf8_unit_inj c c' rest rest' :
  (utf8_unit c ++ rest = utf8_unit c' ++ rest')%list -> c = c' /\ rest = rest'.
Proof.
  pose proof (utf8_unit_ok c) as Hc. pose proof (utf8_unit_ok c') as Hc'.
  unfold utf8_unit_decodes in Hc, Hc'.
  destruct (utf8_unit c) as [|b [|b2 [|]]]; try done;
    destruct (utf8_unit c') as [|b' [|b2' [|]]]; try done;
    apply andb_true_iff in Hc as [Hb Hd]; apply andb_true_iff in Hc' as [Hb' Hd'];
    apply Ascii.eqb_eq in Hd, Hd'; cbn [app]; intros E; simplify_eq; try done.
  - apply N.ltb_lt in Hb. apply N.leb_le in Hb'. lia.
  - apply N.ltb_lt in Hb'. apply N.leb_le in Hb. lia.
Qed.

Lemma TextEncoder_encode_cons c s :
  TextEncoder_encode (String c s) = (utf8_unit c ++ TextEncoder_encode s)%list.
Proof. reflexivity. Qed.

(** `TextEncoder.encode` loses nothing: two texts with the same bytes are
    the same text. *)
Lemma TextEncoder_encode_inj s s' :
  TextEncoder_encode s = TextEncoder_encode s' -> s = s'.
Proof.
  revert s'. induction s as [|c s IH]; intros [|c' s'].
  - done.
  - rewrite TextEncoder_encode_cons. cbn [TextEncoder_encode].
    pose proof (utf8_unit_ok c') as Hc'. unfold utf8_unit_decodes in Hc'.
    by destruct (utf8_unit c') as [|b [|b2 [|]]].
  - rewrite TextEncoder_encode_cons. cbn [TextEncoder_encode].
    pose proof (utf8_unit_ok c) as Hc. unfold utf8_unit_decodes in Hc.
    by destruct (utf8_unit c) as [|b [|b2 [|]]].
  - rewrite !TextEncoder_encode_cons. intros E.
    apply utf8_unit_inj in E as [-> E]. by rewrite (IH _ E).
Qed.

Lemma append_length (a b : string) :
  String.length (a ++ b) = (String.length a + String.length b)%nat.
Proof.
  induction a as [|c a IH]; [done|].
  change (String c a ++ b) with (String c (a ++ b)). cbn [String.length]. by rewrite IH.
Qed.

(** The key appended to two texts keeps them apart. *)
Lemma append_inv_tail (a a' key : string) : a ++ key = a' ++ key -> a = a'.
Proof.
  revert a'. induction a as [|c a IH]; intros [|c' a'].
  - done.
  - intros E. apply (f_equal String.length) in E. rewrite !append_length in E.
    cbn [String.length] in E. lia.
  - intros E. apply (f_equal String.length) in E. rewrite !append_length in E.
    cbn [String.length] in E. lia.
  - change (String c a ++ key) with (String c (a ++ key)).
    change (String c' a' ++ key) with (String c' (a' ++ key)).
    intros [= -> E]. by rewrite (IH _ E).
Qed.

Lemma hex_join_cons b bytes :
  hex_join (b :: bytes)
  = String (hex_digit (Byte.to_N b / 16))
      (String (hex_digit (Byte.to_N b mod 16)) (hex_join bytes)).
Proof. cbn [hex_join fold_right]. fold (hex_join bytes). by rewrite padStart2_digits. Qed.

Lemma hex_join_inj bytes bytes' : hex_join bytes = hex_join bytes' -> bytes = bytes'.
Proof.
  revert bytes'. induction bytes as [|b bs IH]; intros [|b' bs'].
  - done.
  - rewrite hex_join_cons. by intros [=].
  - rewrite hex_join_cons. by intros [=].
  - rewrite !hex_join_cons. intros [= E1 E2 E3]. f_equal; [|by apply IH].
    apply padStart2_toString16_inj. rewrite !padStart2_digits. by rewrite E1, E2.
Qed.

(** C3, as the code has it. The digest expected of a payload text is
    lowercase hex, and two of them are the same text exactly when the
    SHA-256 digests of the two payload texts, each followed by the key, are
    the same bytes. A result other than null means that the second segment
    is the digest expected of the decoded payload. A token whose first
    segment decodes to another text than the one its second segment was
    made for is answered with null, and by the handler with 401 and the
    store untouched - unless the two texts, each followed by the key, are a
    collision of SHA-256. The first segment itself is not covered: a token
    whose first segment is changed to one that `atob` decodes alike gets
    the answer of the token it was made from. *)
Theorem signature_checked token key now :
  (forall text text',
      forallb is_lower_hex (list_ascii_of_string (expectedSignature text key)) = true
      /\ (expectedSignature text key = expectedSignature text' key <->
          digest_SHA256 (TextEncoder_encode (text ++ key))
          = digest_SHA256 (TextEncoder_encode (text' ++ key))))
  /\ (verifyAdminToken token key now <> JNull ->
      exists p sig tokenData,
        split_dot token !! 0%nat = Some p /\ split_dot token !! 1%nat = Some sig /\
        atob p = Some tokenData /\
        JSON_parse tokenData = Some (verifyAdminToken token key now) /\
        sig = expectedSignature tokenData key)
  /\ (forall p sig signed tampered,
        split_dot token !! 0%nat = Some p -> split_dot token !! 1%nat = Some sig ->
        sig = expectedSignature signed key ->
        atob p = Some tampered ->
        tampered <> signed ->
        (digest_SHA256 (TextEncoder_encode (tampered ++ key))
         = digest_SHA256 (TextEncoder_encode (signed ++ key)) ->
         TextEncoder_encode (tampered ++ key) = TextEncoder_encode (signed ++ key)) ->
        verifyAdminToken token key now = JNull /\
        forall st req,
          method req <> "OPTIONS" -> x_admin_token req = Some token ->
          status (fst (serve key st now req)) = 401 /\ snd (serve key st now req) = st)
  /\ (forall token' p p' sig,
        split_dot token !! 0%nat = Some p -> split_dot token' !! 0%nat = Some p' ->
        split_dot token !! 1%nat = Some sig -> split_dot token' !! 1%nat = Some sig ->
        p <> "" -> p' <> "" -> sig <> "" ->
        atob p = atob p' ->
        verifyAdminToken token' key now = verifyAdminToken token key now).
Proof.
  split; [|split; [|split]].
  - intros text text'. split; [apply hex_join_lower|]. unfold expectedSignature. split.
    + apply hex_join_inj.
    + by intros ->.
  - intros Hv. destruct (verifyAdminToken_inv token key now Hv)
      as (p & sig & tokenData & exp & Hp & Hs & _ & _ & Ha & Hj & _ & _ & Hsig).
    by exists p, sig, tokenData.
  - intros p sig signed tampered Hp Hs -> Ha Hne Hfree.
    assert (Hsig : expectedSignature signed key <> expectedSignature tampered key).
    { intros E. apply Hne. unfold expectedSignature in E. apply hex_join_inj in E.
      symmetry in E. apply Hfree in E. apply TextEncoder_encode_inj in E.
      by apply append_inv_tail in E. }
    assert (Hv : verifyAdminToken token key now = JNull).
    { destruct (jsval_null_dec (verifyAdminToken token key now)) as [|Hv]; [done|].
      destruct (verifyAdminToken_inv token key now Hv)
        as (p' & sig' & tokenData & exp & Hp' & Hs' & _ & _ & Ha' & _ & _ & _ & Hsig').
      rewrite Hp in Hp'. injection Hp' as <-. rewrite Hs in Hs'. injection Hs' as <-.
      rewrite Ha in Ha'. injection Ha' as <-. by destruct Hsig. }
    split; [done|]. intros st req Hm Ht. by apply (serve_rejects_null key st now req token).
  - intros token' p p' sig Hp Hp' Hs Hs' Np Np' Ns Ha. unfold verifyAdminToken.
    rewrite (verifyAdminToken_try_segments token key now p sig Hp Hs Np Ns).
    rewrite (verifyAdminToken_try_segments token' key now p' sig Hp' Hs' Np' Ns).
    by rewrite Ha.
Qed.

End DigestProperties.

(** * The gateway over a storage that may fail *)

Section UnreliableProperties.
Context `{Runtime} `{Database}.

(** Over a storage that answers every query, [Unreliable.serve] is [serve]. *)
Lemma serve_healthy key st now req :
  Unreliable.serve healthy key st now req = serve key st now req.
Proof. reflexivity. Qed.

Lemma unreliable_verifyProgramAccess_text outage st divisionId pid :
  Unreliable.verifyProgramAccess outage st divisionId (JStr pid)
  = Some match outage (SelectProgram pid), programs st !! pid with
         | None, Some program => String.eqb (Program.division_id program) divisionId
         | _, _ => false
         end.
Proof.
  unfold Unreliable.verifyProgramAccess, Unreliable.resolve, select_single.
  cbn [eq_filter ToString mbind option_bind].
  destruct (outage (SelectProgram pid)); [done|]. by destruct (programs st !! pid).
Qed.

Lemma unreliable_load_module_text outage st divisionId mid :
  Unreliable.load_module outage st divisionId mid
  = match outage (SelectModule mid), program_modules st !! mid with
    | None, Some m =>
        match outage (SelectProgram (ProgramModule.program_id m)),
              programs st !! ProgramModule.program_id m with
        | None, Some program =>
            if String.eqb (Program.division_id program) divisionId
            then Next m else Return forbidden
        | _, _ => Return forbidden
        end
    | _, _ => Return module_not_found
    end.
Proof.
  unfold Unreliable.load_module, Unreliable.resolve, select_single.
  destruct (outage (SelectModule mid)); [done|].
  destruct (program_modules st !! mid) as [m|]; [|done]. cbn -[Unreliable.verifyProgramAccess].
  rewrite unreliable_verifyProgramAccess_text.
  destruct (outage (SelectProgram _)); [done|].
  destruct (programs st !! ProgramModule.program_id m) as [program|]; [|done].
  by destruct (String.eqb _ _).
Qed.

Lemma unreliable_serve_call outage key st now req admin action data :
  Unreliable.authenticate outage key st now req = Next admin ->
  calls req action data ->
  Unreliable.serve outage key st now req
  = or_internal_error
      (match action with
       | "create" => Unreliable.create outage st (Admin.division_id admin) data
       | "update" => Unreliable.update outage st (Admin.division_id admin) data
       | "delete" => Unreliable.delete_ outage st (Admin.division_id admin) data
       | _ => (Some (json_response 400 (ErrorBody "Invalid action")), st)
       end).
Proof.
  intros Ha (Hm & body & Hb & Hact & Hdata). unfold Unreliable.serve.
  rewrite (not_preflight _ Hm), Ha, Hb. unfold Unreliable.dispatch. by rewrite Hact, Hdata.
Qed.

(** The admin [Unreliable.authenticate] hands on depends on the store
    through the `admins` table. *)
Lemma unreliable_authenticate_admins outage key st st' now req :
  admins st = admins st' ->
  Unreliable.authenticate outage key st now req
  = Unreliable.authenticate outage key st' now req.
Proof. intros E. unfold Unreliable.authenticate. by rewrite E. Qed.

(** What `update` and `delete` do with an id given as a string. *)
Lemma unreliable_update_text outage st divisionId data mid :
  prop data "id" = Some (JStr mid) ->
  Unreliable.update outage st divisionId data
  = match Unreliable.load_module outage st divisionId mid with
    | Return r => (Some r, st)
    | Throw => (None, st)
    | Next _ =>
        let is_published := default JUndefined (prop data "is_published") in
        let updateData :=
          match is_published with
          | JUndefined => []
          | _ => set_field "is_published" is_published []
          end in
        let '(r, st') :=
          Unreliable.attempt outage (UpdateModule mid) st (update_module st updateData mid) in
        (Some (respond r (SuccessBody (Reply.data r))), st')
    end.
Proof. intros Hid. unfold Unreliable.update. by rewrite Hid. Qed.

Lemma unreliable_delete_text outage st divisionId data mid :
  prop data "id" = Some (JStr mid) ->
  Unreliable.delete_ outage st divisionId data
  = match Unreliable.load_module outage st divisionId mid with
    | Return r => (Some r, st)
    | Throw => (None, st)
    | Next _ =>
        let '(r, st') :=
          Unreliable.attempt outage (DeleteModule mid) st (delete_module st mid) in
        (Some (respond r (SuccessBody None)), st')
    end.
Proof. intros Hid. unfold Unreliable.delete_. by rewrite Hid. Qed.

(** C6, as the code has it. [verifyProgramAccess] answers true exactly
    when the lookup of the program is answered, with a row of the given
    division: so true means that the program exists in that division. It
    answers false when no such program exists, and also when the lookup
    fails, whatever the table holds. A `create` for a program that is
    missing or belongs to another division gets one and the same 403 and
    inserts nothing, whether the lookup is answered or not. *)
Theorem program_access outage st divisionId pid :
  (Unreliable.verifyProgramAccess outage st divisionId (JStr pid) = Some true <->
   outage (SelectProgram pid) = None
   /\ exists program, programs st !! pid = Some program
                      /\ Program.division_id program = divisionId)
  /\ (programs st !! pid = None ->
      Unreliable.verifyProgramAccess outage st divisionId (JStr pid) = Some false)
  /\ (is_Some (outage (SelectProgram pid)) ->
      Unreliable.verifyProgramAccess outage st divisionId (JStr pid) = Some false)
  /\ (forall key now req admin data,
        Admin.division_id admin = divisionId ->
        Unreliable.authenticate outage key st now req = Next admin ->
        calls req "create" data ->
        prop data "program_id" = Some (JStr pid) ->
        (forall program, programs st !! pid = Some program ->
                         Program.division_id program <> divisionId) ->
        Unreliable.serve outage key st now req = (forbidden, st)
        /\ status forbidden = 403).
Proof.
  split; [split|split; [|split]].
  - rewrite unreliable_verifyProgramAccess_text.
    destruct (outage (SelectProgram pid)); [done|].
    destruct (programs st !! pid) as [program|]; [|done].
    intros [= E]. split; [done|]. exists program. split; [done|]. by apply String.eqb_eq.
  - intros (Hup & program & Hp & Hd). rewrite unreliable_verifyProgramAccess_text, Hup, Hp.
    by rewrite (proj2 (String.eqb_eq _ _) Hd).
  - intros Hp. rewrite unreliable_verifyProgramAccess_text, Hp.
    by destruct (outage (SelectProgram pid)).
  - intros [e He]. by rewrite unreliable_verifyProgramAccess_text, He.
  - intros key now req admin data Hd Ha Hc Hp Hne. split; [|done].
    rewrite (unreliable_serve_call _ _ _ _ _ _ _ _ Ha Hc). unfold Unreliable.create.
    rewrite Hp, Hd, unreliable_verifyProgramAccess_text.
    destruct (outage (SelectProgram pid)); [done|].
    destruct (programs st !! pid) as [program|] eqn:Hprog; [|done].
    by rewrite (proj2 (String.eqb_neq _ _) (Hne _ eq_refl)).
Qed.

(** C7, as the code has it. For `update` and `delete`, an id that matches
    no module row gets 404, a status the 403 of the division check never
    takes. 404 is what the handler answers whenever the lookup of the
    module gives it no row: when there is none, and also when the lookup
    fails with the row in the table, so that 404 does not tell that the
    module does not exist. A `delete` of an id that a `delete` has removed
    gets 404. *)
Theorem missing_module_not_found outage key st now req admin action data mid :
  action = "update" \/ action = "delete" ->
  Unreliable.authenticate outage key st now req = Next admin ->
  calls req action data ->
  prop data "id" = Some (JStr mid) ->
  (program_modules st !! mid = None ->
   Unreliable.serve outage key st now req = (module_not_found, st))
  /\ (status (fst (Unreliable.serve outage key st now req)) = 404 <->
      program_modules st !! mid = None \/ is_Some (outage (SelectModule mid)))
  /\ status module_not_found = 404
  /\ status forbidden = 403
  /\ (action = "delete" ->
      status (fst (Unreliable.serve outage key st now req)) = 200 ->
      program_modules (snd (Unreliable.serve outage key st now req)) !! mid = None
      /\ Unreliable.serve outage key (snd (Unreliable.serve outage key st now req)) now req
         = (module_not_found, snd (Unreliable.serve outage key st now req))
      /\ forall outage' now' admin',
           Unreliable.authenticate outage' key
             (snd (Unreliable.serve outage key st now req)) now' req = Next admin' ->
           Unreliable.serve outage' key (snd (Unreliable.serve outage key st now req)) now' req
           = (module_not_found, snd (Unreliable.serve outage key st now req))).
Proof.
  intros Hact Ha Hc Hid.
  assert (Hserve : forall outage0 st0 now0 admin0,
            Unreliable.authenticate outage0 key st0 now0 req = Next admin0 ->
            Unreliable.serve outage0 key st0 now0 req =
            match Unreliable.load_module outage0 st0 (Admin.division_id admin0) mid with
            | Return r => (r, st0)
            | Throw => (internal_error, st0)
            | Next _ => Unreliable.serve outage0 key st0 now0 req
            end).
  { intros outage0 st0 now0 admin0 Ha0.
    destruct (Unreliable.load_module _ _ _ _) eqn:E; [done| |];
      rewrite (unreliable_serve_call _ _ _ _ _ _ _ _ Ha0 Hc); destruct Hact as [-> | ->].
    - by rewrite (unreliable_update_text _ st0 _ _ _ Hid), E.
    - by rewrite (unreliable_delete_text _ st0 _ _ _ Hid), E.
    - by rewrite (unreliable_update_text _ st0 _ _ _ Hid), E.
    - by rewrite (unreliable_delete_text _ st0 _ _ _ Hid), E. }
  assert (Habsent : forall outage0 st0 now0 admin0,
            Unreliable.authenticate outage0 key st0 now0 req = Next admin0 ->
            program_modules st0 !! mid = None \/ is_Some (outage0 (SelectModule mid)) ->
            Unreliable.serve outage0 key st0 now0 req = (module_not_found, st0)).
  { intros outage0 st0 now0 admin0 Ha0 Hno.
    rewrite (Hserve _ _ _ _ Ha0), unreliable_load_module_text.
    destruct Hno as [-> | [e ->]]; [|done]. by destruct (outage0 (SelectModule mid)). }
  assert (Hok : forall m, Unreliable.load_module outage st (Admin.division_id admin) mid
                          = Next m ->
            status (fst (Unreliable.serve outage key st now req)) = 400 \/
            status (fst (Unreliable.serve outage key st now req)) = 200).
  { intros m E. rewrite (unreliable_serve_call _ _ _ _ _ _ _ _ Ha Hc).
    destruct Hact as [-> | ->].
    - rewrite (unreliable_update_text _ st _ _ _ Hid), E. cbv zeta.
      destruct (Unreliable.attempt _ _ _ _) as [r st']. apply respond_status.
    - rewrite (unreliable_delete_text _ st _ _ _ Hid), E.
      destruct (Unreliable.attempt _ _ _ _) as [r st']. apply respond_status. }
  split; [|split; [|split; [done|split; [done|]]]].
  - intros Hm. apply (Habsent _ _ _ admin); [done|by left].
  - split; [|intros Hno; by rewrite (Habsent _ _ _ admin Ha Hno)].
    intros Hst.
    destruct (Unreliable.load_module outage st (Admin.division_id admin) mid)
      as [m|r|] eqn:E.
    + destruct (Hok m eq_refl) as [E' | E']; rewrite E' in Hst; done.
    + rewrite (Hserve _ _ _ _ Ha), E in Hst. rewrite unreliable_load_module_text in E.
      destruct (outage (SelectModule mid)); [right; by eexists|].
      destruct (program_modules st !! mid) as [m|]; [|by left].
      destruct (outage (SelectProgram _)); [by simplify_eq|].
      destruct (programs st !! _) as [program|]; [destruct (String.eqb _ _)|];
        by simplify_eq.
    + rewrite (Hserve _ _ _ _ Ha), E in Hst. done.
  - intros -> Hst.
    rewrite (unreliable_serve_call _ _ _ _ _ _ _ _ Ha Hc),
      (unreliable_delete_text _ st _ _ _ Hid) in Hst |- *.
    destruct (Unreliable.load_module outage st (Admin.division_id admin) mid)
      as [m|r|] eqn:E.
    2:{ exfalso. cbn in Hst. rewrite unreliable_load_module_text in E.
        destruct (outage (SelectModule mid)); [by simplify_eq|].
        destruct (program_modules st !! mid) as [m|]; [|by simplify_eq].
        destruct (outage (SelectProgram _)); [by simplify_eq|].
        destruct (programs st !! _) as [program|]; [destruct (String.eqb _ _)|];
          by simplify_eq. }
    2:{ done. }
    revert Hst. unfold Unreliable.attempt.
    destruct (outage (DeleteModule mid)) as [e|]; [done|]. intros _.
    cbn [delete_module fst snd or_internal_error respond Reply.error program_modules
         with_program_modules].
    assert (Hgone : delete mid (program_modules st) !! mid = None) by apply lookup_delete_eq.
    split; [done|]. split.
    + apply (Habsent _ _ _ admin); [|by left].
      by rewrite <- (unreliable_authenticate_admins outage key st).
    + intros outage' now' admin' Ha'. apply (Habsent _ _ _ admin' Ha'). by left.
Qed.

End UnreliableProperties.

(** * The theorems at the sample data

    Everything below runs on the reference platform and the reference
    database, at the tokens, store and requests of [Sample]. *)

Ltac run := vm_compute; reflexivity.
Ltac sample_call :=
  unfold calls; split; [vm_compute; discriminate | eexists; split; [run | split; run]].

(** C2, as the claim states it, fails: the sample token carries `exp: 1000`,
    and at time 1000 it still verifies and the request it comes with is
    served. *)
Lemma token_accepted_at_expiry :
  decode_payload Sample.token_a1
  = Some (JObj [("admin_id", JStr "a1"); ("user_id", JStr "u1");
                ("division_id", JStr "farmelife"); ("exp", JNum (Fin (inject_Z 1000)))])
  /\ verifyAdminToken Sample.token_a1 Sample.key 1000 <> JNull
  /\ status (fst (serve Sample.key Sample.store 1000
                    (Sample.post Sample.token_a1 Sample.update_m1))) = 200.
Proof. vm_compute. repeat split; discriminate || reflexivity. Qed.

Lemma token_expiry_witness :
  verifyAdminToken Sample.token_a1 Sample.key 1001 = JNull
  /\ status (fst (serve Sample.key Sample.store 1001
                    (Sample.post Sample.token_a1 Sample.update_m1))) = 401
  /\ verifyAdminToken Sample.token_a1 Sample.key 1000
     = JObj [("admin_id", JStr "a1"); ("user_id", JStr "u1");
             ("division_id", JStr "farmelife"); ("exp", JNum (Fin 1000))].
Proof.
  destruct (token_expiry Sample.key 1001) as [Hexp _].
  destruct (token_expiry Sample.key 1000) as [_ Hok].
  edestruct (Hexp Sample.token_a1) as [Hnull Hserve]; [run | run | run |].
  split; [exact Hnull|]. split.
  - apply Hserve; [discriminate | reflexivity].
  - eapply Hok; try run; discriminate.
Defined.

(** C3, as the claim states it, fails: a byte of the payload segment of a
    signed token is changed, and the token still verifies, with the same
    principal, and the request it comes with is served. `atob` decodes the
    two segments to the same text, and the digest is taken over that
    text. *)
Lemma tampered_segment_accepted :
  split_dot Sample.token_a1_organelife !! 1%nat
  = split_dot Sample.token_a1_organelife_respelt !! 1%nat
  /\ split_dot Sample.token_a1_organelife !! 0%nat
     = Some "eyJhZG1pbl9pZCI6ImExIiwidXNlcl9pZCI6InUxIiwiZGl2aXNpb25faWQiOiJvcmdhbmVsaWZlIiwiZXhwIjoxMDAwfQ=="
  /\ split_dot Sample.token_a1_organelife_respelt !! 0%nat
     = Some "eyJhZG1pbl9pZCI6ImExIiwidXNlcl9pZCI6InUxIiwiZGl2aXNpb25faWQiOiJvcmdhbmVsaWZlIiwiZXhwIjoxMDAwfR=="
  /\ prop (verifyAdminToken Sample.token_a1_organelife_respelt Sample.key 500) "admin_id"
     = Some (JStr "a1")
  /\ is_AdminTokenPayload
       (verifyAdminToken Sample.token_a1_organelife_respelt Sample.key 500) = true
  /\ verifyAdminToken Sample.token_a1_organelife_respelt Sample.key 500
     = verifyAdminToken Sample.token_a1_organelife Sample.key 500
  /\ status (fst (serve Sample.key Sample.store 500
                    (Sample.post Sample.token_a1_organelife_respelt Sample.update_m1)))
     = 200.
Proof. vm_compute. repeat split; reflexivity. Qed.

Lemma signature_checked_witness :
  expectedSignature Sample.payload_a1 Sample.key
  = "069c00309a0008b6852def201ef37c98946908e05e2ebc2f4a6896ecfb5268fc"
  /\ atob "eyJhZG1pbl9pZCI6ImExIiwidXNlcl9pZCI6InUxIiwiZGl2aXNpb25faWQiOiJvcmdhbmVsaWZlIiwiZXhwIjoxMDAwfQ=="
     = Some Sample.payload_a1_organelife
  /\ verifyAdminToken Sample.token_tampered Sample.key 500 = JNull
  /\ status (fst (serve Sample.key Sample.store 500
                    (Sample.post Sample.token_tampered Sample.update_m1))) = 401
  /\ verifyAdminToken Sample.token_a1 Sample.key 500 <> JNull
  /\ verifyAdminToken Sample.token_a1_organelife_respelt Sample.key 500
     = verifyAdminToken Sample.token_a1_organelife Sample.key 500.
Proof.
  destruct (signature_checked Sample.token_a1_organelife Sample.key 500)
    as (_ & _ & _ & Hsame).
  destruct (signature_checked Sample.token_tampered Sample.key 500) as (_ & _ & Hbad & _).
  edestruct (Hbad
               "eyJhZG1pbl9pZCI6ImExIiwidXNlcl9pZCI6InUxIiwiZGl2aXNpb25faWQiOiJvcmdhbmVsaWZlIiwiZXhwIjoxMDAwfQ=="
               "069c00309a0008b6852def201ef37c98946908e05e2ebc2f4a6896ecfb5268fc"
               Sample.payload_a1 Sample.payload_a1_organelife) as [Hnull Hserve];
    [run | run | run | run | | |].
  - vm_compute. discriminate.
  - intros E. exfalso. vm_compute in E. discriminate.
  - split; [run|]. split; [run|]. split; [exact Hnull|]. split.
    + apply Hserve; [discriminate | reflexivity].
    + split; [vm_compute; discriminate|].
      apply (Hsame Sample.token_a1_organelife_respelt
               "eyJhZG1pbl9pZCI6ImExIiwidXNlcl9pZCI6InUxIiwiZGl2aXNpb25faWQiOiJvcmdhbmVsaWZlIiwiZXhwIjoxMDAwfQ=="
               "eyJhZG1pbl9pZCI6ImExIiwidXNlcl9pZCI6InUxIiwiZGl2aXNpb25faWQiOiJvcmdhbmVsaWZlIiwiZXhwIjoxMDAwfR=="
               "126d32f95512697780a0a5c61e7581c5f6ef283df9aaa05bd74ca2525f0df2d1");
        [run | run | run | run | discriminate | discriminate | discriminate | run].
Defined.

(** C9, as the claim states it, fails: the text `42` is no admin payload,
    yet the token that carries it with a matching digest is not answered
    with null: the number comes back. So does an object that has an
    `admin_id` and nothing else; lacking `exp` it never expires, and the
    request it comes with is served. *)
Lemma unchecked_payload_returned :
  decode_payload Sample.token_42 = Some (JNum (Fin (inject_Z 42)))
  /\ is_AdminTokenPayload (JNum (Fin (inject_Z 42))) = false
  /\ verifyAdminToken Sample.token_42 Sample.key 0 = JNum (Fin (inject_Z 42))
  /\ is_AdminTokenPayload (JObj [("admin_id", JStr "a1")]) = false
  /\ verifyAdminToken Sample.token_no_exp Sample.key (10 ^ 15)
     = JObj [("admin_id", JStr "a1")]
  /\ status (fst (serve Sample.key Sample.store (10 ^ 15)
                    (Sample.post Sample.token_no_exp Sample.update_m1))) = 200.
Proof. vm_compute. repeat split; discriminate || reflexivity. Qed.

Lemma verifyAdminToken_never_throws_witness :
  verifyAdminToken "e30=" Sample.key 0 = JNull
  /\ verifyAdminToken "!!!.0a" Sample.key 0 = JNull
  /\ verifyAdminToken "e3s=.0a" Sample.key 0 = JNull
  /\ verifyAdminToken "bnVsbA==.0a" Sample.key 0 = JNull.
Proof.
  split; [|split; [|split]].
  - destruct (verifyAdminToken_never_throws "e30=" Sample.key 0) as (_ & Hmissing & _).
    apply Hmissing. right; left. run.
  - destruct (verifyAdminToken_never_throws "!!!.0a" Sample.key 0) as (_ & _ & Hatob & _).
    apply (Hatob "!!!"); run.
  - destruct (verifyAdminToken_never_throws "e3s=.0a" Sample.key 0)
      as (_ & _ & _ & Hjson & _).
    eapply Hjson; [run | run | left; run].
  - destruct (verifyAdminToken_never_throws "bnVsbA==.0a" Sample.key 0)
      as (_ & _ & _ & Hjson & _).
    eapply Hjson; [run | run | right; run].
Defined.



Lemma inactive_or_unknown_admin_witness :
  serve Sample.key Sample.store 500 (Sample.post Sample.token_a2 Sample.update_m1)
  = (json_response 401 (ErrorBody "Admin account not found or inactive"), Sample.store)
  /\ serve Sample.key Sample.store 500 (Sample.post Sample.token_a3 Sample.delete_m1)
     = (json_response 401 (ErrorBody "Admin account not found or inactive"), Sample.store).
Proof.
  split.
  - apply (inactive_or_unknown_admin Sample.key Sample.store 500 _ Sample.token_a2 "a2");
      [vm_compute; discriminate | reflexivity | run | run |].
    right. exists Sample.a2. split; run.
  - apply (inactive_or_unknown_admin Sample.key Sample.store 500 _ Sample.token_a3 "a3");
      [vm_compute; discriminate | reflexivity | run | run |].
    left. run.
Defined.

(** C6, as the claim states it, fails: program `p1` exists and belongs to
    `farmelife`, the division of admin `a1`; when the lookup of `p1` is
    lost, [verifyProgramAccess] still answers false, and the `create` of
    `a1` for `p1` gets 403. *)
Lemma program_access_refused_on_error :
  programs Sample.store !! "p1" = Some (Program.mk "p1" "farmelife")
  /\ Admin.division_id Sample.a1 = "farmelife"
  /\ Unreliable.verifyProgramAccess Sample.p1_lookup_lost Sample.store "farmelife" (JStr "p1")
     = Some false
  /\ Unreliable.serve Sample.p1_lookup_lost Sample.key Sample.store 500
       (Sample.post Sample.token_a1 Sample.create_p1)
     = (forbidden, Sample.store)
  /\ status (fst (Unreliable.serve healthy Sample.key Sample.store 500
                    (Sample.post Sample.token_a1 Sample.create_p1))) = 200.
Proof. vm_compute. repeat split; reflexivity. Qed.

Lemma program_access_witness :
  Unreliable.verifyProgramAccess healthy Sample.store "farmelife" (JStr "p1") = Some true
  /\ Unreliable.verifyProgramAccess Sample.p1_lookup_lost Sample.store "farmelife" (JStr "p9")
     = Some false
  /\ Unreliable.verifyProgramAccess Sample.p1_lookup_lost Sample.store "farmelife" (JStr "p1")
     = Some false
  /\ Unreliable.serve Sample.m1_lookup_lost Sample.key Sample.store 500
       (Sample.post Sample.token_a1 Sample.create_p2)
     = (forbidden, Sample.store).
Proof.
  split; [|split; [|split]].
  - destruct (program_access healthy Sample.store "farmelife" "p1") as ([_ Hiff] & _).
    apply Hiff. split; [reflexivity|]. exists (Program.mk "p1" "farmelife"). split; run.
  - destruct (program_access Sample.p1_lookup_lost Sample.store "farmelife" "p9")
      as (_ & Hmissing & _).
    apply Hmissing. run.
  - destruct (program_access Sample.p1_lookup_lost Sample.store "farmelife" "p1")
      as (_ & _ & Hlost & _).
    apply Hlost. by eexists.
  - destruct (program_access Sample.m1_lookup_lost Sample.store "farmelife" "p2")
      as (_ & _ & _ & Hcreate).
    edestruct (Hcreate Sample.key 500 (Sample.post Sample.token_a1 Sample.create_p2)
                 Sample.a1) as [E _]; [reflexivity | run | sample_call | run | | exact E].
    intros program. vm_compute. intros [= <-]. discriminate.
Defined.

(** C7, as the claim states it, fails: module `m1` is in the table, under
    a program of the admin's division; when the lookup of `m1` is lost the
    `update` of `m1` gets 404, the answer it would get if `m1` did not
    exist. *)
Lemma not_found_with_row_present :
  program_modules Sample.store !! "m1" = Some Sample.m1
  /\ Unreliable.serve Sample.m1_lookup_lost Sample.key Sample.store 500
       (Sample.post Sample.token_a1 Sample.update_m1)
     = (module_not_found, Sample.store)
  /\ status module_not_found = 404
  /\ Unreliable.serve Sample.m1_lookup_lost Sample.key Sample.store 500
       (Sample.post Sample.token_a1 Sample.delete_m1)
     = (module_not_found, Sample.store)
  /\ status (fst (Unreliable.serve healthy Sample.key Sample.store 500
                    (Sample.post Sample.token_a1 Sample.update_m1))) = 200.
Proof. vm_compute. repeat split; reflexivity. Qed.

Lemma missing_module_not_found_witness :
  Unreliable.serve Sample.p1_lookup_lost Sample.key Sample.store 500
    (Sample.post Sample.token_a1 Sample.update_m9)
  = (module_not_found, Sample.store)
  /\ (let once := Unreliable.serve healthy Sample.key Sample.store 500
                    (Sample.post Sample.token_a1 Sample.delete_m1) in
      status (fst once) = 200
      /\ program_modules (snd once) !! "m1" = None
      /\ Unreliable.serve healthy Sample.key (snd once) 500
           (Sample.post Sample.token_a1 Sample.delete_m1)
         = (module_not_found, snd once)
      /\ Unreliable.serve Sample.p1_lookup_lost Sample.key (snd once) 600
           (Sample.post Sample.token_a1 Sample.delete_m1)
         = (module_not_found, snd once))
  /\ status (fst (Unreliable.serve Sample.m1_lookup_lost Sample.key Sample.store 500
                    (Sample.post Sample.token_a1 Sample.delete_m1))) = 404.
Proof.
  split; [|split].
  - edestruct (missing_module_not_found Sample.p1_lookup_lost Sample.key Sample.store 500
                 (Sample.post Sample.token_a1 Sample.update_m9) Sample.a1 "update")
      as (E & _); [by left | run | sample_call | run |].
    apply E. run.
  - cbv zeta. split; [run|].
    edestruct (missing_module_not_found healthy Sample.key Sample.store 500
                 (Sample.post Sample.token_a1 Sample.delete_m1) Sample.a1 "delete")
      as (_ & _ & _ & _ & E); [by right | run | sample_call | run |].
    destruct E as (Hgone & Hsame & Hagain); [reflexivity | run |].
    split; [exact Hgone|]. split; [exact Hsame|].
    apply (Hagain Sample.p1_lookup_lost 600 Sample.a1). run.
  - edestruct (missing_module_not_found Sample.m1_lookup_lost Sample.key Sample.store 500
                 (Sample.post Sample.token_a1 Sample.delete_m1) Sample.a1 "delete")
      as (_ & [_ E] & _); [by right | run | sample_call | run |].
    apply E. right. by eexists.
Defined.

Lemma update_touches_only_is_published_witness :
  let created := serve Sample.key Sample.store 500
                   (Sample.post Sample.token_a1 Sample.create_p1) in
  let updated := serve Sample.key (snd created) 600
                   (Sample.post Sample.token_a1 Sample.update_new) in
  fst created
  = json_response 200
      (SuccessBody (Some (ProgramModule.mk "module-2" "p1" "advertisement" false)))
  /\ program_modules (snd updated) !! "module-2"
     = Some (ProgramModule.mk "module-2" "p1" "advertisement" true)
  /\ program_modules (snd updated) !! "m1" = Some Sample.m1.
Proof.
  cbv zeta. split; [run|]. split; [|run].
  edestruct (update_touches_only_is_published Sample.key
               (snd (serve Sample.key Sample.store 500
                       (Sample.post Sample.token_a1 Sample.create_p1)))
               600 (Sample.post Sample.token_a1 Sample.update_new) Sample.a1)
    as (_ & _ & _ & _ & _ & Hround); [run | sample_call |].
  edestruct (Hround Sample.store 500 (Sample.post Sample.token_a1 Sample.create_p1)
               Sample.a1) as [_ E];
    [run | reflexivity | sample_call | run | run | run | run |].
  exact E.
Defined.

Lemma create_is_published_witness :
  program_modules
    (snd (serve Sample.key Sample.store 500
            (Sample.post Sample.token_a1 Sample.create_p1_published)))
  !! "module-2" = Some (ProgramModule.mk "module-2" "p1" "advertisement" true)
  /\ fst (serve Sample.key Sample.store 500
            (Sample.post Sample.token_a1 Sample.create_p1_published))
     = json_response 200
         (SuccessBody (Some (ProgramModule.mk "module-2" "p1" "advertisement" true)))
  /\ program_modules
       (snd (serve Sample.key Sample.store 500 (Sample.post Sample.token_a1 Sample.create_p1)))
     !! "module-2" = Some (ProgramModule.mk "module-2" "p1" "advertisement" false)
  /\ program_modules
       (snd (serve Sample.key Sample.store 500 (Sample.post Sample.token_a1 Sample.create_p1)))
     !! "m1" = Some Sample.m1.
Proof.
  pose proof (create_is_published Sample.key Sample.store 500
                (Sample.post Sample.token_a1 Sample.create_p1_published) Sample.a1
                (JObj [("program_id", JStr "p1"); ("module_type", JStr "advertisement");
                       ("is_published", JBool true)])
                "p1" (Program.mk "p1" "farmelife") "advertisement" (JBool true) true)
    as Hpub.
  pose proof (create_is_published Sample.key Sample.store 500
                (Sample.post Sample.token_a1 Sample.create_p1) Sample.a1
                (JObj [("program_id", JStr "p1"); ("module_type", JStr "advertisement")])
                "p1" (Program.mk "p1" "farmelife") "advertisement" JUndefined false)
    as Hdraft.
  cbv zeta in Hpub, Hdraft.
  destruct Hpub as (E & _ & _ & _ & Hrow & _);
    [run | sample_call | run | run | run | run | run | run | run |].
  destruct Hdraft as (_ & _ & _ & _ & Hrow' & _ & Hrest);
    [run | sample_call | run | run | run | run | run | run | run |].
  assert (Hid : generate_id (program_modules Sample.store) = "module-2")
    by (vm_compute; reflexivity).
  cbn [ProgramModule.id] in Hrow, Hrow', Hrest. rewrite Hid in Hrow, Hrow', Hrest.
  split; [exact Hrow|]. split; [rewrite E, Hid; reflexivity|]. split; [exact Hrow'|].
  rewrite (Hrest "m1"); [run|]. discriminate.
Defined.

(** * The further theorems at the sample data *)

Lemma division_isolation_witness :
  program_modules
    (snd (serve Sample.key Sample.store 500 (Sample.post Sample.token_a1 Sample.delete_m2)))
  !! "m2" = Some Sample.m2.
Proof.
  apply (division_isolation Sample.key Sample.store 500 _ "m2" Sample.m2); [run|].
  intros admin Ha. vm_compute in Ha. injection Ha as <-. vm_compute. discriminate.
Defined.

Lemma serve_failure_keeps_store_witness :
  snd (serve Sample.key Sample.store 500 (Sample.post Sample.token_a1 Sample.update_m2))
  = Sample.store.
Proof. apply serve_failure_keeps_store. vm_compute. discriminate. Defined.

Lemma serve_frame_witness :
  admins (snd (serve Sample.key Sample.store 500
                 (Sample.post Sample.token_a1 Sample.update_m1)))
  = admins Sample.store
  /\ programs (snd (serve Sample.key Sample.store 500
                      (Sample.post Sample.token_a1 Sample.update_m1)))
     = programs Sample.store.
Proof.
  pose proof (serve_frame Sample.key Sample.store 500
                (Sample.post Sample.token_a1 Sample.update_m1)) as Hf.
  cbv zeta in Hf. destruct Hf as (Ha & Hp & _). split; [exact Ha|exact Hp].
Defined.

Lemma responses_carry_cors_headers_witness :
  In ("Access-Control-Allow-Origin", "*")
     (headers (fst (serve Sample.key Sample.store 500
                      (Sample.post Sample.token_tampered Sample.update_m1))))
  /\ In ("Content-Type", "application/json")
        (headers (fst (serve Sample.key Sample.store 500
                         (Sample.post Sample.token_tampered Sample.update_m1)))).
Proof.
  pose proof (responses_carry_cors_headers Sample.key Sample.store 500
                (Sample.post Sample.token_tampered Sample.update_m1)) as Hh.
  cbv zeta in Hh. destruct Hh as (Hc & Hj & _). split.
  - apply Hc. left. reflexivity.
  - apply Hj. discriminate.
Defined.

Lemma authentication_precedes_body_witness :
  serve Sample.key Sample.store 500 (Sample.post Sample.token_tampered "not json")
  = serve Sample.key Sample.store 500 (Sample.post Sample.token_tampered Sample.update_m1)
  /\ status (fst (serve Sample.key Sample.store 500
                    (Sample.post Sample.token_tampered "not json"))) = 401.
Proof.
  destruct (authentication_precedes_body Sample.key Sample.store 500
              (Sample.post Sample.token_tampered "not json")
              (Sample.post Sample.token_tampered Sample.update_m1)) as [E _];
    [discriminate | discriminate | reflexivity | | split; [exact E|run]].
  intros admin. vm_compute. discriminate.
Defined.

Lemma missing_token_rejected_witness :
  serve Sample.key Sample.store 500 (Sample.anonymous Sample.update_m1)
  = (json_response 401 (ErrorBody "Admin token required"), Sample.store).
Proof. apply missing_token_rejected; [discriminate|by left]. Defined.

Lemma unknown_action_rejected_witness :
  serve Sample.key Sample.store 500 (Sample.post Sample.token_a1 Sample.archive)
  = (json_response 400 (ErrorBody "Invalid action"), Sample.store).
Proof.
  apply (unknown_action_rejected Sample.key Sample.store 500 _ Sample.a1
           (JObj [("action", JStr "archive"); ("data", JObj [])]) (JStr "archive"));
    [discriminate | run | run | reflexivity | discriminate..].
Defined.

Lemma unreadable_request_internal_error_witness :
  serve Sample.key Sample.store 500 (Sample.post Sample.token_a1 "not json")
  = (internal_error, Sample.store)
  /\ serve Sample.key Sample.store 500 (Sample.post Sample.token_a1 "{'action':'create'}")
     = (internal_error, Sample.store).
Proof.
  split.
  - destruct (unreadable_request_internal_error Sample.key Sample.store 500
                (Sample.post Sample.token_a1 "not json") Sample.a1) as [E _];
      [discriminate | run | left; run | exact E].
  - destruct (unreadable_request_internal_error Sample.key Sample.store 500
                (Sample.post Sample.token_a1 "{'action':'create'}") Sample.a1) as [E _];
      [discriminate | run | | exact E].
    right; right. exists "create", JUndefined. split; [by left|]. split; [by left|].
    sample_call.
Defined.

Lemma create_allows_duplicates_witness :
  exists m2 st2,
    serve Sample.key
      (snd (serve Sample.key Sample.store 500 (Sample.post Sample.token_a1 Sample.create_p1)))
      500 (Sample.post Sample.token_a1 Sample.create_p1)
    = (json_response 200 (SuccessBody (Some m2)), st2)
    /\ ProgramModule.id m2 <> "module-2"
    /\ ProgramModule.program_id m2 = "p1"
    /\ ProgramModule.module_type m2 = "advertisement"
    /\ program_modules st2 !! "module-2"
       = Some (ProgramModule.mk "module-2" "p1" "advertisement" false)
    /\ program_modules st2 !! ProgramModule.id m2 = Some m2.
Proof.
  apply (create_allows_duplicates Sample.key Sample.store 500
           (Sample.post Sample.token_a1 Sample.create_p1) Sample.a1
           (JObj [("program_id", JStr "p1"); ("module_type", JStr "advertisement")])
           (ProgramModule.mk "module-2" "p1" "advertisement" false));
    [run | sample_call | run | run].
Defined.

Lemma delete_removes_named_row_witness :
  program_modules
    (snd (serve Sample.key Sample.store 500 (Sample.post Sample.token_a1 Sample.delete_m1)))
  !! "m1" = None
  /\ program_modules
       (snd (serve Sample.key Sample.store 500 (Sample.post Sample.token_a1 Sample.delete_m1)))
     !! "m2" = Some Sample.m2.
Proof.
  pose proof (delete_removes_named_row Sample.key Sample.store 500
                (Sample.post Sample.token_a1 Sample.delete_m1) Sample.a1
                (JObj [("id", JStr "m1")]) "m1") as Hd.
  cbv zeta in Hd.
  destruct Hd as (_ & _ & _ & Hgone & Hrest & _); [run | sample_call | run | run |].
  split; [exact Hgone|]. rewrite Hrest; [run|discriminate].
Defined.

Lemma create_then_delete_restores_witness :
  serve Sample.key
    (snd (serve Sample.key Sample.store 500 (Sample.post Sample.token_a1 Sample.create_p1)))
    600 (Sample.post Sample.token_a1 Sample.delete_new)
  = (json_response 200 (SuccessBody None), Sample.store).
Proof.
  apply (create_then_delete_restores Sample.key Sample.store 500
           (Sample.post Sample.token_a1 Sample.create_p1) Sample.a1
           (JObj [("program_id", JStr "p1"); ("module_type", JStr "advertisement")]) "p1"
           (ProgramModule.mk "module-2" "p1" "advertisement" false) _
           600 (Sample.post Sample.token_a1 Sample.delete_new) Sample.a1
           (JObj [("id", JStr "module-2")]));
    [run | sample_call | run | run | run | reflexivity | sample_call | run].
Defined.

Lemma update_idempotent_witness :
  serve Sample.key
    (snd (serve Sample.key Sample.store 500 (Sample.post Sample.token_a1 Sample.update_m1)))
    500 (Sample.post Sample.token_a1 Sample.update_m1)
  = serve Sample.key Sample.store 500 (Sample.post Sample.token_a1 Sample.update_m1).
Proof.
  apply (update_idempotent Sample.key Sample.store 500 _ Sample.a1
           (JObj [("id", JStr "m1"); ("is_published", JBool true)]));
    [run | sample_call].
Defined.

Lemma publish_unpublish_restores_witness :
  serve Sample.key
    (snd (serve Sample.key Sample.store 500 (Sample.post Sample.token_a1 Sample.update_m1)))
    500 (Sample.post Sample.token_a1 Sample.unpublish_m1)
  = (json_response 200 (SuccessBody (Some Sample.m1)), Sample.store).
Proof.
  destruct (publish_unpublish_restores Sample.key Sample.store 500
              (Sample.post Sample.token_a1 Sample.update_m1)
              (Sample.post Sample.token_a1 Sample.unpublish_m1) Sample.a1
              (JObj [("id", JStr "m1"); ("is_published", JBool true)])
              (JObj [("id", JStr "m1"); ("is_published", JBool false)]) "m1" Sample.m1)
    as [_ E];
    [run | run | sample_call | sample_call | run | run | run | run | run | run | exact E].
Defined.

Lemma extra_segments_ignored_witness :
  verifyAdminToken (Sample.token_a1 ++ String "." "anything") Sample.key 500
  = verifyAdminToken Sample.token_a1 Sample.key 500.
Proof.
  apply (extra_segments_ignored Sample.token_a1 "anything" Sample.key 500
           "069c00309a0008b6852def201ef37c98946908e05e2ebc2f4a6896ecfb5268fc").
  run.
Defined.

Lemma payload_encoding_interchangeable_witness :
  verifyAdminToken (Sample.padded ++ String "." Sample.digest_no_exp) Sample.key 500
  = verifyAdminToken (Sample.unpadded ++ String "." Sample.digest_no_exp) Sample.key 500.
Proof.
  apply payload_encoding_interchangeable; [run | run | discriminate | discriminate | run].
Defined.

Lemma token_without_exp_never_expires_witness :
  verifyAdminToken Sample.token_no_exp Sample.key (10 ^ 18) = JObj [("admin_id", JStr "a1")].
Proof.
  apply (token_without_exp_never_expires Sample.token_no_exp Sample.key Sample.padded
           Sample.digest_no_exp (Sample.json_text "{'admin_id':'a1'}")
           (JObj [("admin_id", JStr "a1")]) JUndefined);
    [run | run | discriminate | discriminate | run | run | run | by left | run].
Defined.

Lemma hex_join_injective_witness :
  String.length (hex_join [x00; xff; x0a]) = 6%nat
  /\ (hex_join [x00; xff; x0a] = hex_join [x00; xff; x0a] -> [x00; xff; x0a] = [x00; xff; x0a]).
Proof.
  destruct (hex_join_injective [x00; xff; x0a]) as [Hlen Hinj]. split; [exact Hlen|].
  apply Hinj.
Defined.

Lemma create_lands_in_own_division_witness :
  exists m program,
    fst (serve Sample.key Sample.store 500 (Sample.post Sample.token_a1 Sample.create_p1))
    = json_response 200 (SuccessBody (Some m))
    /\ program_modules
         (snd (serve Sample.key Sample.store 500
                 (Sample.post Sample.token_a1 Sample.create_p1)))
       !! ProgramModule.id m = Some m
    /\ program_modules Sample.store !! ProgramModule.id m = None
    /\ ProgramModule.program_id m = "p1"
    /\ programs Sample.store !! "p1" = Some program
    /\ Program.division_id program = Admin.division_id Sample.a1.
Proof.
  apply (create_lands_in_own_division Sample.key Sample.store 500
           (Sample.post Sample.token_a1 Sample.create_p1) Sample.a1
           (JObj [("program_id", JStr "p1"); ("module_type", JStr "advertisement")]) "p1");
    [run | sample_call | run | run].
Defined.

Lemma rows_keep_identity_witness :
  ProgramModule.program_id (ProgramModule.mk "m1" "p1" "registration" true)
  = ProgramModule.program_id Sample.m1
  /\ program_modules
       (snd (serve Sample.key Sample.store 500 (Sample.post Sample.token_a1 Sample.update_m1)))
     !! "m1" = Some (ProgramModule.mk "m1" "p1" "registration" true).
Proof.
  split; [|run].
  destruct (rows_keep_identity Sample.key Sample.store 500
              (Sample.post Sample.token_a1 Sample.update_m1) "m1" Sample.m1
              (ProgramModule.mk "m1" "p1" "registration" true)) as (_ & Hp & _);
    [run | run | exact Hp].
Defined.

Lemma signature_is_case_sensitive_witness :
  verifyAdminToken Sample.token_a1_uppercase Sample.key 500 = JNull.
Proof.
  apply (signature_is_case_sensitive Sample.token_a1_uppercase Sample.key 500
           "069C00309A0008B6852DEF201EF37C98946908E05E2EBC2F4A6896ECFB5268FC"); run.
Defined.

Lemma toggle_reports_outcome_witness :
  handleModuleToggle Sample.key (Some Sample.token_a1) "p2" [] "advertisement" Sample.idle
    Sample.store 500
  = ({| isUpdating := None;
        toasts := [Toast.mk "Error" non_2xx (Some "destructive")];
        reloads := 0 |}, Sample.store)
  /\ status (fst (serve Sample.key Sample.store 500
                    (api_request (Some Sample.token_a1) "create"
                       (JObj [("program_id", JStr "p2"); ("module_type", JStr "advertisement");
                              ("is_published", JBool false)])))) = 403
  /\ toasts (fst (handlePublishToggle Sample.key (Some Sample.token_a1) "m1" false
                    Sample.idle Sample.store 500))
     = [Toast.mk "Module published" "This module is now visible to the public." None]
  /\ reloads (fst (handlePublishToggle Sample.key (Some Sample.token_a1) "m1" false
                     Sample.idle Sample.store 500)) = 1%nat.
Proof.
  pose proof (toggle_reports_outcome Sample.key (Some Sample.token_a1) "p2" []
                "advertisement" "m1" false Sample.idle Sample.store 500) as Ht.
  cbv zeta in Ht. destruct Ht as [(Hu & _ & Hfail) (_ & _ & Hok)].
  split; [|split; [run|]].
  - destruct Hfail as [(Hs & _)|(_ & Ht & Hr & Hst)].
    + exfalso. vm_compute in Hs. discriminate.
    + destruct (handleModuleToggle _ _ _ _ _ _ _ _) as [[u t r] st'].
      cbn [fst snd isUpdating toasts reloads] in Hu, Ht, Hr, Hst.
      rewrite Hu, Ht, Hr, Hst. reflexivity.
  - destruct Hok as [(_ & Ht & Hr)|(Hs & _)].
    + rewrite Ht, Hr. split; reflexivity.
    + exfalso. apply Hs. run.
Defined.

Lemma toggle_without_token_witness :
  handleModuleToggle Sample.key None "p1" [] "advertisement" Sample.idle Sample.store 500
  = ({| isUpdating := None;
        toasts := [Toast.mk "Error" non_2xx (Some "destructive")];
        reloads := 0 |}, Sample.store)
  /\ handlePublishToggle Sample.key (Some "") "m1" false Sample.idle Sample.store 500
     = ({| isUpdating := None;
           toasts := [Toast.mk "Error" non_2xx (Some "destructive")];
           reloads := 0 |}, Sample.store).
Proof.
  split.
  - apply (toggle_without_token Sample.key None "p1" [] "advertisement" "m1" false
             Sample.idle Sample.store 500). by left.
  - apply (toggle_without_token Sample.key (Some "") "p1" [] "advertisement" "m1" false
             Sample.idle Sample.store 500). by right.
Defined.

Lemma toggle_enables_as_draft_witness :
  program_modules
    (snd (handleModuleToggle Sample.key (Some Sample.token_a1) "p1" [Sample.m1]
            "advertisement" Sample.idle Sample.store 500))
  !! "module-2" = Some (ProgramModule.mk "module-2" "p1" "advertisement" false).
Proof.
  pose proof (toggle_enables_as_draft Sample.key (Some Sample.token_a1) "p1" [Sample.m1]
                "advertisement" Sample.idle Sample.store 500 Sample.a1
                (Program.mk "p1" "farmelife")) as Ht.
  cbv zeta in Ht. destruct Ht as [Hrow _]; [run | run | run | run | run | run |].
  exact Hrow.
Defined.

Lemma toggle_off_undoes_toggle_on_witness :
  snd (handleModuleToggle Sample.key (Some Sample.token_a1) "p1"
         [Sample.m1; ProgramModule.mk "module-2" "p1" "advertisement" false] "advertisement"
         (fst (handleModuleToggle Sample.key (Some Sample.token_a1) "p1" [Sample.m1]
                 "advertisement" Sample.idle Sample.store 500))
         (snd (handleModuleToggle Sample.key (Some Sample.token_a1) "p1" [Sample.m1]
                 "advertisement" Sample.idle Sample.store 500))
         600)
  = Sample.store.
Proof.
  pose proof (toggle_off_undoes_toggle_on Sample.key (Some Sample.token_a1) "p1" [Sample.m1]
                [Sample.m1; ProgramModule.mk "module-2" "p1" "advertisement" false]
                "advertisement" Sample.idle Sample.store 500 600 Sample.a1
                (Program.mk "p1" "farmelife")) as Ht.
  cbv zeta in Ht.
  destruct Ht as [Hst _]; [run | run | run | run | run | run | run | run | run |].
  exact Hst.
Defined.

Lemma toggle_off_removes_first_only_witness :
  program_modules
    (snd (handleModuleToggle Sample.key (Some Sample.token_a1) "p1" [Sample.m1; Sample.m3]
            "registration" Sample.idle Sample.doubled 500))
  !! "m1" = None
  /\ program_modules
       (snd (handleModuleToggle Sample.key (Some Sample.token_a1) "p1" [Sample.m1; Sample.m3]
               "registration" Sample.idle Sample.doubled 500))
     !! "m3" = Some Sample.m3
  /\ is_Some (getModule [Sample.m3] "registration").
Proof.
  pose proof (toggle_off_removes_first_only Sample.key (Some Sample.token_a1) "p1"
                [Sample.m1; Sample.m3] "registration" Sample.idle Sample.doubled 500
                Sample.a1 Sample.m1 Sample.m3) as Ht.
  cbv zeta in Ht.
  destruct Ht as (Hgone & Hstays & Hon);
    [run | run | run | run | run | run | discriminate | reflexivity |].
  split; [exact Hgone|]. split; [exact Hstays|]. apply Hon. by left.
Defined.

Lemma publish_toggle_sets_flag_witness :
  program_modules
    (snd (handlePublishToggle Sample.key (Some Sample.token_a1) "m1" false Sample.idle
            Sample.store 500))
  !! "m1" = Some (ProgramModule.mk "m1" "p1" "registration" true)
  /\ snd (handlePublishToggle Sample.key (Some Sample.token_a1) "m1" true
            (fst (handlePublishToggle Sample.key (Some Sample.token_a1) "m1" false Sample.idle
                    Sample.store 500))
            (snd (handlePublishToggle Sample.key (Some Sample.token_a1) "m1" false Sample.idle
                    Sample.store 500))
            600)
     = Sample.store.
Proof.
  pose proof (publish_toggle_sets_flag Sample.key (Some Sample.token_a1) "m1" false
                Sample.idle Sample.store 500 600 Sample.a1 Sample.m1) as Ht.
  cbv zeta in Ht. destruct Ht as (Hfirst & _ & Hsecond); [| run | run | run | run |].
  { intros [|]; run. }
  split; [rewrite Hfirst; run|]. apply Hsecond. reflexivity.
Defined.

Lemma registration_opens_on_publish_witness :
  button_label (Sample.listing Sample.bare) = "View Details"
  /\ button_label
       (Sample.listing
          (snd (handleModuleToggle Sample.key (Some Sample.token_a1) "p1" [] "registration"
                  Sample.idle Sample.bare 500))) = "View Details"
  /\ button_label
       (Sample.listing
          (snd (handlePublishToggle Sample.key (Some Sample.token_a1) "module-1" false
                  (fst (handleModuleToggle Sample.key (Some Sample.token_a1) "p1" []
                          "registration" Sample.idle Sample.bare 500))
                  (snd (handleModuleToggle Sample.key (Some Sample.token_a1) "p1" []
                          "registration" Sample.idle Sample.bare 500))
                  600))) = "View & Register".
Proof.
  pose proof (registration_opens_on_publish Sample.key (Some Sample.token_a1) "p1" []
                Sample.idle Sample.bare 500 600 Sample.a1 (Program.mk "p1" "farmelife")
                Sample.listing) as Ht.
  cbv zeta in Ht. apply Ht; [run | run | run | run | run | run | run | run | | reflexivity].
  intros k m. unfold Sample.bare. cbn [program_modules with_program_modules].
  rewrite lookup_insert. case_decide.
  - intros [= <-]. reflexivity.
  - rewrite lookup_empty. discriminate.
Defined.

Lemma announcements_published_only_witness :
  List.length (allAnnouncements Sample.listings) = 2%nat
  /\ In (Notice.mk Sample.harvest "Seed bank" "p2") (allAnnouncements Sample.listings).
Proof.
  destruct (announcements_published_only Sample.listings) as [Hin Hlen].
  split; [rewrite Hlen; reflexivity|].
  apply Hin. exists (Listing.mk "p2" "Seed bank" None None None true true None (Some [])
                       (Some [Sample.harvest])), Sample.harvest, [Sample.harvest].
  split; [right; left; reflexivity|]. split; [reflexivity|]. split; [by left|].
  split; reflexivity.
Defined.

Lemma announcements_newest_first_witness :
  allAnnouncements Sample.listings
  = [Notice.mk Sample.harvest "Seed bank" "p2"; Notice.mk Sample.spring "Kitchen garden" "p1"]
  /\ exists tx ty,
       Date_getTime (Announcement.created_at Sample.harvest) = Some tx
       /\ Date_getTime (Announcement.created_at Sample.spring) = Some ty
       /\ ty <= tx.
Proof.
  split; [run|].
  apply (fun valid =>
           announcements_newest_first Sample.listings valid 0 1
             (Notice.mk Sample.harvest "Seed bank" "p2")
             (Notice.mk Sample.spring "Kitchen garden" "p1"));
    [|lia|run|run].
  intros p a items [<-|[<-|[<-|[]]]] [= <-].
  - intros [<-|[<-|[]]]; [intros _; vm_compute; eauto|discriminate].
  - intros [<-|[]] _. vm_compute. eauto.
Defined.
